(** * EKS cluster resource of the Cloudify AWS plugin

    A shallow embedding of [cloudify_aws/eks/resources/cluster.py]:
    the kubeconfig credential derivation (presigned STS URL, bearer
    token, configuration document), the readiness wait, the describe
    and delete calls of [EKSCluster], and the [poststart] operation.

    Python values are embedded as a small tagged union, effects as a
    state-and-exception monad over a world that records every request
    sent to an external collaborator. *)

From Stdlib Require Import ZArith Lia List Ascii String.
From stdpp Require Import base option list strings gmap.

Set Warnings "-register-all".

Local Open Scope string_scope.
Local Open Scope list_scope.
Local Open Scope Z_scope.

(** ** Python strings and bytes

    A Python [str] is a sequence of Unicode code points, a [bytes]
    object a sequence of octets; both are lists of integers here. *)

Abbreviation str := (list Z) (only parsing).
Abbreviation bytes := (list Z) (only parsing).

(** A string literal of the source (ASCII) as a Python [str]. *)
Definition lit (s : string) : str :=
  map (fun a => Z.of_N (N_of_ascii a)) (list_ascii_of_string s).

(** [s.rstrip(chars)]: drop the longest suffix made of characters of
    [chars]. *)
Fixpoint rstrip (chars s : str) : str :=
  match s with
  | [] => []
  | c :: s' =>
      match rstrip chars s' with
      | [] => if bool_decide (c ∈ chars) then [] else [c]
      | r => c :: r
      end
  end.

(** [s.startswith(p)] *)
Fixpoint startswith (p s : str) : bool :=
  match p, s with
  | [], _ => true
  | a :: p', b :: s' => (a =? b) && startswith p' s'
  | _ :: _, [] => false
  end.

(** ** The standard library's codecs used by the module *)

(** Python exceptions the module raises, catches or lets through. *)
Inductive exn :=
| ClientError (code : string)          (* botocore.exceptions.ClientError *)
| CloudifyClientError                  (* cloudify_rest_client.exceptions *)
| NonRecoverableError (msg : str)      (* cloudify.exceptions *)
| WaiterError (reason : string)        (* botocore.exceptions.WaiterError *)
| TypeError (msg : str)
| KeyError (key : string)
| AttributeError (attr : string)
| ValueError (msg : str)
| UnicodeEncodeError
| OtherError (name : string).

Inductive result (A : Type) :=
| Ok (a : A)
| Raise (e : exn).
Arguments Ok {A} a.
Arguments Raise {A} e.

(** [str.encode('utf-8')]: one to four octets per code point; lone
    surrogates (and integers that are no code point) are refused. *)
Definition utf8_encode_char (cp : Z) : result bytes :=
  if (cp <? 0) then Raise UnicodeEncodeError
  else if (cp <? 128) then Ok [cp]
  else if (cp <? 2048) then Ok [192 + cp / 64; 128 + cp mod 64]
  else if (cp <? 65536) then
    if (55296 <=? cp) && (cp <=? 57343) then Raise UnicodeEncodeError
    else Ok [224 + cp / 4096; 128 + (cp / 64) mod 64; 128 + cp mod 64]
  else if (cp <? 1114112) then
    Ok [240 + cp / 262144; 128 + (cp / 4096) mod 64;
        128 + (cp / 64) mod 64; 128 + cp mod 64]
  else Raise UnicodeEncodeError.

Fixpoint utf8_encode (s : str) : result bytes :=
  match s with
  | [] => Ok []
  | cp :: s' =>
      match utf8_encode_char cp with
      | Raise e => Raise e
      | Ok b =>
          match utf8_encode s' with
          | Raise e => Raise e
          | Ok bs => Ok (b ++ bs)
          end
      end
  end.

(** [bytes.decode('utf-8')] on ASCII content, which is all the module
    decodes (the output of the base64 encoder): every octet below 128 is
    the code point of the same number. *)
Fixpoint ascii_decode (b : bytes) : result str :=
  match b with
  | [] => Ok []
  | c :: b' =>
      if (0 <=? c) && (c <? 128) then
        match ascii_decode b' with
        | Ok s => Ok (c :: s)
        | Raise e => Raise e
        end
      else Raise (OtherError "UnicodeDecodeError")
  end.

(** Base64 (RFC 4648), as [base64.b64encode]: three octets become four
    characters of the alphabet, the last group is padded with ['=']. *)
Definition b64_alphabet : str :=
  lit "ABCDEFGHIJKLMNOPQRSTUVWXYZabcdefghijklmnopqrstuvwxyz0123456789+/".

Definition b64_pad : Z := 61.  (* '=' *)

Definition b64_char (i : Z) : Z := nth (Z.to_nat i) b64_alphabet b64_pad.

Fixpoint b64encode (s : bytes) : bytes :=
  match s with
  | [] => []
  | [b1] =>
      [b64_char (b1 / 4); b64_char ((b1 mod 4) * 16); b64_pad; b64_pad]
  | [b1; b2] =>
      [b64_char (b1 / 4); b64_char ((b1 mod 4) * 16 + b2 / 16);
       b64_char ((b2 mod 16) * 4); b64_pad]
  | b1 :: b2 :: b3 :: rest =>
      b64_char (b1 / 4) :: b64_char ((b1 mod 4) * 16 + b2 / 16) ::
      b64_char ((b2 mod 16) * 4 + b3 / 64) :: b64_char (b3 mod 64) ::
      b64encode rest
  end.

(** The URL-safe variant translates ['+'] to ['-'] and ['/'] to ['_']. *)
Definition urlsafe_encode_translation (c : Z) : Z :=
  if c =? 43 then 45 else if c =? 47 then 95 else c.

Definition urlsafe_decode_translation (c : Z) : Z :=
  if c =? 45 then 43 else if c =? 95 then 47 else c.

Definition urlsafe_b64encode (s : bytes) : bytes :=
  map urlsafe_encode_translation (b64encode s).

(** Position of a character in the alphabet. *)
Fixpoint index_of (c : Z) (l : list Z) (i : Z) : option Z :=
  match l with
  | [] => None
  | x :: l' => if x =? c then Some i else index_of c l' (i + 1)
  end.

Definition b64_index (c : Z) : option Z := index_of c b64_alphabet 0.

(** [base64.b64decode] on padded input: groups of four characters; a
    malformed group is [binascii.Error], here [None]. *)
Fixpoint b64decode (s : bytes) : option bytes :=
  match s with
  | [] => Some []
  | [c1; c2; c3; c4] =>
      i1 ← b64_index c1; i2 ← b64_index c2;
      if c4 =? b64_pad then
        if c3 =? b64_pad then Some [i1 * 4 + i2 / 16]
        else
          i3 ← b64_index c3;
          Some [i1 * 4 + i2 / 16; (i2 mod 16) * 16 + i3 / 4]
      else
        i3 ← b64_index c3; i4 ← b64_index c4;
        Some [i1 * 4 + i2 / 16; (i2 mod 16) * 16 + i3 / 4;
              (i3 mod 4) * 64 + i4]
  | c1 :: c2 :: c3 :: c4 :: rest =>
      i1 ← b64_index c1; i2 ← b64_index c2;
      i3 ← b64_index c3; i4 ← b64_index c4;
      r ← b64decode rest;
      Some (i1 * 4 + i2 / 16 :: (i2 mod 16) * 16 + i3 / 4 ::
            (i3 mod 4) * 64 + i4 :: r)
  | _ => None
  end.

Definition urlsafe_b64decode (s : bytes) : option bytes :=
  b64decode (map urlsafe_decode_translation s).

(** What a consumer of the token does before decoding: pad with ['=']
    up to a multiple of four characters. *)
Definition repad (s : bytes) : bytes :=
  s ++ replicate (Z.to_nat ((4 - Z.of_nat (length s) mod 4) mod 4)) b64_pad.

(** ** Python values

    The objects the module handles: blueprint properties, provider
    responses, the kubeconfig document.  Dictionaries keep insertion
    order and are keyed by the string literals of the source; [PObj]
    stands for an object of any other class. *)

Inductive pyval :=
| PNone
| PBool (b : bool)
| PInt (n : Z)
| PStr (s : str)
| PList (l : list pyval)
| PDict (d : list (string * pyval))
| PObj (type_name : string).

Abbreviation pydict := (list (string * pyval)) (only parsing).

Fixpoint dict_lookup (k : string) (d : pydict) : option pyval :=
  match d with
  | [] => None
  | (k', v) :: d' => if String.eqb k k' then Some v else dict_lookup k d'
  end.

Fixpoint dict_insert (k : string) (v : pyval) (d : pydict) : pydict :=
  match d with
  | [] => [(k, v)]
  | (k', v') :: d' =>
      if String.eqb k k' then (k, v) :: d' else (k', v') :: dict_insert k v d'
  end.

(** Truth value of an object, as [if x:] and [x or y] test it. *)
Definition truthy (v : pyval) : bool :=
  match v with
  | PNone => false
  | PBool b => b
  | PInt n => negb (n =? 0)
  | PStr s => match s with [] => false | _ => true end
  | PList l => match l with [] => false | _ => true end
  | PDict d => match d with [] => false | _ => true end
  | PObj _ => true
  end.

Definition type_name_of (v : pyval) : string :=
  match v with
  | PNone => "NoneType"
  | PBool _ => "bool"
  | PInt _ => "int"
  | PStr _ => "str"
  | PList _ => "list"
  | PDict _ => "dict"
  | PObj t => t
  end.

(** [v[k]] for a string key [k]. *)
Definition getitem (v : pyval) (k : string) : result pyval :=
  match v with
  | PDict d =>
      match dict_lookup k d with
      | Some x => Ok x
      | None => Raise (KeyError k)
      end
  | _ => Raise (TypeError (lit (type_name_of v ++ " object is not subscriptable")))
  end.

(** [v.get]: only a dictionary has the method. *)
Definition get_method (v : pyval) : result pydict :=
  match v with
  | PDict d => Ok d
  | _ => Raise (AttributeError "get")
  end.

Definition dict_get (d : pydict) (k : string) (default : pyval) : pyval :=
  match dict_lookup k d with
  | Some x => x
  | None => default
  end.

(** [v.get(k)] with the default [None]. *)
Definition py_get (v : pyval) (k : string) : result pyval :=
  match get_method v with
  | Ok d => Ok (dict_get d k PNone)
  | Raise e => Raise e
  end.

(** [v.copy()] *)
Definition py_copy (v : pyval) : result pyval :=
  match v with
  | PDict d => Ok (PDict d)
  | PList l => Ok (PList l)
  | _ => Raise (AttributeError "copy")
  end.

(** [v[k] = x] for a string key [k]. *)
Definition setitem (v : pyval) (k : string) (x : pyval) : result pyval :=
  match v with
  | PDict d => Ok (PDict (dict_insert k x d))
  | PList _ => Raise (TypeError (lit "list indices must be integers or slices, not str"))
  | _ => Raise (TypeError (lit (type_name_of v ++ " object does not support item assignment")))
  end.

(** [**v] in a call: the keyword arguments of a mapping.  Of the text of
    the [TypeError] only the fixed part is kept: Python puts the name of
    the function called before it and the type of [v] after it. *)
Definition kwargs_of (v : pyval) : result pydict :=
  match v with
  | PDict d => Ok d
  | _ => Raise (TypeError (lit "argument after ** must be a mapping"))
  end.

(** [for x in v] *)
Definition py_iter (v : pyval) : result (list pyval) :=
  match v with
  | PList l => Ok l
  | PStr s => Ok (map (fun c => PStr [c]) s)
  | PDict d => Ok (map (fun kv => PStr (lit (fst kv))) d)
  | _ => Raise (TypeError (lit (type_name_of v ++ " object is not iterable")))
  end.

(** [sep.join(l)]: every item has to be a [str]. *)
Fixpoint py_join (sep : str) (l : list pyval) : result str :=
  match l with
  | [] => Ok []
  | PStr s :: l' =>
      match l' with
      | [] => Ok s
      | _ =>
          match py_join sep l' with
          | Ok r => Ok (s ++ sep ++ r)
          | Raise e => Raise e
          end
      end
  | _ :: _ => Raise (TypeError (lit "sequence item: expected str instance"))
  end.

(** [url.encode('utf-8')]: a method of [str]. *)
Definition py_encode_utf8 (v : pyval) : result bytes :=
  match v with
  | PStr s => utf8_encode s
  | _ => Raise (AttributeError "encode")
  end.

(** [json.dumps(v)], whose text the module discards: only the outcome is
    kept.  An object of a class the encoder does not know is a
    [TypeError] naming the class. *)
Fixpoint json_dumps (v : pyval) : result unit :=
  match v with
  | PObj t =>
      Raise (TypeError (lit ("Object of type " ++ t ++ " is not JSON serializable")))
  | PList l =>
      (fix items (l : list pyval) : result unit :=
         match l with
         | [] => Ok tt
         | x :: l' =>
             match json_dumps x with
             | Ok _ => items l'
             | Raise e => Raise e
             end
         end) l
  | PDict d =>
      (fix items (d : pydict) : result unit :=
         match d with
         | [] => Ok tt
         | (_, x) :: d' =>
             match json_dumps x with
             | Ok _ => items d'
             | Raise e => Raise e
             end
         end) d
  | _ => Ok tt
  end.

(** [text_type(error)] for an exception: its message. *)
Definition exn_text (e : exn) : str :=
  match e with
  | ClientError code => lit code
  | CloudifyClientError => lit "CloudifyClientError"
  | NonRecoverableError msg => msg
  | WaiterError reason => lit reason
  | TypeError msg => msg
  | KeyError k => lit k
  | AttributeError a => lit a
  | ValueError msg => msg
  | UnicodeEncodeError => lit "UnicodeEncodeError"
  | OtherError n => lit n
  end.

(** ** The world outside the module

    Every request to an external collaborator (the EKS and STS clients,
    the orchestrator's utilities, the clock) is a [Call]; the world keeps
    the calls made so far, the instance's runtime properties and the
    lines logged. *)

Inductive Call :=
| DescribeCluster (kwargs : pydict)        (* client.describe_cluster *)
| DeleteCluster (kwargs : pydict)          (* client.delete_cluster *)
| ListFargateProfiles (kwargs : pydict)    (* client.list_fargate_profiles *)
| ListNodegroups (kwargs : pydict)         (* client.list_nodegroups *)
| Sleep (seconds : Z)                      (* the waiter's delay *)
| Boto3Client (service : string) (kwargs : pydict)
| SignRequest (operation : string) (params headers : gmap string pyval)
              (http_method : string) (expires_in : Z)
| SubnetProperties (subnet : pyval)        (* properties of an EC2Subnet *)
| AddNewLabels (labels : pyval) (deployment_id : pyval)
| AssignSite (deployment_id coordinates name : pyval)
| JsonCleanuper (v : pyval).               (* to_dict of utils.JsonCleanuper *)

Inductive level := DEBUG | INFO | WARN.

Record world := World {
  calls : list Call;
  runtime_properties : gmap string pyval;
  logged : list (level * str)
}.

(** The collaborators: what each call answers, given the calls made
    before it; the table [constants.LOCATIONS]; and [str(x)] for the
    objects that are no [str]. *)
Record Env := {
  respond : list Call -> Call -> result pyval;
  LOCATIONS : list (str * pyval);
  py_str : pyval -> str
}.

(** Computations of the module: a state transformer that may raise.
    What was done before an exception stays done. *)
Definition M (A : Type) : Type := world -> result A * world.

Definition ret {A} (a : A) : M A := fun w => (Ok a, w).

Definition raise {A} (e : exn) : M A := fun w => (Raise e, w).

Definition bind {A B} (m : M A) (k : A -> M B) : M B :=
  fun w =>
    match m w with
    | (Ok a, w') => k a w'
    | (Raise e, w') => (Raise e, w')
    end.

Notation "x <- m ;; k" := (bind m (fun x => k))
  (at level 100, m at next level, right associativity).
Notation "m ;;; k" := (bind m (fun _ => k))
  (at level 100, right associativity).

Definition lift {A} (r : result A) : M A := fun w => (r, w).

(** [try: body / except <caught>: handler / else: orelse] *)
Definition try_except_else {A B} (body : M A) (caught : exn -> bool)
    (handler : exn -> M B) (orelse : A -> M B) : M B :=
  fun w =>
    match body w with
    | (Ok a, w') => orelse a w'
    | (Raise e, w') => if caught e then handler e w' else (Raise e, w')
    end.

Definition try_except {A} (body : M A) (caught : exn -> bool)
    (handler : exn -> M A) : M A :=
  try_except_else body caught handler ret.

Definition is_ClientError (e : exn) : bool :=
  match e with ClientError _ => true | _ => false end.

Definition is_CloudifyClientError (e : exn) : bool :=
  match e with CloudifyClientError => true | _ => false end.

Definition is_TypeError (e : exn) : bool :=
  match e with TypeError _ => true | _ => false end.

Definition log (l : level) (msg : str) : M unit :=
  fun w => (Ok tt, World (calls w) (runtime_properties w) (logged w ++ [(l, msg)])).

Definition set_runtime_property (k : string) (v : pyval) : M unit :=
  fun w => (Ok tt, World (calls w) (<[k := v]> (runtime_properties w)) (logged w)).

Definition get_runtime_properties : M (gmap string pyval) :=
  fun w => (Ok (runtime_properties w), w).

(** ** Constants of the module *)

Definition RESOURCE_TYPE : str := lit "EKS Cluster".
Definition CLUSTER_NAME : string := "name".
Definition CLUSTER_ARN : string := "arn".
Definition CLUSTER : string := "cluster".

Definition CLUSTER_NAME_HEADER : string := "x-k8s-aws-id".
Definition TOKEN_PREFIX : str := lit "k8s-aws-v1.".
Definition TOKEN_EXPIRATION_MINS : Z := 60.

(** ** The STS client's event hooks *)

(** The request that is handed to the signer.  Its headers are kept as
    a map from names to values, which is what [request.headers] is as
    long as no name is set twice: on botocore's request an assignment to
    a name that is already there adds a second value instead of
    replacing the first. *)
Record request := Request {
  req_params : gmap string pyval;
  req_headers : gmap string pyval;
  req_context : gmap string pyval
}.

(** A handler receives either the call's parameters and context, or the
    request about to be signed; it updates them in place. *)
Inductive handler :=
| OnParams (h : gmap string pyval -> gmap string pyval ->
                gmap string pyval * gmap string pyval)
| OnRequest (h : request -> request).

Record sts_client := StsClient {
  events : list (string * handler)
}.

Definition register (event : string) (h : handler) (c : sts_client) : sts_client :=
  StsClient (events c ++ [(event, h)]).

Definition _retrieve_cluster_name (params context : gmap string pyval)
  : gmap string pyval * gmap string pyval :=
  match params !! "ClusterName" with
  | Some v => (delete "ClusterName" params, <["eks_cluster" := v]> context)
  | None => (params, context)
  end.

Definition _inject_cluster_name_header (r : request) : request :=
  match req_context r !! "eks_cluster" with
  | Some v =>
      Request (req_params r) (<[CLUSTER_NAME_HEADER := v]> (req_headers r))
              (req_context r)
  | None => r
  end.

Definition _register_cluster_name_handlers (c : sts_client) : sts_client :=
  register "before-sign.sts.GetCallerIdentity" (OnRequest _inject_cluster_name_header)
    (register "provide-client-params.sts.GetCallerIdentity"
       (OnParams _retrieve_cluster_name) c).

(** Modelled from the spec: the client's event bus and presigning
    pipeline (botocore) are not part of the module.  The signing process
    is intercepted at two points: the handlers of [provide-client-params]
    run on the parameters before they are serialized, the handlers of
    [before-sign] run on the request immediately before it is signed. *)
Fixpoint emit_params (event : string) (hs : list (string * handler))
    (params context : gmap string pyval)
  : gmap string pyval * gmap string pyval :=
  match hs with
  | [] => (params, context)
  | (ev, OnParams h) :: hs' =>
      if String.eqb ev event then
        let '(p, c) := h params context in emit_params event hs' p c
      else emit_params event hs' params context
  | _ :: hs' => emit_params event hs' params context
  end.

Fixpoint emit_request (event : string) (hs : list (string * handler))
    (r : request) : request :=
  match hs with
  | [] => r
  | (ev, OnRequest h) :: hs' =>
      if String.eqb ev event then emit_request event hs' (h r)
      else emit_request event hs' r
  | _ :: hs' => emit_request event hs' r
  end.

Definition operation_name (client_method : string) : result string :=
  if String.eqb client_method "get_caller_identity" then Ok "GetCallerIdentity"
  else if String.eqb client_method "assume_role" then Ok "AssumeRole"
  else if String.eqb client_method "get_session_token" then Ok "GetSessionToken"
  else Raise (OtherError "UnknownClientMethodError").

(** Modelled from the spec: the waiters of the EKS client (botocore) are
    not part of the module.  A waiter describes the cluster at a fixed
    interval up to a ceiling of attempts; it succeeds when the target is
    observed ([ACTIVE], or not-found for deletion) and fails when the
    budget is exhausted. *)
Inductive waiter := cluster_active | cluster_deleted.

Definition get_waiter (name : string) : result waiter :=
  if String.eqb name "cluster_active" then Ok cluster_active
  else if String.eqb name "cluster_deleted" then Ok cluster_deleted
  else Raise (ValueError (lit ("Waiter does not exist: " ++ name))).

Definition reached (wt : waiter) (r : result pyval) : bool :=
  match wt, r with
  | cluster_active, Ok v =>
      match getitem v "cluster" with
      | Ok c =>
          match getitem c "status" with
          | Ok (PStr s) => bool_decide (s = lit "ACTIVE")
          | _ => false
          end
      | Raise _ => false
      end
  | cluster_deleted, Raise (ClientError code) =>
      String.eqb code "ResourceNotFoundException"
  | _, _ => false
  end.

(** The cluster config hash that [get_kubeconf] builds, as a function of
    its three variable entries. *)
Definition cluster_config (cluster_ep cluster_cert token : str) : pyval :=
  PDict [
    ("apiVersion", PStr (lit "v1"));
    ("kind", PStr (lit "Config"));
    ("clusters", PList [
       PDict [
         ("cluster", PDict [
            ("server", PStr cluster_ep);
            ("certificate-authority-data", PStr cluster_cert)
          ]);
         ("name", PStr (lit "kubernetes"))
       ]
     ]);
    ("contexts", PList [
       PDict [
         ("context", PDict [
            ("cluster", PStr (lit "kubernetes"));
            ("user", PStr (lit "aws"))
          ]);
         ("name", PStr (lit "aws"))
       ]
     ]);
    ("current-context", PStr (lit "aws"));
    ("preferences", PDict []);
    ("users", PList [
       PDict [
         ("name", PStr (lit "aws"));
         ("user", PDict [
            ("token", PStr token)
          ])
       ]
     ])
  ].

(** ** The module *)

(** The [ctx] of an operation: the node's properties (a dictionary of
    the blueprint) and the deployment's id. *)
Record Ctx := {
  node_properties : pyval;
  deployment_id : pyval
}.

(** The state of an [EKSCluster] interface object. *)
Record EKSCluster := {
  resource_id : pyval;
  describe_param : pyval
}.

Section Cluster.

Context (E : Env).

(** A request to a collaborator: logged, then answered. *)
Definition call (c : Call) : M pyval :=
  fun w =>
    (respond E (calls w) c,
     World (calls w ++ [c]) (runtime_properties w) (logged w)).

Definition sleep (seconds : Z) : M unit :=
  fun w =>
    (Ok tt, World (calls w ++ [Sleep seconds]) (runtime_properties w) (logged w)).

(** [text_type(v)], also what ['{}'.format(v)] renders. *)
Definition text_type (v : pyval) : str :=
  match v with
  | PStr s => s
  | _ => py_str E v
  end.

(** [constants.LOCATIONS.get(k)] *)
Definition LOCATIONS_get (k : pyval) : result pyval :=
  match k with
  | PStr s =>
      Ok (match find (fun kv => bool_decide (fst kv = s)) (LOCATIONS E) with
          | Some kv => snd kv
          | None => PNone
          end)
  | PList _ => Raise (TypeError (lit "unhashable type: 'list'"))
  | PDict _ => Raise (TypeError (lit "unhashable type: 'dict'"))
  | _ => Ok PNone
  end.

(** [boto3.client(service, **config)]: a client with no handler yet. *)
Definition boto3_client (service : string) (config : pyval) : M sts_client :=
  kw <- lift (kwargs_of config) ;;
  call (Boto3Client service kw) ;;;
  ret (StsClient []).

(** Modelled from the spec: [generate_presigned_url] of the client
    (botocore) is not part of the module.  Parameters go through the
    [provide-client-params] handlers, the request built from them goes
    through the [before-sign] handlers, and what comes out is signed. *)
Definition generate_presigned_url (c : sts_client) (client_method : string)
    (params : gmap string pyval) (http_method : string) (expires_in : Z)
  : M pyval :=
  op <- lift (operation_name client_method) ;;
  let '(params', context) :=
    emit_params ("provide-client-params.sts." ++ op) (events c) params ∅ in
  let r := emit_request ("before-sign.sts." ++ op) (events c)
             (Request params' ∅ context) in
  call (SignRequest op (req_params r) (req_headers r) http_method expires_in).

(** Modelled from the spec: the polling loop of a waiter. *)
Fixpoint waiter_poll (wt : waiter) (kwargs : pydict) (delay : Z)
    (remaining : nat) : M unit :=
  fun w =>
    let '(r, w') := call (DescribeCluster kwargs) w in
    if reached wt r then (Ok tt, w')
    else
      match remaining with
      | O => (Raise (WaiterError "Max attempts exceeded"), w')
      | S n => (sleep delay ;;; waiter_poll wt kwargs delay n) w'
      end.

Definition waiter_wait (wt : waiter) (kwargs : pydict)
    (delay max_attempts : Z) : M unit :=
  waiter_poll wt kwargs delay (Z.to_nat max_attempts - 1)%nat.

(** *** class EKSCluster *)

Definition EKSCluster_describe (self : EKSCluster) (params : pyval) : M pyval :=
  let params := if truthy params then params else describe_param self in
  try_except
    (kw <- lift (kwargs_of params) ;;
     r <- call (DescribeCluster kw) ;;
     lift (getitem r CLUSTER))
    is_ClientError
    (fun _ => ret (PDict [])).

Definition EKSCluster_properties (self : EKSCluster) : M pyval :=
  try_except_else
    (EKSCluster_describe self PNone)
    is_ClientError
    (fun _ => ret PNone)
    (fun properties => ret (if negb (truthy properties) then PNone else properties)).

Definition EKSCluster_status (self : EKSCluster) : M pyval :=
  props <- EKSCluster_properties self ;;
  if negb (truthy props) then ret PNone
  else lift (py_get props "status").

Definition EKSCluster_fargate_profiles (self : EKSCluster) : M pyval :=
  r <- call (ListFargateProfiles [("clusterName", resource_id self)]) ;;
  lift (getitem r "fargateProfileNames").

Definition EKSCluster_nodegroups (self : EKSCluster) : M pyval :=
  r <- call (ListNodegroups [("clusterName", resource_id self)]) ;;
  lift (getitem r "nodegroups").

Definition EKSCluster_wait_for_cluster (self : EKSCluster) (params : pyval)
    (status : string) : M unit :=
  waiter <- lift (get_waiter status) ;;
  name <- lift (py_get params CLUSTER_NAME) ;;
  waiter_wait waiter [("name", name)] 30 40.

Definition EKSCluster_get_kubeconf (self : EKSCluster)
    (client_config params : pyval) : M pyval :=
  name <- lift (py_get params CLUSTER_NAME) ;;
  cluster <- call (DescribeCluster [("name", name)]) ;;
  c <- lift (getitem cluster "cluster") ;;
  ca <- lift (getitem c "certificateAuthority") ;;
  cluster_cert <- lift (getitem ca "data") ;;
  c <- lift (getitem cluster "cluster") ;;
  cluster_ep <- lift (getitem c "endpoint") ;;
  sts_client <- boto3_client "sts" client_config ;;
  let sts_client := _register_cluster_name_handlers sts_client in
  name <- lift (py_get params CLUSTER_NAME) ;;
  url <- generate_presigned_url sts_client "get_caller_identity"
           {["ClusterName" := name]} "GET" TOKEN_EXPIRATION_MINS ;;
  url_bytes <- lift (py_encode_utf8 url) ;;
  let encoded := urlsafe_b64encode url_bytes in
  encoded_str <- lift (ascii_decode encoded) ;;
  let token := TOKEN_PREFIX ++ rstrip (lit "=") encoded_str in
  ret (cluster_config (text_type cluster_ep) (text_type cluster_cert) token).

Definition EKSCluster_delete (self : EKSCluster) (params : pyval) : M pyval :=
  name <- lift (py_get params CLUSTER_NAME) ;;
  res <- call (DeleteCluster [(CLUSTER_NAME, name)]) ;;
  log DEBUG (lit "Response: " ++ text_type res) ;;;
  ret res.

(** *** Module-level functions and operations

    The operations are the bodies under the [aws_resource] decorator,
    which builds [iface] and passes [resource_config]. *)

Definition _store_kubeconfig_in_runtime_properties
    (get_kubeconf : pyval -> pyval -> M pyval)
    (node_props : pyval) (params : pyval) : M unit :=
  try_except
    (client_config <- lift (getitem node_props "client_config") ;;
     kubeconf <- get_kubeconf client_config params ;;
     lift (json_dumps kubeconf) ;;;
     set_runtime_property "kubeconf" kubeconf)
    is_TypeError
    (fun error =>
       raise (NonRecoverableError
                (lit "kubeconf not json serializable " ++ exn_text error))).

Fixpoint get_zones_loop (subnets : list pyval) : M (list pyval) :=
  match subnets with
  | [] => ret []
  | subnet :: rest =>
      props <- call (SubnetProperties subnet) ;;
      availability_zone <- lift (getitem props "AvailabilityZone") ;;
      zones <- get_zones_loop rest ;;
      ret (availability_zone :: zones)
  end.

Definition get_zones (ctx : Ctx) (subnets : pyval) : M (list pyval) :=
  l <- lift (py_iter subnets) ;;
  get_zones_loop l.

(** The node classification of [poststart]. *)
Definition node_type_of (fargate node_group : pyval) : str :=
  if truthy fargate && truthy node_group then lit "fargate-nodegroup"
  else if truthy fargate then lit "fargate"
  else lit "nodegroup".

Definition poststart (ctx : Ctx) (iface : EKSCluster) (resource_config : pyval)
  : M unit :=
  params <- (if negb (truthy resource_config) then ret (PDict [])
             else lift (py_copy resource_config)) ;;
  n <- lift (py_get params "name") ;;
  name <- (if truthy n then ret n
           else lift (py_get (node_properties ctx) "resource_id")) ;;
  params <- (if truthy name then lift (setitem params "name" name)
             else ret params) ;;
  log INFO (lit "Waiting for Cluster to become Active.") ;;;
  EKSCluster_wait_for_cluster iface params "cluster_active" ;;;
  store_kube_config_in_runtime <-
    lift (getitem (node_properties ctx) "store_kube_config_in_runtime") ;;
  (if truthy store_kube_config_in_runtime then
     _store_kubeconfig_in_runtime_properties
       (EKSCluster_get_kubeconf iface) (node_properties ctx) params
   else ret tt) ;;;
  client_config <- lift (getitem (node_properties ctx) "client_config") ;;
  region_name <- lift (getitem client_config "region_name") ;;
  props <- EKSCluster_properties iface ;;
  arn <- lift (getitem props "arn") ;;
  rp <- get_runtime_properties ;;
  let aws_resource_arn := default arn (rp !! "aws_resource_arn") in
  fargate <- EKSCluster_fargate_profiles iface ;;
  node_group <- EKSCluster_nodegroups iface ;;
  let node_type := node_type_of fargate node_group in
  rc <- lift (get_method resource_config) ;;
  props <- EKSCluster_properties iface ;;
  vpc <- lift (getitem props "resourcesVpcConfig") ;;
  subnets <- lift (getitem (dict_get rc "resourcesVpcConfig" vpc) "subnetIds") ;;
  zones <- get_zones ctx subnets ;;
  try_except
    (location <- lift (py_join (lit ", ") zones) ;;
     call (AddNewLabels
             (PDict [
                ("csys-env-type", PStr (lit "eks"));
                ("aws-region", region_name);
                ("external-id", aws_resource_arn);
                ("eks-node-type", PStr node_type);
                ("location", PStr location)
              ])
             (deployment_id ctx)) ;;;
     ret tt)
    is_CloudifyClientError
    (fun _ =>
       log WARN (lit "Skipping assignment of labels due to incompatible Cloudify version.")) ;;;
  try_except
    (location <- lift (LOCATIONS_get region_name) ;;
     if truthy location then
       coordinates <- lift (getitem location "coordinates") ;;
       call (AssignSite (deployment_id ctx) coordinates name) ;;;
       ret tt
     else ret tt)
    is_ClientError
    (fun _ =>
       log WARN (lit "Skipping assignment of site due to incompatible Cloudify version.")) ;;;
  props <- EKSCluster_properties iface ;;
  resource <- call (JsonCleanuper props) ;;
  set_runtime_property "resource" resource.

Definition delete (ctx : Ctx) (iface : EKSCluster) (resource_config : pyval)
  : M unit :=
  params <- (if negb (truthy resource_config) then ret (PDict [])
             else lift (py_copy resource_config)) ;;
  EKSCluster_delete iface params ;;;
  log INFO (lit "Waiting for Cluster to be deleted") ;;;
  EKSCluster_wait_for_cluster iface params "cluster_deleted".

End Cluster.

(** ** The rest of the module *)

Definition CLUSTER_TYPE : str := lit "cloudify.nodes.aws.eks.Cluster".
Definition CLUSTERS : string := "clusters".

(** [EKSCluster.__init__]: the base class keeps the resource id it is
    given; the describe parameters name it. *)
Definition EKSCluster_init (rid : pyval) : EKSCluster := {|
  resource_id := rid;
  describe_param := PDict [("name", rid)]
|}.

Definition prepare_describe_cluster_filter (params : pyval) (iface : EKSCluster)
  : result EKSCluster :=
  match py_get params CLUSTER_NAME with
  | Ok name =>
      Ok {| resource_id := resource_id iface;
            describe_param := PDict [(CLUSTER_NAME, name)] |}
  | Raise e => Raise e
  end.

Section Operations.

Context (E : Env).

(** Functions of the plugin that live outside the module, taken as they
    come: [make_client_call] of the base class, and [get_resource_id]
    (with its [resource_id], [use_instance_id] and [raise_on_missing]
    arguments), [update_resource_id], [update_resource_arn] and
    [is_node_type] of [utils]. *)
Variable make_client_call : string -> pyval -> M pyval.
Variable get_resource_id : Ctx -> pyval -> bool -> bool -> M pyval.
Variable update_resource_id : pyval -> M unit.
Variable update_resource_arn : pyval -> M unit.
Variable is_node_type : Ctx -> str -> bool.

Definition EKSCluster_list (self : EKSCluster) (params : pyval) : M pyval :=
  try_except
    (r <- make_client_call "list_clusters" params ;;
     lift (getitem r CLUSTERS))
    is_ClientError
    (fun _ => ret (PList [])).

Definition EKSCluster_create (self : EKSCluster) (params : pyval) : M pyval :=
  make_client_call "create_cluster" params.

Fixpoint describe_each (self : EKSCluster) (names : list pyval)
  : M (list pyval) :=
  match names with
  | [] => ret []
  | cluster_name :: rest =>
      c <- EKSCluster_describe E self (PDict [("name", cluster_name)]) ;;
      clusters <- describe_each self rest ;;
      ret (c :: clusters)
  end.

Definition EKSCluster_describe_all (self : EKSCluster) : M pyval :=
  names <- EKSCluster_list self PNone ;;
  l <- lift (py_iter names) ;;
  clusters <- describe_each self l ;;
  ret (PList clusters).

Definition prepare (ctx : Ctx) (iface : EKSCluster) (resource_config : pyval)
  : M unit :=
  params <- (if negb (truthy resource_config) then ret (PDict [])
             else lift (py_copy resource_config)) ;;
  n <- lift (py_get params "name") ;;
  name <- (if truthy n then ret n
           else lift (py_get (node_properties ctx) "resource_id")) ;;
  params <- (if truthy name then lift (setitem params "name" name)
             else ret params) ;;
  update_resource_id name ;;;
  set_runtime_property "resource_config" resource_config.

Definition create (ctx : Ctx) (iface : EKSCluster) (resource_config : pyval)
  : M unit :=
  params <- (if negb (truthy resource_config) then ret (PDict [])
             else lift (py_copy resource_config)) ;;
  n <- lift (py_get params CLUSTER_NAME) ;;
  rid <- get_resource_id ctx n true false ;;
  update_resource_id rid ;;;
  resource_config_copy <- lift (py_copy resource_config) ;;
  iface <- lift (prepare_describe_cluster_filter resource_config_copy iface) ;;
  response <- EKSCluster_create iface params ;;
  if truthy response then
    c <- lift (py_get response CLUSTER) ;;
    if truthy c then
      c <- lift (py_get response CLUSTER) ;;
      resource_arn <- lift (py_get c CLUSTER_ARN) ;;
      update_resource_arn resource_arn
    else ret tt
  else ret tt.

(** [ctx.target] of the relationship operation is the [target] here, and
    the runtime properties of the world are its instance's. *)
Definition refresh_kubeconfig (target : Ctx) : M unit :=
  if is_node_type target CLUSTER_TYPE then
    rp <- get_runtime_properties ;;
    let resource_config := default (PDict []) (rp !! "resource_config") in
    rid <- get_resource_id target PNone false true ;;
    let iface := EKSCluster_init rid in
    flag <- lift (getitem (node_properties target) "store_kube_config_in_runtime") ;;
    if truthy flag then
      _store_kubeconfig_in_runtime_properties
        (EKSCluster_get_kubeconf E iface) (node_properties target)
        resource_config
    else ret tt
  else ret tt.

End Operations.

(** ** Observations on documents and on the calls made *)

(** [v[i]] for a list [v]. *)
Definition py_index (v : pyval) (i : nat) : result pyval :=
  match v with
  | PList l =>
      match nth_error l i with
      | Some x => Ok x
      | None => Raise (OtherError "IndexError")
      end
  | _ => Raise (TypeError (lit (type_name_of v ++ " object is not subscriptable")))
  end.

(** [len(v)] for a list [v]. *)
Definition py_len (v : pyval) : option nat :=
  match v with
  | PList l => Some (length l)
  | _ => None
  end.

(** Seconds slept, and describe requests sent, in a sequence of calls. *)
Fixpoint elapsed (cs : list Call) : Z :=
  match cs with
  | [] => 0
  | Sleep s :: cs' => s + elapsed cs'
  | _ :: cs' => elapsed cs'
  end.

Fixpoint attempts (cs : list Call) : nat :=
  match cs with
  | [] => O
  | DescribeCluster _ :: cs' => S (attempts cs')
  | _ :: cs' => attempts cs'
  end.

(** The calls of [k+1] polls: a describe, then [k] times a delay and a
    describe. *)
Fixpoint poll_trace (kwargs : pydict) (delay : Z) (k : nat) : list Call :=
  match k with
  | O => [DescribeCluster kwargs]
  | S k' => DescribeCluster kwargs :: Sleep delay :: poll_trace kwargs delay k'
  end.

(** The expiries handed to the signer in a sequence of calls. *)
Fixpoint expiries (cs : list Call) : list Z :=
  match cs with
  | [] => []
  | SignRequest _ _ _ _ e :: cs' => e :: expiries cs'
  | _ :: cs' => expiries cs'
  end.

Definition is_DeleteCluster (c : Call) : bool :=
  match c with DeleteCluster _ => true | _ => false end.

(** A path into a document: dictionary keys and list positions. *)
Inductive key := Key (k : string) | Index (i : nat).

Fixpoint lookup_path (v : pyval) (p : list key) : result pyval :=
  match p with
  | [] => Ok v
  | Key k :: p' =>
      match getitem v k with
      | Ok x => lookup_path x p'
      | Raise e => Raise e
      end
  | Index i :: p' =>
      match py_index v i with
      | Ok x => lookup_path x p'
      | Raise e => Raise e
      end
  end.

(** Ranges of the codecs. *)
Definition octet (b : Z) : Prop := 0 <= b < 256.
Definition sextet (i : Z) : Prop := 0 <= i < 64.
Definition is_ascii (c : Z) : Prop := 0 <= c < 128.

(** Run from [w], a computation only adds calls, all of them in [P]. *)
Definition issues {A} (m : M A) (w : world) (P : Call -> Prop) : Prop :=
  exists cs, calls (snd (m w)) = calls w ++ cs /\ Forall P cs.

Definition any_call (c : Call) : Prop := True.

(** The node classification as the specification words it, on the two
    lists the provider returns. *)
Definition classify (fargate node_group : list pyval) : list Z :=
  match fargate, node_group with
  | _ :: _, _ :: _ => lit "fargate-nodegroup"
  | _ :: _, [] => lit "fargate"
  | [], _ => lit "nodegroup"
  end.

(** The calls credential issuance may make, for the cluster [name]. *)
Definition issuance_call (cc params : pyval) (c : Call) : Prop :=
  match c with
  | DescribeCluster kw =>
      exists name, py_get params CLUSTER_NAME = Ok name /\ kw = [("name", name)]
  | Boto3Client service kw => service = "sts" /\ kwargs_of cc = Ok kw
  | SignRequest op ps hs m e =>
      exists name,
        py_get params CLUSTER_NAME = Ok name /\
        op = "GetCallerIdentity" /\ ps = ∅ /\
        hs = {[CLUSTER_NAME_HEADER := name]} /\
        m = "GET" /\ e = TOKEN_EXPIRATION_MINS
  | _ => False
  end.

(** ** A sample deployment

    The cluster [demo] with endpoint [https://EXAMPLE] and CA data
    [Zm9v], one node group and no fargate profile, in a region that has a
    site location. *)

Definition demo_cluster (status : string) : pyval :=
  PDict [
    ("cluster", PDict [
       ("name", PStr (lit "demo"));
       ("arn", PStr (lit "arn:aws:eks:eu-west-1:111122223333:cluster/demo"));
       ("status", PStr (lit status));
       ("endpoint", PStr (lit "https://EXAMPLE"));
       ("certificateAuthority", PDict [("data", PStr (lit "Zm9v"))]);
       ("resourcesVpcConfig", PDict [("subnetIds", PList [PStr (lit "subnet-1")])])
     ])
  ].

Definition demo_url : str :=
  lit "https://sts.eu-west-1.amazonaws.com/?Action=GetCallerIdentity&Version=2011-06-15&X-Amz-Expires=60".

Definition demo_respond (describe labels site : result pyval)
    (history : list Call) (c : Call) : result pyval :=
  match c with
  | DescribeCluster _ => describe
  | DeleteCluster _ => Ok (PDict [])
  | ListFargateProfiles _ => Ok (PDict [("fargateProfileNames", PList [])])
  | ListNodegroups _ => Ok (PDict [("nodegroups", PList [PStr (lit "ng-1")])])
  | Sleep _ => Ok PNone
  | Boto3Client _ _ => Ok (PObj "STS")
  | SignRequest _ _ _ _ _ => Ok (PStr demo_url)
  | SubnetProperties _ => Ok (PDict [("AvailabilityZone", PStr (lit "eu-west-1a"))])
  | AddNewLabels _ _ => labels
  | AssignSite _ _ _ => site
  | JsonCleanuper v => Ok v
  end.

Definition demo_env (describe labels site : result pyval) : Env := {|
  respond := demo_respond describe labels site;
  LOCATIONS := [(lit "eu-west-1", PDict [("coordinates", PStr (lit "53.3498, -6.2603"))])];
  py_str := fun v => lit ("<" ++ type_name_of v ++ ">")
|}.

(** Everything answers; the cluster is active. *)
Definition env_active : Env :=
  demo_env (Ok (demo_cluster "ACTIVE")) (Ok PNone) (Ok PNone).

(** The cluster never leaves [CREATING]. *)
Definition env_creating : Env :=
  demo_env (Ok (demo_cluster "CREATING")) (Ok PNone) (Ok PNone).

(** The provider refuses to describe the cluster. *)
Definition env_denied : Env :=
  demo_env (Raise (ClientError "AccessDeniedException")) (Ok PNone) (Ok PNone).

(** The manager is too old for labels and sites: its REST client raises
    [CloudifyClientError] on both. *)
Definition env_incompatible : Env :=
  demo_env (Ok (demo_cluster "ACTIVE")) (Raise CloudifyClientError)
           (Raise CloudifyClientError).

(** Only the labels are refused. *)
Definition env_no_labels : Env :=
  demo_env (Ok (demo_cluster "ACTIVE")) (Raise CloudifyClientError) (Ok PNone).

(** The site assignment fails with an error of the AWS client. *)
Definition env_site_client_error : Env :=
  demo_env (Ok (demo_cluster "ACTIVE")) (Ok PNone)
           (Raise (ClientError "InternalFailure")).

Definition demo_ctx : Ctx := {|
  node_properties :=
    PDict [
      ("resource_id", PStr (lit "demo"));
      ("store_kube_config_in_runtime", PBool true);
      ("client_config", PDict [("region_name", PStr (lit "eu-west-1"))])
    ];
  deployment_id := PStr (lit "dep-1")
|}.

Definition demo_iface : EKSCluster := {|
  resource_id := PStr (lit "demo");
  describe_param := PDict [("name", PStr (lit "demo"))]
|}.

Definition demo_params : pyval := PDict [("name", PStr (lit "demo"))].

Definition world0 : world := World [] ∅ [].

(** The two warnings of [poststart]. *)
Definition labels_warning : level * list Z :=
  (WARN, lit "Skipping assignment of labels due to incompatible Cloudify version.").

Definition site_warning : level * list Z :=
  (WARN, lit "Skipping assignment of site due to incompatible Cloudify version.").

(** What issuance yields for the sample cluster. *)
Definition demo_token : str :=
  lit "k8s-aws-v1.aHR0cHM6Ly9zdHMuZXUtd2VzdC0xLmFtYXpvbmF3cy5jb20vP0FjdGlvbj1HZXRDYWxsZXJJZGVudGl0eSZWZXJzaW9uPTIwMTEtMDYtMTUmWC1BbXotRXhwaXJlcz02MA".

Definition demo_kubeconf : pyval :=
  cluster_config (lit "https://EXAMPLE") (lit "Zm9v") demo_token.

Definition demo_issuance_calls : list Call :=
  [DescribeCluster [("name", PStr (lit "demo"))];
   Boto3Client "sts" [("region_name", PStr (lit "eu-west-1"))];
   SignRequest "GetCallerIdentity" ∅
     {[CLUSTER_NAME_HEADER := PStr (lit "demo")]} "GET" 60].

Definition demo_client_config : pyval :=
  PDict [("region_name", PStr (lit "eu-west-1"))].

(** ** Further observations *)

(** The characters of URL-safe base64. *)
Definition urlsafe_alphabet : str :=
  lit "ABCDEFGHIJKLMNOPQRSTUVWXYZabcdefghijklmnopqrstuvwxyz0123456789-_".

(** A computation leaves the runtime properties and the log alone. *)
Definition keeps_instance {A} (m : M A) (w : world) : Prop :=
  runtime_properties (snd (m w)) = runtime_properties w /\
  logged (snd (m w)) = logged w.

(** A call that is neither the making of the STS client nor a signing. *)
(** A computation that issues at most [n] requests from [w]. *)
Definition asks_at_most {A} (m : M A) (w : world) (n : nat) : Prop :=
  exists cs, calls (snd (m w)) = calls w ++ cs /\ (length cs <= n)%nat.

Definition not_sts (c : Call) : Prop :=
  match c with
  | Boto3Client _ _ => False
  | SignRequest _ _ _ _ _ => False
  | _ => True
  end.

(** The name [poststart] and [prepare] settle on: the one of the
    resource configuration, or else the node's [resource_id]. *)
Definition resolved_name (d props : list (string * pyval)) : pyval :=
  if truthy (dict_get d "name" PNone) then dict_get d "name" PNone
  else dict_get props "resource_id" PNone.

(** The name the cluster is then waited for under. *)
Definition polled_name (d props : list (string * pyval)) : pyval :=
  if truthy (resolved_name d props) then resolved_name d props
  else dict_get d "name" PNone.

(** Stand-ins for the functions of the plugin that live outside the
    module, for the sample deployment. *)
Definition sample_make_client_call (answer : result pyval)
    (name : string) (params : pyval) : M pyval :=
  lift answer.

Definition sample_get_resource_id (ctx : Ctx) (rid : pyval)
    (use_instance_id raise_on_missing : bool) : M pyval :=
  if truthy rid then ret rid else lift (py_get (node_properties ctx) "resource_id").

Definition sample_update_resource_id (rid : pyval) : M unit :=
  set_runtime_property "aws_resource_id" rid.

Definition sample_update_resource_arn (arn : pyval) : M unit :=
  set_runtime_property "aws_resource_arn" arn.

Definition sample_is_node_type (ctx : Ctx) (type_name : str) : bool := true.

(** The sample node with the storing of the kubeconfig switched off. *)
Definition demo_props_no_store : list (string * pyval) :=
  [("resource_id", PStr (lit "demo"));
   ("store_kube_config_in_runtime", PBool false);
   ("client_config", PDict [("region_name", PStr (lit "eu-west-1"))])].

Definition demo_ctx_no_store : Ctx := {|
  node_properties := PDict demo_props_no_store;
  deployment_id := PStr (lit "dep-1")
|}.

(** A listing of two clusters, and what describing a cluster of the
    sample deployment returns. *)
Definition demo_listing : pyval :=
  PDict [("clusters", PList [PStr (lit "demo"); PStr (lit "other")])].

Definition demo_described : pyval :=
  PDict [
    ("name", PStr (lit "demo"));
    ("arn", PStr (lit "arn:aws:eks:eu-west-1:111122223333:cluster/demo"));
    ("status", PStr (lit "ACTIVE"));
    ("endpoint", PStr (lit "https://EXAMPLE"));
    ("certificateAuthority", PDict [("data", PStr (lit "Zm9v"))]);
    ("resourcesVpcConfig", PDict [("subnetIds", PList [PStr (lit "subnet-1")])])
  ].

(** The instance after [prepare] of a configuration that names no
    cluster, and after [prepare] without a configuration. *)
Definition world_prepared (resource_config : pyval) : world :=
  World [] (<["resource_config" := resource_config]>
              (<["aws_resource_id" := PStr (lit "demo")]> ∅)) [].

(** A call other than the two listings and the writing of the labels. *)
Definition other_call (c : Call) : Prop :=
  match c with
  | ListFargateProfiles _ => False
  | ListNodegroups _ => False
  | AddNewLabels _ _ => False
  | _ => True
  end.

(** A call other than the writing of the labels. *)
Definition not_labels (c : Call) : Prop :=
  match c with
  | AddNewLabels _ _ => False
  | _ => True
  end.

(** When the computation ends with the manager's [CloudifyClientError],
    the call it ended on is in [P]. *)
Definition refused_on {A} (m : M A) (w : world) (P : Call -> Prop) : Prop :=
  fst (m w) = Raise CloudifyClientError ->
  exists cs c, calls (snd (m w)) = calls w ++ cs ++ [c] /\ P c.

(** * Properties *)

(** ** The codecs *)

Example b64_foo : urlsafe_b64encode (lit "foo") = lit "Zm9v".
Proof. reflexivity. Qed.

Example b64_fo : urlsafe_b64encode (lit "fo") = lit "Zm8=".
Proof. reflexivity. Qed.

Example b64_f : urlsafe_b64encode (lit "f") = lit "Zg==".
Proof. reflexivity. Qed.

Example b64_urlsafe : urlsafe_b64encode [251; 255; 190] = lit "-_--".
Proof. reflexivity. Qed.

Example b64_dec : urlsafe_b64decode (repad (rstrip (lit "=") (lit "Zg=="))) = Some (lit "f").
Proof. reflexivity. Qed.

Lemma sextet_cases (p : Z -> bool) :
  forallb (fun n => p (Z.of_nat n)) (seq 0 64) = true ->
  forall i, sextet i -> p i = true.
Proof.
  intros H i [Hlo Hhi].
  rewrite forallb_forall in H.
  specialize (H (Z.to_nat i)).
  rewrite Z2Nat.id in H by lia.
  apply H, in_seq. lia.
Qed.

Lemma b64_char_not_pad i :
  sextet i -> urlsafe_encode_translation (b64_char i) <> b64_pad.
Proof.
  intros Hi.
  apply Z.eqb_neq, negb_true_iff.
  revert i Hi.
  apply (sextet_cases
    (fun i => negb (urlsafe_encode_translation (b64_char i) =? b64_pad))).
  vm_compute. reflexivity.
Qed.

Lemma b64_index_char i :
  sextet i ->
  b64_index (urlsafe_decode_translation (urlsafe_encode_translation (b64_char i))) = Some i.
Proof.
  intros Hi.
  pose proof (sextet_cases
    (fun i => bool_decide (b64_index (urlsafe_decode_translation
                (urlsafe_encode_translation (b64_char i))) = Some i))) as H.
  eapply bool_decide_eq_true_1, H; [|done].
  vm_compute. reflexivity.
Qed.

Lemma decode_translation_not_pad i :
  sextet i ->
  urlsafe_decode_translation (urlsafe_encode_translation (b64_char i)) <> b64_pad.
Proof.
  intros Hi.
  apply Z.eqb_neq, negb_true_iff.
  revert i Hi.
  apply (sextet_cases
    (fun i => negb (urlsafe_decode_translation
                      (urlsafe_encode_translation (b64_char i)) =? b64_pad))).
  vm_compute. reflexivity.
Qed.

Lemma b64_char_ascii i : is_ascii (urlsafe_encode_translation (b64_char i)).
Proof.
  assert (forallb (fun c => (0 <=? urlsafe_encode_translation c) &&
                            (urlsafe_encode_translation c <? 128))
            (b64_pad :: b64_alphabet) = true) as H
    by (vm_compute; reflexivity).
  rewrite forallb_forall in H.
  assert (In (b64_char i) (b64_pad :: b64_alphabet)) as Hin.
  { unfold b64_char.
    destruct (nth_in_or_default (Z.to_nat i) b64_alphabet b64_pad) as [Hn | Hn];
      [right | left]; auto. }
  apply H in Hin. unfold is_ascii. lia.
Qed.

Lemma ascii_decode_id (l : list Z) :
  Forall is_ascii l -> ascii_decode l = Ok l.
Proof.
  induction 1 as [|c l [Hlo Hhi] _ IH]; simpl; [reflexivity|].
  rewrite IH.
  destruct (0 <=? c) eqn:H0; [|lia].
  destruct (c <? 128) eqn:H1; [|lia].
  reflexivity.
Qed.

(** Induction on byte strings three octets at a time. *)
Lemma list_ind3 {A} (P : list A -> Prop) :
  P [] -> (forall a, P [a]) -> (forall a b, P [a; b]) ->
  (forall a b c l, P l -> P (a :: b :: c :: l)) ->
  forall l, P l.
Proof.
  intros H0 H1 H2 H3.
  fix IH 1.
  intros [|a [|b [|c l]]]; [exact H0 | apply H1 | apply H2 | apply H3, IH].
Qed.

Lemma urlsafe_b64encode_ascii (s : list Z) :
  Forall is_ascii (urlsafe_b64encode s).
Proof.
  unfold urlsafe_b64encode.
  assert (is_ascii (urlsafe_encode_translation b64_pad)) as Hpad
    by (change (0 <= 61 < 128); lia).
  induction s as [| a | a b | a b c l IH] using list_ind3; cbn [b64encode map].
  all: repeat (constructor; [first [apply b64_char_ascii | exact Hpad] |]).
  all: first [constructor | exact IH].
Qed.

Ltac divmod := unfold octet, sextet in *; Z.div_mod_to_equations; lia.

Lemma rstrip_pad_only (k : nat) : rstrip [b64_pad] (replicate k b64_pad) = [].
Proof.
  induction k as [|k IH]; cbn [rstrip replicate]; [reflexivity|].
  rewrite IH, bool_decide_eq_true_2; [reflexivity | by apply list_elem_of_singleton].
Qed.

Lemma rstrip_body (body : list Z) (k : nat) :
  Forall (fun c => c <> b64_pad) body ->
  rstrip [b64_pad] (body ++ replicate k b64_pad) = body.
Proof.
  induction 1 as [|c body Hc Hbody IH]; cbn [rstrip app].
  - apply rstrip_pad_only.
  - rewrite IH. destruct body as [|c' body'] eqn:Hb; [|reflexivity].
    rewrite bool_decide_eq_false_2; [reflexivity | by rewrite list_elem_of_singleton].
Qed.

Lemma repad_body (body : list Z) (k : nat) :
  (k <= 2)%nat -> ((length body + k) mod 4 = 0)%nat ->
  repad body = body ++ replicate k b64_pad.
Proof.
  intros Hk Hlen. unfold repad. do 2 f_equal.
  apply Nat2Z.inj. rewrite Z2Nat.id by (apply Z.mod_pos_bound; lia).
  assert (Z.of_nat ((length body + k) mod 4) = 0) as H by lia.
  rewrite Nat2Z.inj_mod, Nat2Z.inj_add in H.
  change (Z.of_nat 4) with 4 in H.
  divmod.
Qed.

(** The encoder's output: characters other than ['='], then at most two
    ['='], a multiple of four in all. *)
Lemma urlsafe_b64encode_shape (s : list Z) :
  Forall octet s ->
  exists body k,
    urlsafe_b64encode s = body ++ replicate k b64_pad /\
    Forall (fun c => c <> b64_pad) body /\
    (k <= 2)%nat /\ ((length body + k) mod 4 = 0)%nat.
Proof.
  unfold urlsafe_b64encode.
  induction s as [| a | a b | a b c l IH] using list_ind3; intros Hs;
    cbn [b64encode map].
  - exists [], 0%nat. repeat split; auto.
  - apply Forall_cons_1 in Hs as [Ha _].
    eexists [_; _], 2%nat. split; [reflexivity|].
    split; [|split; [lia | reflexivity]].
    repeat (constructor; [apply b64_char_not_pad; divmod |]). constructor.
  - apply Forall_cons_1 in Hs as [Ha Hs]. apply Forall_cons_1 in Hs as [Hb _].
    eexists [_; _; _], 1%nat. split; [reflexivity|].
    split; [|split; [lia | reflexivity]].
    repeat (constructor; [apply b64_char_not_pad; divmod |]). constructor.
  - apply Forall_cons_1 in Hs as [Ha Hs]. apply Forall_cons_1 in Hs as [Hb Hs].
    apply Forall_cons_1 in Hs as [Hc Hs].
    destruct (IH Hs) as (body & k & Heq & Hbody & Hk & Hlen).
    eexists (_ :: _ :: _ :: _ :: body), k. rewrite Heq.
    split; [reflexivity|].
    split; [|split; [exact Hk|]].
    + repeat (constructor; [apply b64_char_not_pad; divmod |]). exact Hbody.
    + cbn [length].
      replace (S (S (S (S (length body)))) + k)%nat with (length body + k + 1 * 4)%nat by lia.
      rewrite Nat.Div0.mod_add. exact Hlen.
Qed.

Lemma b64decode_one x1 x2 i1 i2 :
  b64_index x1 = Some i1 -> b64_index x2 = Some i2 ->
  b64decode [x1; x2; b64_pad; b64_pad] = Some [i1 * 4 + i2 / 16].
Proof. intros H1 H2. cbn [b64decode]. rewrite H1, H2. reflexivity. Qed.

Lemma b64decode_two x1 x2 x3 i1 i2 i3 :
  b64_index x1 = Some i1 -> b64_index x2 = Some i2 ->
  b64_index x3 = Some i3 -> x3 <> b64_pad ->
  b64decode [x1; x2; x3; b64_pad] =
    Some [i1 * 4 + i2 / 16; (i2 mod 16) * 16 + i3 / 4].
Proof.
  intros H1 H2 H3 Hx3. cbn [b64decode]. rewrite H1, H2, H3.
  cbn [mbind option_bind]. rewrite Z.eqb_refl.
  rewrite (proj2 (Z.eqb_neq _ _) Hx3). reflexivity.
Qed.

Lemma b64decode_three x1 x2 x3 x4 i1 i2 i3 i4 rest r :
  b64_index x1 = Some i1 -> b64_index x2 = Some i2 ->
  b64_index x3 = Some i3 -> b64_index x4 = Some i4 ->
  x4 <> b64_pad ->
  b64decode rest = Some r ->
  b64decode (x1 :: x2 :: x3 :: x4 :: rest) =
    Some (i1 * 4 + i2 / 16 :: (i2 mod 16) * 16 + i3 / 4 ::
          (i3 mod 4) * 64 + i4 :: r).
Proof.
  intros H1 H2 H3 H4 Hx4 Hr.
  destruct rest as [|y rest].
  - cbn [b64decode]. rewrite H1, H2, H3, H4. cbn [mbind option_bind].
    rewrite (proj2 (Z.eqb_neq _ _) Hx4). simpl in Hr. congruence.
  - change (b64decode (x1 :: x2 :: x3 :: x4 :: y :: rest)) with
      (i1 ← b64_index x1; i2 ← b64_index x2;
       i3 ← b64_index x3; i4 ← b64_index x4;
       r ← b64decode (y :: rest);
       Some (i1 * 4 + i2 / 16 :: (i2 mod 16) * 16 + i3 / 4 ::
             (i3 mod 4) * 64 + i4 :: r)).
    rewrite H1, H2, H3, H4, Hr. reflexivity.
Qed.

Lemma b64decode_encode (s : list Z) :
  Forall octet s -> urlsafe_b64decode (urlsafe_b64encode s) = Some s.
Proof.
  unfold urlsafe_b64decode, urlsafe_b64encode.
  induction s as [| a | a b | a b c l IH] using list_ind3; intros Hs;
    cbn [b64encode map].
  - reflexivity.
  - apply Forall_cons_1 in Hs as [Ha _].
    change (urlsafe_decode_translation (urlsafe_encode_translation b64_pad))
      with b64_pad.
    erewrite b64decode_one; try (apply b64_index_char; divmod).
    do 2 f_equal. divmod.
  - apply Forall_cons_1 in Hs as [Ha Hs]. apply Forall_cons_1 in Hs as [Hb _].
    change (urlsafe_decode_translation (urlsafe_encode_translation b64_pad))
      with b64_pad.
    erewrite b64decode_two;
      try (apply b64_index_char; divmod);
      try (apply decode_translation_not_pad; divmod).
    f_equal. f_equal; [divmod|]. f_equal. divmod.
  - apply Forall_cons_1 in Hs as [Ha Hs]. apply Forall_cons_1 in Hs as [Hb Hs].
    apply Forall_cons_1 in Hs as [Hc Hs].
    erewrite b64decode_three;
      try (apply b64_index_char; divmod);
      try (apply decode_translation_not_pad; divmod);
      try exact (IH Hs).
    f_equal. f_equal; [divmod|]. f_equal; [divmod|]. f_equal. divmod.
Qed.

(** The token's suffix: stripped of its padding, padded again, decoded. *)
Lemma token_suffix_round_trip (s : list Z) :
  Forall octet s ->
  urlsafe_b64decode (repad (rstrip (lit "=") (urlsafe_b64encode s))) = Some s.
Proof.
  intros Hs.
  destruct (urlsafe_b64encode_shape s Hs) as (body & k & Heq & Hbody & Hk & Hlen).
  change (lit "=") with [b64_pad].
  rewrite Heq, rstrip_body by exact Hbody.
  rewrite (repad_body body k Hk Hlen), <- Heq.
  apply b64decode_encode, Hs.
Qed.

Lemma token_suffix_no_pad (s : list Z) :
  Forall octet s ->
  Forall (fun c => c <> b64_pad) (rstrip (lit "=") (urlsafe_b64encode s)).
Proof.
  intros Hs.
  destruct (urlsafe_b64encode_shape s Hs) as (body & k & Heq & Hbody & Hk & Hlen).
  change (lit "=") with [b64_pad].
  rewrite Heq, rstrip_body by exact Hbody. exact Hbody.
Qed.

Lemma utf8_encode_char_octets cp b :
  utf8_encode_char cp = Ok b -> Forall octet b.
Proof.
  unfold utf8_encode_char.
  repeat match goal with
         | |- context [if ?c then _ else _] => destruct c eqn:?
         end; intros [= <-];
    repeat (constructor; [divmod |]); constructor.
Qed.

Lemma utf8_encode_octets s b :
  utf8_encode s = Ok b -> Forall octet b.
Proof.
  revert b. induction s as [|cp s IH]; intros b; simpl.
  - intros [= <-]. constructor.
  - destruct (utf8_encode_char cp) as [b1|] eqn:H1; [|discriminate].
    destruct (utf8_encode s) as [b2|]; [|discriminate].
    intros [= <-]. apply Forall_app. split; eauto using utf8_encode_char_octets.
Qed.

(** ** Running computations *)

Lemma bind_Ok {A B} (m : M A) (k : A -> M B) w a w1 :
  m w = (Ok a, w1) -> bind m k w = k a w1.
Proof. intros H. unfold bind. rewrite H. reflexivity. Qed.

Lemma bind_Raise {A B} (m : M A) (k : A -> M B) w e w1 :
  m w = (Raise e, w1) -> bind m k w = (Raise e, w1).
Proof. intros H. unfold bind. rewrite H. reflexivity. Qed.

Lemma bind_inv {A B} (m : M A) (k : A -> M B) w r w' :
  bind m k w = (r, w') ->
  (exists a w1, m w = (Ok a, w1) /\ k a w1 = (r, w')) \/
  (exists e, m w = (Raise e, w') /\ r = Raise e).
Proof.
  unfold bind. destruct (m w) as [[a|e] w1]; intros H.
  - left. eauto.
  - right. injection H as <- <-. eauto.
Qed.

Lemma bind_inv_Ok {A B} (m : M A) (k : A -> M B) w b w' :
  bind m k w = (Ok b, w') ->
  exists a w1, m w = (Ok a, w1) /\ k a w1 = (Ok b, w').
Proof.
  intros H. apply bind_inv in H as [H | (e & _ & [=])]. exact H.
Qed.

Lemma lift_inv_Ok {A} (r : result A) w a w' :
  lift r w = (Ok a, w') -> r = Ok a /\ w' = w.
Proof. unfold lift. intros [= -> ->]. auto. Qed.

Lemma ret_inv_Ok {A} (a b : A) w w' :
  ret a w = (Ok b, w') -> b = a /\ w' = w.
Proof. unfold ret. intros [= -> ->]. auto. Qed.

Section Issuance.

Context (E : Env).

(** With the two handlers registered, the cluster name leaves the
    parameters and enters the headers of the request that is signed. *)
Lemma presign_with_cluster_name (name : pyval) (expires_in : Z) :
  generate_presigned_url E (_register_cluster_name_handlers (StsClient []))
    "get_caller_identity" {["ClusterName" := name]} "GET" expires_in =
  call E (SignRequest "GetCallerIdentity" ∅ {[CLUSTER_NAME_HEADER := name]}
            "GET" expires_in).
Proof.
  reflexivity.
Qed.




Lemma bind_lift_inv_Ok {A B} (r : result A) (k : A -> M B) w b w' :
  bind (lift r) k w = (Ok b, w') ->
  exists a, r = Ok a /\ k a w = (Ok b, w').
Proof.
  intros H. apply bind_inv_Ok in H as (a & w1 & H1 & H).
  apply lift_inv_Ok in H1 as [-> ->]. eauto.
Qed.

Lemma bind_call_inv_Ok {B} (c : Call) (k : pyval -> M B) w b w' :
  bind (call E c) k w = (Ok b, w') ->
  exists a,
    respond E (calls w) c = Ok a /\
    k a (World (calls w ++ [c]) (runtime_properties w) (logged w)) = (Ok b, w').
Proof.
  intros H. apply bind_inv_Ok in H as (a & w1 & H1 & H).
  unfold call in H1. injection H1 as H1 <-. eauto.
Qed.

(** Credential issuance on success: what was asked of the provider and
    of the signer, and the document that comes out. *)
Lemma get_kubeconf_Ok self cc params w doc w' :
  EKSCluster_get_kubeconf E self cc params w = (Ok doc, w') ->
  exists name cluster c ca cert ep cfg client U url_bytes,
    py_get params CLUSTER_NAME = Ok name /\
    respond E (calls w) (DescribeCluster [("name", name)]) = Ok cluster /\
    getitem cluster "cluster" = Ok c /\
    getitem c "certificateAuthority" = Ok ca /\
    getitem ca "data" = Ok cert /\
    getitem c "endpoint" = Ok ep /\
    kwargs_of cc = Ok cfg /\
    respond E (calls w ++ [DescribeCluster [("name", name)]])
      (Boto3Client "sts" cfg) = Ok client /\
    respond E (calls w ++ [DescribeCluster [("name", name)]; Boto3Client "sts" cfg])
      (SignRequest "GetCallerIdentity" ∅ {[CLUSTER_NAME_HEADER := name]}
         "GET" TOKEN_EXPIRATION_MINS) = Ok (PStr U) /\
    utf8_encode U = Ok url_bytes /\
    doc = cluster_config (text_type E ep) (text_type E cert)
            (TOKEN_PREFIX ++ rstrip (lit "=") (urlsafe_b64encode url_bytes)) /\
    w' = World (calls w ++ [DescribeCluster [("name", name)];
                            Boto3Client "sts" cfg;
                            SignRequest "GetCallerIdentity" ∅
                              {[CLUSTER_NAME_HEADER := name]} "GET"
                              TOKEN_EXPIRATION_MINS])
               (runtime_properties w) (logged w).
Proof.
  unfold EKSCluster_get_kubeconf. intros H.
  apply bind_lift_inv_Ok in H as (name & Hname & H).
  apply bind_call_inv_Ok in H as (cluster & Hcluster & H).
  apply bind_lift_inv_Ok in H as (c & Hc & H).
  apply bind_lift_inv_Ok in H as (ca & Hca & H).
  apply bind_lift_inv_Ok in H as (cert & Hcert & H).
  apply bind_lift_inv_Ok in H as (c' & Hc' & H).
  apply bind_lift_inv_Ok in H as (ep & Hep & H).
  rewrite Hc in Hc'. injection Hc' as <-.
  apply bind_inv_Ok in H as (sts & w1 & Hsts & H).
  unfold boto3_client in Hsts.
  apply bind_lift_inv_Ok in Hsts as (cfg & Hcfg & Hsts).
  apply bind_call_inv_Ok in Hsts as (client & Hclient & Hsts).
  apply ret_inv_Ok in Hsts as [-> ->].
  apply bind_lift_inv_Ok in H as (name' & Hname' & H).
  rewrite Hname in Hname'. injection Hname' as <-.
  rewrite presign_with_cluster_name in H.
  apply bind_call_inv_Ok in H as (url & Hurl & H).
  apply bind_lift_inv_Ok in H as (url_bytes & Hbytes & H).
  apply bind_lift_inv_Ok in H as (encoded_str & Hdec & H).
  apply ret_inv_Ok in H as [-> ->].
  cbn [calls runtime_properties logged] in *.
  rewrite <- !app_assoc in *. cbn [app] in *.
  destruct url as [| | |U| | |]; try discriminate. cbn [py_encode_utf8] in Hbytes.
  rewrite (ascii_decode_id _ (urlsafe_b64encode_ascii url_bytes)) in Hdec.
  injection Hdec as <-.
  exists name, cluster, c, ca, cert, ep, cfg, client, U, url_bytes.
  repeat split; assumption || reflexivity.
Qed.

(** *** Which calls a computation makes *)

Lemma issues_intro {A} (m : M A) w (P : Call -> Prop) cs :
  calls (snd (m w)) = calls w ++ cs -> Forall P cs -> issues m w P.
Proof. intros H1 H2. exists cs. auto. Qed.

Lemma issues_none {A} (m : M A) w (P : Call -> Prop) :
  calls (snd (m w)) = calls w -> issues m w P.
Proof. intros H. exists []. rewrite app_nil_r. auto. Qed.

Lemma issues_ret {A} (a : A) w P : issues (ret a) w P.
Proof. apply issues_none. reflexivity. Qed.

Lemma issues_raise {A} e w P : issues (@raise A e) w P.
Proof. apply issues_none. reflexivity. Qed.

Lemma issues_lift {A} (r : result A) w P : issues (lift r) w P.
Proof. apply issues_none. reflexivity. Qed.

Lemma issues_log l msg w P : issues (log l msg) w P.
Proof. apply issues_none. reflexivity. Qed.

Lemma issues_set_runtime_property k v w P :
  issues (set_runtime_property k v) w P.
Proof. apply issues_none. reflexivity. Qed.

Lemma issues_get_runtime_properties w P : issues get_runtime_properties w P.
Proof. apply issues_none. reflexivity. Qed.

Lemma issues_call (c : Call) w (P : Call -> Prop) :
  P c -> issues (call E c) w P.
Proof. intros Hc. exists [c]. split; [reflexivity | by constructor]. Qed.

Lemma issues_sleep s w (P : Call -> Prop) :
  P (Sleep s) -> issues (sleep s) w P.
Proof. intros Hc. exists [Sleep s]. split; [reflexivity | by constructor]. Qed.

Lemma issues_bind {A B} (m : M A) (k : A -> M B) w P :
  issues m w P ->
  (forall a w1, m w = (Ok a, w1) -> issues (k a) w1 P) ->
  issues (bind m k) w P.
Proof.
  intros (cs & Hcs & HP) Hk. unfold issues, bind.
  destruct (m w) as [[a|e] w1] eqn:Hm; cbn [snd] in *.
  - destruct (Hk a w1 eq_refl) as (cs' & Hcs' & HP').
    exists (cs ++ cs'). rewrite Hcs', Hcs, app_assoc.
    split; [reflexivity | by apply Forall_app].
  - exists cs. auto.
Qed.

Lemma issues_bind_lift {A B} (r : result A) (k : A -> M B) w P :
  (forall a, r = Ok a -> issues (k a) w P) ->
  issues (bind (lift r) k) w P.
Proof.
  intros Hk. apply issues_bind; [apply issues_lift|].
  intros a w1 [-> ->]%lift_inv_Ok. auto.
Qed.

Lemma issues_bind_call {B} (c : Call) (k : pyval -> M B) w (P : Call -> Prop) :
  P c ->
  (forall a, respond E (calls w) c = Ok a ->
     issues (k a) (World (calls w ++ [c]) (runtime_properties w) (logged w)) P) ->
  issues (bind (call E c) k) w P.
Proof.
  intros Hc Hk. apply issues_bind; [by apply issues_call|].
  unfold call. intros a w1 [= Ha <-]. auto.
Qed.

Lemma issues_try_except_else {A B} (body : M A) caught
    (handler : exn -> M B) (orelse : A -> M B) w P :
  issues body w P ->
  (forall e w1, body w = (Raise e, w1) -> caught e = true ->
     issues (handler e) w1 P) ->
  (forall a w1, body w = (Ok a, w1) -> issues (orelse a) w1 P) ->
  issues (try_except_else body caught handler orelse) w P.
Proof.
  intros (cs & Hcs & HP) Hh Ho. unfold issues, try_except_else.
  destruct (body w) as [[a|e] w1] eqn:Hm; cbn [snd] in *.
  - destruct (Ho a w1 eq_refl) as (cs' & Hcs' & HP').
    exists (cs ++ cs'). rewrite Hcs', Hcs, app_assoc.
    split; [reflexivity | by apply Forall_app].
  - destruct (caught e) eqn:Hc.
    + destruct (Hh e w1 eq_refl Hc) as (cs' & Hcs' & HP').
      exists (cs ++ cs'). rewrite Hcs', Hcs, app_assoc.
      split; [reflexivity | by apply Forall_app].
    + exists cs. auto.
Qed.

Lemma issues_try_except {A} (body : M A) caught (handler : exn -> M A) w P :
  issues body w P ->
  (forall e w1, body w = (Raise e, w1) -> caught e = true ->
     issues (handler e) w1 P) ->
  issues (try_except body caught handler) w P.
Proof.
  intros Hb Hh. apply issues_try_except_else; auto.
  intros a w1 _. apply issues_ret.
Qed.

Lemma issues_weaken {A} (m : M A) w (P Q : Call -> Prop) :
  (forall c, P c -> Q c) -> issues m w P -> issues m w Q.
Proof.
  intros HPQ (cs & Hcs & HP). exists cs. split; [exact Hcs|].
  eapply Forall_impl; eauto.
Qed.

(** The calls of a run are determined: what extends [calls w] is unique. *)
Lemma issues_elim {A} (m : M A) w (P : Call -> Prop) cs c :
  issues m w P -> calls (snd (m w)) = calls w ++ cs -> c ∈ cs -> P c.
Proof.
  intros (cs' & Hcs' & HP) Hcs Hc.
  rewrite Hcs' in Hcs. apply app_inv_head in Hcs as ->.
  rewrite Forall_forall in HP. auto.
Qed.

Lemma get_kubeconf_issues self cc params w :
  issues (EKSCluster_get_kubeconf E self cc params) w (issuance_call cc params).
Proof.
  unfold EKSCluster_get_kubeconf.
  apply issues_bind_lift. intros name Hname.
  apply issues_bind_call; [cbn; eauto|]. intros cluster _.
  do 5 (apply issues_bind_lift; intros ? _).
  apply issues_bind.
  { unfold boto3_client. apply issues_bind_lift. intros cfg Hcfg.
    apply issues_bind_call; [cbn; eauto|]. intros; apply issues_ret. }
  intros sts w1 Hsts.
  unfold boto3_client in Hsts.
  apply bind_lift_inv_Ok in Hsts as (cfg & Hcfg & Hsts).
  apply bind_call_inv_Ok in Hsts as (client & Hclient & Hsts).
  apply ret_inv_Ok in Hsts as [-> ->].
  apply issues_bind_lift. intros name' Hname'.
  rewrite Hname in Hname'. injection Hname' as <-.
  rewrite presign_with_cluster_name.
  apply issues_bind_call.
  { cbn. exists name. repeat split; auto. }
  intros url _.
  do 2 (apply issues_bind_lift; intros ? _).
  apply issues_ret.
Qed.

(** *** The bearer token *)

(** C1. For the presigned URL [U] that the signer produced during
    credential issuance, the token placed in the kubeconfig is the prefix
    [k8s-aws-v1.] followed by the URL-safe base64 encoding of [U]
    without its trailing ['='] padding; padding the suffix again and
    decoding it gives back the octets of [U]. *)
Theorem token_round_trip self cc params w doc w' :
  EKSCluster_get_kubeconf E self cc params w = (Ok doc, w') ->
  exists (U url_bytes suffix : list Z) history ps hs,
    calls w' = history ++
      [SignRequest "GetCallerIdentity" ps hs "GET" TOKEN_EXPIRATION_MINS] /\
    respond E history
      (SignRequest "GetCallerIdentity" ps hs "GET" TOKEN_EXPIRATION_MINS) =
      Ok (PStr U) /\
    utf8_encode U = Ok url_bytes /\
    lookup_path doc [Key "users"; Index 0; Key "user"; Key "token"] =
      Ok (PStr (TOKEN_PREFIX ++ suffix)) /\
    suffix = rstrip (lit "=") (urlsafe_b64encode url_bytes) /\
    urlsafe_b64decode (repad suffix) = Some url_bytes.
Proof.
  intros H.
  apply get_kubeconf_Ok in H
    as (name & cluster & c & ca & cert & ep & cfg & client & U & url_bytes &
        Hname & Hcluster & Hc & Hca & Hcert & Hep & Hcfg & Hclient & Hurl &
        Hbytes & -> & ->).
  exists U, url_bytes, (rstrip (lit "=") (urlsafe_b64encode url_bytes)),
    (calls w ++ [DescribeCluster [("name", name)]; Boto3Client "sts" cfg]),
    ∅, {[CLUSTER_NAME_HEADER := name]}.
  cbn [calls]. rewrite <- app_assoc. cbn [app].
  repeat split; try assumption; try reflexivity.
  apply token_suffix_round_trip. eapply utf8_encode_octets, Hbytes.
Qed.

(** *** The kubeconfig document *)

Lemma token_prefix_no_pad : Forall (fun c => c <> b64_pad) TOKEN_PREFIX.
Proof.
  apply Forall_forall. intros c Hc. apply list_elem_of_In in Hc.
  vm_compute in Hc. unfold b64_pad.
  repeat (destruct Hc as [<- | Hc]; [discriminate |]). destruct Hc.
Qed.

(** C4. When the provider describes the cluster with an endpoint and CA
    data, the generated document has exactly one cluster, one context
    and one user entry and the current context [aws]; the server is the
    endpoint and the certificate authority data is the CA data as it
    came; the token starts with [k8s-aws-v1.] and has no ['=']. *)
Theorem kubeconfig_shape self cc params w doc w' name cluster ep cad :
  EKSCluster_get_kubeconf E self cc params w = (Ok doc, w') ->
  py_get params CLUSTER_NAME = Ok name ->
  respond E (calls w) (DescribeCluster [("name", name)]) = Ok cluster ->
  lookup_path cluster [Key "cluster"; Key "endpoint"] = Ok (PStr ep) ->
  lookup_path cluster [Key "cluster"; Key "certificateAuthority"; Key "data"] =
    Ok (PStr cad) ->
  exists c x u token,
    getitem doc "clusters" = Ok (PList [c]) /\
    getitem doc "contexts" = Ok (PList [x]) /\
    getitem doc "users" = Ok (PList [u]) /\
    getitem doc "current-context" = Ok (PStr (lit "aws")) /\
    lookup_path doc [Key "clusters"; Index 0; Key "cluster"; Key "server"] =
      Ok (PStr ep) /\
    lookup_path doc [Key "clusters"; Index 0; Key "cluster";
                     Key "certificate-authority-data"] = Ok (PStr cad) /\
    lookup_path doc [Key "users"; Index 0; Key "user"; Key "token"] = Ok (PStr token) /\
    startswith (lit "k8s-aws-v1.") token = true /\
    Forall (fun ch => ch <> b64_pad) token.
Proof.
  intros H Hname Hcluster Hep Hcad.
  apply get_kubeconf_Ok in H
    as (name' & cluster' & c & ca & cert & ep' & cfg & client & U & url_bytes &
        Hname' & Hcluster' & Hc & Hca & Hcert & Hep' & Hcfg & Hclient & Hurl &
        Hbytes & -> & ->).
  rewrite Hname in Hname'. injection Hname' as <-.
  rewrite Hcluster in Hcluster'. injection Hcluster' as <-.
  cbn [lookup_path] in Hep, Hcad.
  rewrite Hc in Hep, Hcad. rewrite Hep' in Hep. rewrite Hca, Hcert in Hcad.
  injection Hep as ->. injection Hcad as ->.
  eexists _, _, _, _.
  repeat split; try reflexivity.
  apply Forall_app. split; [apply token_prefix_no_pad|].
  apply token_suffix_no_pad. eapply utf8_encode_octets, Hbytes.
Qed.

(** *** The cluster-name header *)

(** C5. In every credential issuance, a request handed to the signer no
    longer has the cluster name among its parameters and carries it in
    the header [x-k8s-aws-id]: the name is taken out by the handler of
    parameter provision and put back by the handler registered on the
    before-sign event. *)
Theorem cluster_name_header_signed self cc params w cs i op ps hs m e :
  calls (snd (EKSCluster_get_kubeconf E self cc params w)) = calls w ++ cs ->
  cs !! i = Some (SignRequest op ps hs m e) ->
  (forall c : sts_client,
     events (_register_cluster_name_handlers c) =
       events c ++
       [("provide-client-params.sts.GetCallerIdentity",
         OnParams _retrieve_cluster_name);
        ("before-sign.sts.GetCallerIdentity",
         OnRequest _inject_cluster_name_header)]) /\
  ps !! "ClusterName" = None /\
  exists name,
    py_get params CLUSTER_NAME = Ok name /\
    hs !! CLUSTER_NAME_HEADER = Some name.
Proof.
  intros Hcs Hi. split.
  { intros c. unfold _register_cluster_name_handlers, register. cbn [events].
    rewrite <- app_assoc. reflexivity. }
  apply list_elem_of_lookup_2 in Hi.
  pose proof (issues_elim _ _ _ _ _ (get_kubeconf_issues self cc params w) Hcs Hi)
    as (name & Hname & -> & -> & -> & -> & ->).
  split; [apply lookup_empty|].
  exists name. split; [exact Hname | apply lookup_singleton_eq].
Qed.

End Issuance.

Lemma token_round_trip_witness :
  exists (U url_bytes suffix : list Z) history ps hs,
    calls (World demo_issuance_calls ∅ []) = history ++
      [SignRequest "GetCallerIdentity" ps hs "GET" TOKEN_EXPIRATION_MINS] /\
    respond env_active history
      (SignRequest "GetCallerIdentity" ps hs "GET" TOKEN_EXPIRATION_MINS) =
      Ok (PStr U) /\
    utf8_encode U = Ok url_bytes /\
    lookup_path demo_kubeconf [Key "users"; Index 0; Key "user"; Key "token"] =
      Ok (PStr (TOKEN_PREFIX ++ suffix)) /\
    suffix = rstrip (lit "=") (urlsafe_b64encode url_bytes) /\
    urlsafe_b64decode (repad suffix) = Some url_bytes.
Proof.
  apply (token_round_trip env_active demo_iface demo_client_config demo_params
           world0).
  vm_compute. reflexivity.
Defined.

Lemma kubeconfig_shape_witness :
  exists c x u token,
    getitem demo_kubeconf "clusters" = Ok (PList [c]) /\
    getitem demo_kubeconf "contexts" = Ok (PList [x]) /\
    getitem demo_kubeconf "users" = Ok (PList [u]) /\
    getitem demo_kubeconf "current-context" = Ok (PStr (lit "aws")) /\
    lookup_path demo_kubeconf [Key "clusters"; Index 0; Key "cluster"; Key "server"] =
      Ok (PStr (lit "https://EXAMPLE")) /\
    lookup_path demo_kubeconf [Key "clusters"; Index 0; Key "cluster";
                               Key "certificate-authority-data"] =
      Ok (PStr (lit "Zm9v")) /\
    lookup_path demo_kubeconf [Key "users"; Index 0; Key "user"; Key "token"] =
      Ok (PStr token) /\
    startswith (lit "k8s-aws-v1.") token = true /\
    Forall (fun ch => ch <> b64_pad) token.
Proof.
  apply (kubeconfig_shape env_active demo_iface demo_client_config demo_params
           world0 demo_kubeconf (World demo_issuance_calls ∅ [])
           (PStr (lit "demo")) (demo_cluster "ACTIVE")).
  - vm_compute. reflexivity.
  - reflexivity.
  - reflexivity.
  - reflexivity.
  - reflexivity.
Defined.

Lemma cluster_name_header_signed_witness :
  (forall c : sts_client,
     events (_register_cluster_name_handlers c) =
       events c ++
       [("provide-client-params.sts.GetCallerIdentity",
         OnParams _retrieve_cluster_name);
        ("before-sign.sts.GetCallerIdentity",
         OnRequest _inject_cluster_name_header)]) /\
  (∅ : gmap string pyval) !! "ClusterName" = None /\
  exists name,
    py_get demo_params CLUSTER_NAME = Ok name /\
    ({[CLUSTER_NAME_HEADER := PStr (lit "demo")]} : gmap string pyval)
      !! CLUSTER_NAME_HEADER = Some name.
Proof.
  apply (cluster_name_header_signed env_active demo_iface demo_client_config
           demo_params world0 demo_issuance_calls 2%nat
           "GetCallerIdentity" ∅ {[CLUSTER_NAME_HEADER := PStr (lit "demo")]}
           "GET" 60).
  - vm_compute. reflexivity.
  - reflexivity.
Defined.

(** C2. The expiry that credential issuance hands to the signer, whose
    unit is seconds, is the number of minutes [TOKEN_EXPIRATION_MINS]
    itself: 60, not the 3600 seconds of 60 minutes. *)
Theorem presign_expiry_is_sixty_seconds :
  expiries (calls (snd (EKSCluster_get_kubeconf env_active demo_iface
                          demo_client_config demo_params world0))) =
    [TOKEN_EXPIRATION_MINS] /\
  TOKEN_EXPIRATION_MINS = 60 /\
  TOKEN_EXPIRATION_MINS <> 60 * 60.
Proof.
  split; [vm_compute; reflexivity|].
  split; [reflexivity | discriminate].
Qed.

(** ** Waiting for the cluster *)

Section Waiting.

Context (E : Env).

Lemma poll_trace_attempts kwargs delay k :
  attempts (poll_trace kwargs delay k) = S k.
Proof. induction k as [|k IH]; cbn [poll_trace attempts]; congruence. Qed.

Lemma poll_trace_elapsed kwargs delay k :
  elapsed (poll_trace kwargs delay k) = delay * Z.of_nat k.
Proof.
  induction k as [|k IH]; cbn [poll_trace elapsed]; [lia|].
  rewrite IH. lia.
Qed.

(** The loop polls at most [remaining + 1] times, sleeping between two
    polls; it gives up only after the last of them. *)
Lemma waiter_poll_trace wt kwargs delay remaining w :
  exists k : nat,
    (k <= remaining)%nat /\
    calls (snd (waiter_poll E wt kwargs delay remaining w)) =
      calls w ++ poll_trace kwargs delay k /\
    (fst (waiter_poll E wt kwargs delay remaining w) = Ok tt \/
     fst (waiter_poll E wt kwargs delay remaining w) =
       Raise (WaiterError "Max attempts exceeded") /\ k = remaining).
Proof.
  revert w. induction remaining as [|n IH]; intros w; cbn [waiter_poll].
  - unfold call. destruct (reached wt _); exists 0%nat; cbn; auto.
  - unfold call.
    destruct (reached wt (respond E (calls w) (DescribeCluster kwargs))).
    + exists 0%nat. cbn. split; [lia | auto].
    + unfold bind at 1 2 3, sleep. cbn [calls runtime_properties logged].
      match goal with
      | |- context [waiter_poll E wt kwargs delay n ?w1] =>
          destruct (IH w1) as (k & Hk & Hcalls & Hres)
      end.
      exists (S k). split; [lia|]. cbn [calls] in Hcalls.
      split.
      * rewrite Hcalls, <- !app_assoc. reflexivity.
      * destruct Hres as [-> | [-> ->]]; auto.
Qed.

(** C3. Every wait polls the cluster with a delay of 30 seconds between
    two polls and at most 40 polls; it returns within 40 times 30
    seconds, or raises the timeout error after exactly 40 polls. *)
Theorem wait_for_cluster_bounded self (d : list (string * pyval)) status wt w :
  get_waiter status = Ok wt ->
  exists k : nat,
    let kwargs := [("name", dict_get d CLUSTER_NAME PNone)] in
    let run := EKSCluster_wait_for_cluster E self (PDict d) status w in
    calls (snd run) = calls w ++ poll_trace kwargs 30 k /\
    attempts (poll_trace kwargs 30 k) = S k /\
    (S k <= 40)%nat /\
    elapsed (poll_trace kwargs 30 k) = 30 * Z.of_nat k /\
    elapsed (poll_trace kwargs 30 k) <= 40 * 30 /\
    (fst run = Ok tt \/
     fst run = Raise (WaiterError "Max attempts exceeded") /\ S k = 40%nat).
Proof.
  intros Hwt. unfold EKSCluster_wait_for_cluster.
  rewrite (bind_Ok (lift (get_waiter status)) _ w wt w)
    by (unfold lift; rewrite Hwt; reflexivity).
  cbn [py_get get_method].
  rewrite (bind_Ok (lift (Ok (dict_get d CLUSTER_NAME PNone))) _ w _ w)
    by reflexivity.
  unfold waiter_wait. change (Z.to_nat 40 - 1)%nat with 39%nat.
  destruct (waiter_poll_trace wt [("name", dict_get d CLUSTER_NAME PNone)]
              30 39 w) as (k & Hk & Hcalls & Hres).
  exists k. cbv zeta.
  rewrite poll_trace_attempts, poll_trace_elapsed.
  repeat split; try assumption; try lia.
  destruct Hres as [-> | [-> ->]]; auto.
Qed.

End Waiting.

Lemma wait_for_cluster_bounded_witness :
  exists k : nat,
    let kwargs := [("name", dict_get [("name", PStr (lit "demo"))] CLUSTER_NAME PNone)] in
    let run := EKSCluster_wait_for_cluster env_creating demo_iface demo_params
                 "cluster_active" world0 in
    calls (snd run) = calls world0 ++ poll_trace kwargs 30 k /\
    attempts (poll_trace kwargs 30 k) = S k /\
    (S k <= 40)%nat /\
    elapsed (poll_trace kwargs 30 k) = 30 * Z.of_nat k /\
    elapsed (poll_trace kwargs 30 k) <= 40 * 30 /\
    (fst run = Ok tt \/
     fst run = Raise (WaiterError "Max attempts exceeded") /\ S k = 40%nat).
Proof.
  apply (wait_for_cluster_bounded env_creating demo_iface
           [("name", PStr (lit "demo"))] "cluster_active" cluster_active world0).
  reflexivity.
Defined.

(** A cluster that stays in [CREATING] is given up on after 40 polls and
    39 delays; an active one is accepted at the first poll. *)
Example wait_times_out :
  let run := EKSCluster_wait_for_cluster env_creating demo_iface demo_params
               "cluster_active" world0 in
  fst run = Raise (WaiterError "Max attempts exceeded") /\
  attempts (calls (snd run)) = 40%nat /\
  elapsed (calls (snd run)) = 1170.
Proof. vm_compute. auto. Qed.

Example wait_succeeds_at_once :
  let run := EKSCluster_wait_for_cluster env_active demo_iface demo_params
               "cluster_active" world0 in
  fst run = Ok tt /\ attempts (calls (snd run)) = 1%nat /\
  elapsed (calls (snd run)) = 0.
Proof. vm_compute. auto. Qed.

(** ** Storing the kubeconfig *)

(** The only failure of [json.dumps] is the [TypeError] that names the
    class of the object it cannot encode. *)
Lemma json_dumps_Raise (v : pyval) (e : exn) :
  json_dumps v = Raise e ->
  exists t,
    e = TypeError (lit ("Object of type " ++ t ++ " is not JSON serializable")).
Proof.
  revert v e. fix IH 1.
  intros [| b | n | s | l | d | t] e; cbn [json_dumps]; try discriminate.
  - induction l as [|x l IHl]; [discriminate|].
    destruct (json_dumps x) as [[]|e'] eqn:Hx; [exact IHl|].
    intros [= <-]. exact (IH x e' Hx).
  - induction d as [|[k x] d IHd]; [discriminate|].
    destruct (json_dumps x) as [[]|e'] eqn:Hx; [exact IHd|].
    intros [= <-]. exact (IH x e' Hx).
  - intros [= <-]. eauto.
Qed.

Lemma json_dumps_kubeconf (ep cert token : list Z) :
  json_dumps (cluster_config ep cert token) = Ok tt.
Proof. reflexivity. Qed.

(** C6. Once the kubeconfig document has been obtained: if it cannot be
    serialized to JSON, storing fails with a non-recoverable error whose
    message carries the encoder's own, and the runtime properties are
    left as they were; if it can, the document is stored as it is under
    [kubeconf]. *)
Theorem store_kubeconfig_serialization
    (get_kubeconf : pyval -> pyval -> M pyval)
    (node_props params cc doc : pyval) (w w1 : world) :
  getitem node_props "client_config" = Ok cc ->
  get_kubeconf cc params w = (Ok doc, w1) ->
  let run := _store_kubeconfig_in_runtime_properties get_kubeconf node_props
               params w in
  (forall e, json_dumps doc = Raise e ->
     (exists t,
        exn_text e =
          lit ("Object of type " ++ t ++ " is not JSON serializable")) /\
     fst run = Raise (NonRecoverableError
                        (lit "kubeconf not json serializable " ++ exn_text e)) /\
     snd run = w1) /\
  (json_dumps doc = Ok tt ->
     fst run = Ok tt /\
     runtime_properties (snd run) = <["kubeconf" := doc]> (runtime_properties w1) /\
     runtime_properties (snd run) !! "kubeconf" = Some doc).
Proof.
  intros Hcc Hget run. subst run.
  unfold _store_kubeconfig_in_runtime_properties, try_except, try_except_else.
  rewrite (bind_Ok (lift (getitem node_props "client_config")) _ w cc w)
    by (unfold lift; rewrite Hcc; reflexivity).
  rewrite (bind_Ok _ _ w doc w1 Hget).
  unfold bind, lift. split.
  - intros e He. rewrite He.
    destruct (json_dumps_Raise doc e He) as [t ->].
    cbn [is_TypeError raise fst snd exn_text]. eauto.
  - intros Hok. rewrite Hok. cbn [set_runtime_property fst snd runtime_properties].
    repeat split. apply lookup_insert_eq.
Qed.

Lemma store_kubeconfig_serialization_witness :
  let run := _store_kubeconfig_in_runtime_properties
               (fun _ _ => ret (PDict [("users", PObj "set")]))
               (node_properties demo_ctx) demo_params world0 in
  (forall e, json_dumps (PDict [("users", PObj "set")]) = Raise e ->
     (exists t,
        exn_text e =
          lit ("Object of type " ++ t ++ " is not JSON serializable")) /\
     fst run = Raise (NonRecoverableError
                        (lit "kubeconf not json serializable " ++ exn_text e)) /\
     snd run = world0) /\
  (json_dumps (PDict [("users", PObj "set")]) = Ok tt ->
     fst run = Ok tt /\
     runtime_properties (snd run) =
       <["kubeconf" := PDict [("users", PObj "set")]]> (runtime_properties world0) /\
     runtime_properties (snd run) !! "kubeconf" =
       Some (PDict [("users", PObj "set")])).
Proof.
  apply (store_kubeconfig_serialization
           (fun _ _ => ret (PDict [("users", PObj "set")]))
           (node_properties demo_ctx) demo_params demo_client_config
           (PDict [("users", PObj "set")]) world0 world0).
  - reflexivity.
  - reflexivity.
Defined.

(** A document holding a [set] is refused and nothing is stored; the
    document of the sample cluster is stored. *)
Example store_refuses_set :
  let run := _store_kubeconfig_in_runtime_properties
               (fun _ _ => ret (PDict [("users", PObj "set")]))
               (node_properties demo_ctx) demo_params world0 in
  fst run = Raise (NonRecoverableError
    (lit "kubeconf not json serializable Object of type set is not JSON serializable")) /\
  runtime_properties (snd run) !! "kubeconf" = None.
Proof. vm_compute. auto. Qed.

Example store_keeps_kubeconf :
  let run := _store_kubeconfig_in_runtime_properties
               (EKSCluster_get_kubeconf env_active demo_iface)
               (node_properties demo_ctx) demo_params world0 in
  fst run = Ok tt /\
  runtime_properties (snd run) !! "kubeconf" = Some demo_kubeconf.
Proof. vm_compute. auto. Qed.

(** ** Describing and deleting *)

Section Describing.

Context (E : Env).

(** C8, as the code has it. A provider error raised while describing
    the cluster is swallowed by [describe], which returns the empty
    dictionary, and by [properties] and [status], which return [None];
    it reaches the caller where the provider is asked directly, as in
    [get_kubeconf]. *)
Theorem provider_error_on_describe self params cc kw code w :
  kwargs_of (if truthy params then params else describe_param self) = Ok kw ->
  respond E (calls w) (DescribeCluster kw) = Raise (ClientError code) ->
  fst (EKSCluster_describe E self params w) = Ok (PDict []) /\
  (truthy params = false ->
     fst (EKSCluster_properties E self w) = Ok PNone /\
     fst (EKSCluster_status E self w) = Ok PNone) /\
  (forall d, kw = [("name", dict_get d CLUSTER_NAME PNone)] ->
     fst (EKSCluster_get_kubeconf E self cc (PDict d) w) =
       Raise (ClientError code)).
Proof.
  intros Hkw Hresp.
  assert (forall p, kwargs_of (if truthy p then p else describe_param self) = Ok kw ->
            EKSCluster_describe E self p w =
              (Ok (PDict []),
               World (calls w ++ [DescribeCluster kw]) (runtime_properties w)
                     (logged w))) as Hdescribe.
  { intros p Hp.
    unfold EKSCluster_describe, try_except, try_except_else, bind, lift, call.
    rewrite Hp, Hresp. reflexivity. }
  split; [rewrite (Hdescribe params Hkw); reflexivity|].
  split.
  - intros Hfalsy.
    assert (EKSCluster_properties E self w =
              (Ok PNone,
               World (calls w ++ [DescribeCluster kw]) (runtime_properties w)
                     (logged w))) as Hprops.
    { unfold EKSCluster_properties, try_except_else.
      rewrite Hdescribe; [reflexivity|].
      rewrite Hfalsy in Hkw. exact Hkw. }
    split; [rewrite Hprops; reflexivity|].
    unfold EKSCluster_status, bind. rewrite Hprops. reflexivity.
  - intros d ->.
    unfold EKSCluster_get_kubeconf, bind, lift, call. cbn [py_get get_method].
    fold CLUSTER_NAME in Hresp. 
    change "name" with CLUSTER_NAME. rewrite Hresp. reflexivity.
Qed.

(** C10. Called with its default argument, [delete] sends no request and
    fails on the lookup of [get] on [None]; a value that is no
    dictionary never gets a request sent, a dictionary gets exactly the
    deletion of the cluster it names. *)
Theorem delete_needs_params self w :
  EKSCluster_delete E self PNone w = (Raise (AttributeError "get"), w) /\
  (forall params,
     (exists d, params = PDict d) \/
     EKSCluster_delete E self params w = (Raise (AttributeError "get"), w)) /\
  (forall d,
     calls (snd (EKSCluster_delete E self (PDict d) w)) =
       calls w ++ [DeleteCluster [(CLUSTER_NAME, dict_get d CLUSTER_NAME PNone)]]).
Proof.
  split; [reflexivity|]. split.
  - intros [| | | | |d|]; (left; eexists; reflexivity) || (right; reflexivity).
  - intros d. unfold EKSCluster_delete, bind, lift, call, log, ret.
    cbn [py_get get_method].
    destruct (respond E (calls w) _); reflexivity.
Qed.

End Describing.

Lemma provider_error_on_describe_witness :
  fst (EKSCluster_describe env_denied demo_iface demo_params world0) =
    Ok (PDict []) /\
  (truthy demo_params = false ->
     fst (EKSCluster_properties env_denied demo_iface world0) = Ok PNone /\
     fst (EKSCluster_status env_denied demo_iface world0) = Ok PNone) /\
  (forall d,
     [("name", PStr (lit "demo"))] = [("name", dict_get d CLUSTER_NAME PNone)] ->
     fst (EKSCluster_get_kubeconf env_denied demo_iface demo_client_config
            (PDict d) world0) =
       Raise (ClientError "AccessDeniedException")).
Proof.
  apply (provider_error_on_describe env_denied demo_iface demo_params
           demo_client_config [("name", PStr (lit "demo"))]
           "AccessDeniedException" world0).
  - reflexivity.
  - reflexivity.
Defined.

(** C8, as the spec has it, fails: [describe] called on demand does not
    surface the provider's error. *)
Lemma describe_does_not_surface :
  ~ (forall (E : Env) self params kw code w,
       kwargs_of (if truthy params then params else describe_param self) = Ok kw ->
       respond E (calls w) (DescribeCluster kw) = Raise (ClientError code) ->
       fst (EKSCluster_describe E self params w) = Raise (ClientError code)).
Proof.
  intros H.
  specialize (H env_denied demo_iface demo_params [("name", PStr (lit "demo"))]
                "AccessDeniedException" world0 eq_refl eq_refl).
  vm_compute in H. discriminate H.
Qed.

(** ** After activation *)

Section Poststart.

Context (E : Env).

(** Computations of the module only add to the calls made. *)
Ltac grows :=
  repeat first
    [ apply issues_ret | apply issues_lift | apply issues_log
    | apply issues_raise
    | apply issues_set_runtime_property
    | apply issues_get_runtime_properties
    | apply issues_call; exact I
    | apply issues_bind_lift; intros
    | apply issues_bind_call; [exact I | intros]
    | apply issues_try_except; [| intros]
    | apply issues_try_except_else; [| intros | intros]
    | apply issues_bind; [| intros]
    | match goal with
      | |- issues (if ?b then _ else _) _ _ => destruct b
      end ].

Lemma properties_grows self w :
  issues (EKSCluster_properties E self) w any_call.
Proof. unfold EKSCluster_properties, EKSCluster_describe. grows. Qed.

Lemma py_join_Raise sep l e :
  py_join sep l = Raise e -> is_CloudifyClientError e = false.
Proof.
  revert e. induction l as [|x l IH]; intros e; cbn [py_join]; [discriminate|].
  destruct x; try (intros [= <-]; reflexivity).
  destruct l as [|y l]; [discriminate|].
  destruct (py_join sep (y :: l)); [discriminate|].
  intros [= <-]. apply IH. reflexivity.
Qed.

(** A guarded write is sent whether or not the manager accepts it. *)
Lemma guarded_write_sent (r : result (list Z)) (c : list Z -> Call)
    (caught : exn -> bool) (msg : list Z) w w' :
  (forall e, r = Raise e -> caught e = false) ->
  try_except
    (location <- lift r ;; call E (c location) ;;; ret tt)
    caught (fun _ => log WARN msg) w = (Ok tt, w') ->
  exists location, r = Ok location /\ calls w' = calls w ++ [c location].
Proof.
  intros Hr. unfold try_except, try_except_else, bind, lift, call, ret, log.
  destruct r as [location|e].
  - destruct (respond E (calls w) (c location)) as [a|e].
    + intros [= <-]. eauto.
    + destruct (caught e); intros [= <-]. eauto.
  - rewrite (Hr e eq_refl). discriminate.
Qed.

End Poststart.

(** C7. On a manager that refuses labels and sites with its
    [CloudifyClientError], the refusal of the labels is logged as a
    warning and the run goes on, but the refusal of the site assignment
    is not caught: the run ends with that error, before the [resource]
    property is written. *)
Theorem poststart_site_error_propagates :
  let run := poststart env_incompatible demo_ctx demo_iface demo_params world0 in
  fst run = Raise CloudifyClientError /\
  In labels_warning (logged (snd run)) /\
  ~ In site_warning (logged (snd run)) /\
  runtime_properties (snd run) !! "resource" = None.
Proof.
  vm_compute. repeat split; auto.
  intros [H | [H | []]]; discriminate H.
Qed.

(** The refusal of the labels alone is swallowed, and so is an error of
    the AWS client in the site assignment. *)
Example poststart_label_error_swallowed :
  let run := poststart env_no_labels demo_ctx demo_iface demo_params world0 in
  fst run = Ok tt /\
  In labels_warning (logged (snd run)) /\
  runtime_properties (snd run) !! "resource" <> None.
Proof. vm_compute. repeat split; auto. discriminate. Qed.

Example poststart_site_client_error_swallowed :
  let run := poststart env_site_client_error demo_ctx demo_iface demo_params
               world0 in
  fst run = Ok tt /\
  In site_warning (logged (snd run)) /\
  runtime_properties (snd run) !! "resource" <> None.
Proof. vm_compute. repeat split; auto. discriminate. Qed.


(** * More of the module *)

(** ** The two handlers *)

(** X1. The handler of parameter provision takes [ClusterName], and nothing
    else, out of the parameters and keeps its value in the context under
    [eks_cluster]; without [ClusterName] it changes nothing, so running
    it a second time has no effect. *)
Theorem retrieve_cluster_name_effect (params context : gmap string pyval) :
  let p := fst (_retrieve_cluster_name params context) in
  let c := snd (_retrieve_cluster_name params context) in
  p !! "ClusterName" = None /\
  (forall k, k <> "ClusterName" -> p !! k = params !! k) /\
  c !! "eks_cluster" =
    match params !! "ClusterName" with
    | Some v => Some v
    | None => context !! "eks_cluster"
    end /\
  (forall k, k <> "eks_cluster" -> c !! k = context !! k) /\
  (params !! "ClusterName" = None -> p = params /\ c = context) /\
  _retrieve_cluster_name p c = (p, c).
Proof.
  unfold _retrieve_cluster_name.
  destruct (params !! "ClusterName") as [v|] eqn:Hv; cbn [fst snd].
  - rewrite lookup_delete_eq, lookup_insert_eq.
    repeat split; try discriminate.
    + intros k Hk. apply lookup_delete_ne. congruence.
    + intros k Hk. apply lookup_insert_ne. congruence.
  - rewrite Hv. repeat split; auto.
Qed.

(** X2. On a request that does not carry the header [x-k8s-aws-id] yet,
    as the one that is presigned, the handler of the before-sign event
    sets that header to the cluster name kept in the context, and touches
    no other header, nor the parameters, nor the context; without a kept
    name it leaves the request as it is. *)
Theorem inject_cluster_name_header_effect (r : request) :
  req_headers r !! CLUSTER_NAME_HEADER = None ->
  let r' := _inject_cluster_name_header r in
  req_params r' = req_params r /\
  req_context r' = req_context r /\
  req_headers r' !! CLUSTER_NAME_HEADER = req_context r !! "eks_cluster" /\
  (forall k, k <> CLUSTER_NAME_HEADER -> req_headers r' !! k = req_headers r !! k) /\
  (req_context r !! "eks_cluster" = None -> r' = r).
Proof.
  intros Hfresh. unfold _inject_cluster_name_header.
  destruct (req_context r !! "eks_cluster") as [v|] eqn:Hv;
    cbn [req_params req_headers req_context].
  - rewrite lookup_insert_eq.
    repeat split; try discriminate.
    intros k Hk. apply lookup_insert_ne. congruence.
  - rewrite Hfresh. repeat split; auto.
Qed.

Lemma inject_cluster_name_header_effect_witness :
  let r := Request ∅ {["user-agent" := PStr (lit "Boto3")]}
             {["eks_cluster" := PStr (lit "demo")]} in
  let r' := _inject_cluster_name_header r in
  req_params r' = req_params r /\
  req_context r' = req_context r /\
  req_headers r' !! CLUSTER_NAME_HEADER = req_context r !! "eks_cluster" /\
  (forall k, k <> CLUSTER_NAME_HEADER -> req_headers r' !! k = req_headers r !! k) /\
  (req_context r !! "eks_cluster" = None -> r' = r).
Proof.
  apply (inject_cluster_name_header_effect
           (Request ∅ {["user-agent" := PStr (lit "Boto3")]}
              {["eks_cluster" := PStr (lit "demo")]})).
  reflexivity.
Defined.

Section Handlers.

Context (E : Env).

Lemma emit_params_registered (p c : gmap string pyval) :
  emit_params "provide-client-params.sts.GetCallerIdentity"
    (events (_register_cluster_name_handlers (StsClient []))) p c =
  (let '(p', c') := _retrieve_cluster_name p c in (p', c')).
Proof. reflexivity. Qed.

Lemma emit_request_registered (r : request) :
  emit_request "before-sign.sts.GetCallerIdentity"
    (events (_register_cluster_name_handlers (StsClient []))) r =
  _inject_cluster_name_header r.
Proof. reflexivity. Qed.

(** X3. With the handlers registered on a fresh client, whatever the
    parameters of [get_caller_identity]: the signer receives them without
    [ClusterName], and receives the header [x-k8s-aws-id] exactly when
    [ClusterName] was among them. *)
Theorem presign_moves_cluster_name (params : gmap string pyval)
    (http_method : string) (expires_in : Z) (w : world) :
  generate_presigned_url E (_register_cluster_name_handlers (StsClient []))
    "get_caller_identity" params http_method expires_in w =
  call E (SignRequest "GetCallerIdentity" (base.delete "ClusterName" params)
            match params !! "ClusterName" with
            | Some v => {[CLUSTER_NAME_HEADER := v]}
            | None => ∅
            end
            http_method expires_in) w.
Proof.
  unfold generate_presigned_url.
  change (operation_name "get_caller_identity") with (Ok "GetCallerIdentity").
  unfold bind, lift. cbv beta iota.
  rewrite emit_params_registered.
  unfold _retrieve_cluster_name.
  destruct (params !! "ClusterName") as [v|] eqn:Hv; cbv beta iota zeta;
    rewrite emit_request_registered; unfold _inject_cluster_name_header;
    cbn [req_context req_params req_headers].
  - rewrite lookup_insert_eq. cbn [req_context req_params req_headers].
    rewrite insert_empty. reflexivity.
  - rewrite lookup_empty. cbn [req_context req_params req_headers].
    rewrite delete_id by exact Hv. reflexivity.
Qed.

End Handlers.


(** ** Describing the cluster *)

Section DescribingMore.

Context (E : Env).

(** What [describe] does with the provider's answer. *)
Lemma describe_run self params kw w :
  kwargs_of (if truthy params then params else describe_param self) = Ok kw ->
  EKSCluster_describe E self params w =
    (match respond E (calls w) (DescribeCluster kw) with
     | Ok r => getitem r CLUSTER
     | Raise e => if is_ClientError e then Ok (PDict []) else Raise e
     end,
     World (calls w ++ [DescribeCluster kw]) (runtime_properties w) (logged w)).
Proof.
  intros Hkw.
  unfold EKSCluster_describe, try_except, try_except_else, bind, lift, call, ret.
  rewrite Hkw.
  destruct (respond E (calls w) (DescribeCluster kw)) as [r|e].
  - destruct (getitem r CLUSTER) as [c|e] eqn:Hc; [reflexivity|].
    assert (is_ClientError e = false) as ->; [|reflexivity].
    unfold getitem in Hc. destruct r; try (injection Hc as <-; reflexivity).
    destruct (dict_lookup CLUSTER d); [discriminate|].
    injection Hc as <-. reflexivity.
  - destruct (is_ClientError e); reflexivity.
Qed.

Lemma describe_no_kwargs self params e w :
  kwargs_of (if truthy params then params else describe_param self) = Raise e ->
  EKSCluster_describe E self params w = (Raise e, w).
Proof.
  intros Hkw.
  unfold EKSCluster_describe, try_except, try_except_else, bind, lift.
  rewrite Hkw.
  assert (is_ClientError e = false) as ->; [|reflexivity].
  unfold kwargs_of in Hkw.
  destruct (if truthy params then params else describe_param self);
    try (injection Hkw as <-; reflexivity). discriminate.
Qed.

Lemma describe_no_ClientError self p w code :
  fst (EKSCluster_describe E self p w) <> Raise (ClientError code).
Proof.
  destruct (kwargs_of (if truthy p then p else describe_param self))
    as [kw|e] eqn:Hkw.
  - rewrite (describe_run self p kw w Hkw). cbn [fst].
    destruct (respond E (calls w) (DescribeCluster kw)) as [r|e].
    + unfold getitem. destruct r; try discriminate.
      destruct (dict_lookup CLUSTER d); discriminate.
    + destruct e; cbn [is_ClientError]; discriminate.
  - rewrite (describe_no_kwargs self p e w Hkw). cbn [fst].
    unfold kwargs_of in Hkw.
    destruct (if truthy p then p else describe_param self);
      try (injection Hkw as <-; discriminate). discriminate.
Qed.

Lemma properties_no_ClientError self w code :
  fst (EKSCluster_properties E self w) <> Raise (ClientError code).
Proof.
  unfold EKSCluster_properties, try_except_else, ret.
  pose proof (describe_no_ClientError self PNone w code) as Hd.
  destruct (EKSCluster_describe E self PNone w) as [[v|e] w1]; cbn [fst] in *.
  - discriminate.
  - destruct (is_ClientError e) eqn:He; [discriminate|]. exact Hd.
Qed.

(** X4. Neither [describe] nor the [properties] and [status] accessors ever
    raise the provider's [ClientError]. *)
Theorem describe_never_raises_ClientError self params w code :
  fst (EKSCluster_describe E self params w) <> Raise (ClientError code) /\
  fst (EKSCluster_properties E self w) <> Raise (ClientError code) /\
  fst (EKSCluster_status E self w) <> Raise (ClientError code).
Proof.
  pose proof (properties_no_ClientError self w code) as Hprops.
  split; [apply describe_no_ClientError|]. split; [exact Hprops|].
  unfold EKSCluster_status, bind, ret, lift.
  destruct (EKSCluster_properties E self w) as [[v|e] w1]; cbn [fst] in *.
  - destruct (negb (truthy v)); [discriminate|].
    unfold py_get, get_method. destruct v; discriminate.
  - exact Hprops.
Qed.

(** X5. [properties] returns [None] or a value that counts as true, never an
    empty dictionary; [status] returns [None] whenever [properties]
    does. *)
Theorem properties_None_or_truthy self w v :
  fst (EKSCluster_properties E self w) = Ok v ->
  (v = PNone \/ truthy v = true) /\
  (v = PNone -> fst (EKSCluster_status E self w) = Ok PNone).
Proof.
  intros Hv. split.
  - unfold EKSCluster_properties, try_except_else, ret in Hv.
    destruct (EKSCluster_describe E self PNone w) as [[p|e] w1]; cbn [fst] in Hv.
    + injection Hv as <-. destruct (truthy p) eqn:Hp; cbn [negb]; auto.
    + destruct (is_ClientError e); cbn [fst] in Hv; [|discriminate].
      injection Hv as <-. auto.
  - intros ->. unfold EKSCluster_status, bind, ret.
    destruct (EKSCluster_properties E self w) as [[p|e] w1]; cbn [fst] in *;
      [|discriminate].
    injection Hv as ->. reflexivity.
Qed.

(** X6. An answer of the provider without the [cluster] entry is not
    swallowed: [describe] and [properties] raise the [KeyError]. *)
Theorem describe_without_cluster_entry self kw answer w :
  kwargs_of (describe_param self) = Ok kw ->
  respond E (calls w) (DescribeCluster kw) = Ok (PDict answer) ->
  dict_lookup CLUSTER answer = None ->
  fst (EKSCluster_describe E self PNone w) = Raise (KeyError CLUSTER) /\
  fst (EKSCluster_properties E self w) = Raise (KeyError CLUSTER).
Proof.
  intros Hkw Hresp Hnone.
  assert (EKSCluster_describe E self PNone w =
            (Raise (KeyError CLUSTER),
             World (calls w ++ [DescribeCluster kw]) (runtime_properties w)
                   (logged w))) as Hd.
  { rewrite (describe_run self PNone kw w Hkw), Hresp.
    unfold getitem. rewrite Hnone. reflexivity. }
  split; [rewrite Hd; reflexivity|].
  unfold EKSCluster_properties, try_except_else. rewrite Hd. reflexivity.
Qed.

(** X7. When the provider describes the cluster, [properties] is the
    [cluster] entry of the answer and [status] its [status] entry, or
    [None] when it has none. *)
Theorem status_of_described_cluster self kw answer k v cluster w :
  kwargs_of (describe_param self) = Ok kw ->
  respond E (calls w) (DescribeCluster kw) = Ok answer ->
  getitem answer CLUSTER = Ok (PDict ((k, v) :: cluster)) ->
  fst (EKSCluster_properties E self w) = Ok (PDict ((k, v) :: cluster)) /\
  fst (EKSCluster_status E self w) =
    Ok (dict_get ((k, v) :: cluster) "status" PNone) /\
  calls (snd (EKSCluster_status E self w)) = calls w ++ [DescribeCluster kw].
Proof.
  intros Hkw Hresp Hcluster.
  assert (EKSCluster_properties E self w =
            (Ok (PDict ((k, v) :: cluster)),
             World (calls w ++ [DescribeCluster kw]) (runtime_properties w)
                   (logged w))) as Hp.
  { unfold EKSCluster_properties, try_except_else.
    rewrite (describe_run self PNone kw w Hkw), Hresp, Hcluster. reflexivity. }
  split; [rewrite Hp; reflexivity|].
  unfold EKSCluster_status, bind. rewrite Hp. cbn [truthy negb].
  split; reflexivity.
Qed.

(** X8. An interface initialised for a resource id describes the cluster of
    that name; after [prepare_describe_cluster_filter] it describes the
    cluster named by the parameters; parameters given to [describe]
    itself take precedence, unless they are empty. *)
Theorem describe_parameters rid self params (d : list (string * pyval)) kv w :
  calls (snd (EKSCluster_describe E (EKSCluster_init rid) PNone w)) =
    calls w ++ [DescribeCluster [("name", rid)]] /\
  (forall iface, prepare_describe_cluster_filter (PDict d) self = Ok iface ->
     calls (snd (EKSCluster_describe E iface PNone w)) =
       calls w ++ [DescribeCluster [("name", dict_get d CLUSTER_NAME PNone)]]) /\
  (forall e, prepare_describe_cluster_filter params self = Raise e ->
     e = AttributeError "get") /\
  calls (snd (EKSCluster_describe E self (PDict (kv :: d)) w)) =
    calls w ++ [DescribeCluster (kv :: d)] /\
  EKSCluster_describe E self (PDict []) w = EKSCluster_describe E self PNone w.
Proof.
  split; [rewrite (describe_run _ PNone [("name", rid)]); reflexivity|].
  split.
  { intros iface Hi. unfold prepare_describe_cluster_filter in Hi.
    cbn [py_get get_method] in Hi. injection Hi as <-.
    rewrite (describe_run _ PNone [("name", dict_get d CLUSTER_NAME PNone)]);
      reflexivity. }
  split.
  { intros e He. unfold prepare_describe_cluster_filter, py_get, get_method in He.
    destruct params; try (injection He as <-; reflexivity). discriminate. }
  split; [rewrite (describe_run _ _ (kv :: d)); reflexivity|].
  reflexivity.
Qed.

End DescribingMore.

Lemma properties_None_or_truthy_witness :
  (PNone = PNone \/ truthy PNone = true) /\
  (PNone = PNone -> fst (EKSCluster_status env_denied demo_iface world0) = Ok PNone).
Proof.
  apply (properties_None_or_truthy env_denied demo_iface world0 PNone).
  reflexivity.
Defined.

Lemma describe_without_cluster_entry_witness :
  fst (EKSCluster_describe
         (demo_env (Ok (PDict [("ResponseMetadata", PDict [])])) (Ok PNone) (Ok PNone))
         demo_iface PNone world0) = Raise (KeyError CLUSTER) /\
  fst (EKSCluster_properties
         (demo_env (Ok (PDict [("ResponseMetadata", PDict [])])) (Ok PNone) (Ok PNone))
         demo_iface world0) = Raise (KeyError CLUSTER).
Proof.
  apply (describe_without_cluster_entry
           (demo_env (Ok (PDict [("ResponseMetadata", PDict [])])) (Ok PNone) (Ok PNone))
           demo_iface [("name", PStr (lit "demo"))]
           [("ResponseMetadata", PDict [])] world0).
  - reflexivity.
  - reflexivity.
  - reflexivity.
Defined.

Lemma status_of_described_cluster_witness :
  fst (EKSCluster_properties env_active demo_iface world0) =
    Ok (PDict (("name", PStr (lit "demo")) ::
               [("arn", PStr (lit "arn:aws:eks:eu-west-1:111122223333:cluster/demo"));
                ("status", PStr (lit "ACTIVE"));
                ("endpoint", PStr (lit "https://EXAMPLE"));
                ("certificateAuthority", PDict [("data", PStr (lit "Zm9v"))]);
                ("resourcesVpcConfig",
                 PDict [("subnetIds", PList [PStr (lit "subnet-1")])])])) /\
  fst (EKSCluster_status env_active demo_iface world0) =
    Ok (dict_get
          (("name", PStr (lit "demo")) ::
           [("arn", PStr (lit "arn:aws:eks:eu-west-1:111122223333:cluster/demo"));
            ("status", PStr (lit "ACTIVE"));
            ("endpoint", PStr (lit "https://EXAMPLE"));
            ("certificateAuthority", PDict [("data", PStr (lit "Zm9v"))]);
            ("resourcesVpcConfig",
             PDict [("subnetIds", PList [PStr (lit "subnet-1")])])])
          "status" PNone) /\
  calls (snd (EKSCluster_status env_active demo_iface world0)) =
    calls world0 ++ [DescribeCluster [("name", PStr (lit "demo"))]].
Proof.
  apply (status_of_described_cluster env_active demo_iface
           [("name", PStr (lit "demo"))] (demo_cluster "ACTIVE")).
  - reflexivity.
  - reflexivity.
  - reflexivity.
Defined.


(** ** Issuing the credential *)

Lemma b64_char_urlsafe i :
  sextet i -> urlsafe_encode_translation (b64_char i) ∈ urlsafe_alphabet.
Proof.
  intros Hi. apply list_elem_of_In.
  pose proof (sextet_cases
    (fun i => bool_decide (In (urlsafe_encode_translation (b64_char i))
                              urlsafe_alphabet))) as H.
  eapply bool_decide_eq_true_1, H; [|exact Hi].
  vm_compute. reflexivity.
Qed.

(** The unpadded encoding: URL-safe characters only, four for every
    three octets, rounded up. *)
Lemma token_suffix_shape (s : list Z) :
  Forall octet s ->
  Forall (fun c => c ∈ urlsafe_alphabet) (rstrip (lit "=") (urlsafe_b64encode s)) /\
  Z.of_nat (length (rstrip (lit "=") (urlsafe_b64encode s))) =
    (4 * Z.of_nat (length s) + 2) / 3.
Proof.
  intros Hs.
  assert (exists body k,
    urlsafe_b64encode s = body ++ replicate k b64_pad /\
    Forall (fun c => c ∈ urlsafe_alphabet) body /\
    Z.of_nat (length body) = (4 * Z.of_nat (length s) + 2) / 3)
    as (body & k & Heq & Hbody & Hlen).
  { clear - Hs. unfold urlsafe_b64encode.
    induction s as [| a | a b | a b c l IH] using list_ind3;
      cbn [b64encode map].
    - exists [], 0%nat. repeat split; auto.
    - apply Forall_cons_1 in Hs as [Ha _].
      eexists [_; _], 2%nat. split; [reflexivity|].
      split; [|reflexivity].
      repeat (constructor; [apply b64_char_urlsafe; divmod |]). constructor.
    - apply Forall_cons_1 in Hs as [Ha Hs]. apply Forall_cons_1 in Hs as [Hb _].
      eexists [_; _; _], 1%nat. split; [reflexivity|].
      split; [|reflexivity].
      repeat (constructor; [apply b64_char_urlsafe; divmod |]). constructor.
    - apply Forall_cons_1 in Hs as [Ha Hs]. apply Forall_cons_1 in Hs as [Hb Hs].
      apply Forall_cons_1 in Hs as [Hc Hs].
      destruct (IH Hs) as (body & k & Heq & Hbody & Hlen).
      eexists (_ :: _ :: _ :: _ :: body), k. rewrite Heq.
      split; [reflexivity|]. split.
      + repeat (constructor; [apply b64_char_urlsafe; divmod |]). exact Hbody.
      + cbn [length]. rewrite !Nat2Z.inj_succ, Hlen.
        Z.div_mod_to_equations. lia. }
  change (lit "=") with [b64_pad]. rewrite Heq, rstrip_body.
  - auto.
  - eapply Forall_impl; [exact Hbody|]. intros c Hc ->.
    apply list_elem_of_In in Hc. vm_compute in Hc.
    repeat (destruct Hc as [Hc | Hc]; [discriminate Hc |]). destruct Hc.
Qed.

Section IssuingMore.

Context (E : Env).

(** X9. The token of a successful issuance is the prefix followed by
    URL-safe characters only, four for every three octets of the
    presigned URL, rounded up. *)
Theorem token_is_urlsafe self cc params w doc w' :
  EKSCluster_get_kubeconf E self cc params w = (Ok doc, w') ->
  exists (U url_bytes suffix : list Z) history request,
    calls w' = history ++ [request] /\
    respond E history request = Ok (PStr U) /\
    utf8_encode U = Ok url_bytes /\
    lookup_path doc [Key "users"; Index 0; Key "user"; Key "token"] =
      Ok (PStr (TOKEN_PREFIX ++ suffix)) /\
    Forall (fun c => c ∈ urlsafe_alphabet) suffix /\
    Z.of_nat (length suffix) = (4 * Z.of_nat (length url_bytes) + 2) / 3.
Proof.
  intros H.
  apply get_kubeconf_Ok in H
    as (name & cluster & c & ca & cert & ep & cfg & client & U & url_bytes &
        Hname & Hcluster & Hc & Hca & Hcert & Hep & Hcfg & Hclient & Hurl &
        Hbytes & -> & ->).
  destruct (token_suffix_shape url_bytes (utf8_encode_octets _ _ Hbytes))
    as [Halpha Hlen].
  exists U, url_bytes, (rstrip (lit "=") (urlsafe_b64encode url_bytes)),
    (calls w ++ [DescribeCluster [("name", name)]; Boto3Client "sts" cfg]),
    (SignRequest "GetCallerIdentity" ∅ {[CLUSTER_NAME_HEADER := name]} "GET"
       TOKEN_EXPIRATION_MINS).
  cbn [calls]. rewrite <- app_assoc. cbn [app].
  repeat split; assumption || reflexivity.
Qed.

Lemma keeps_ret {A} (a : A) w : keeps_instance (ret a) w.
Proof. split; reflexivity. Qed.

Lemma keeps_lift {A} (r : result A) w : keeps_instance (lift r) w.
Proof. split; reflexivity. Qed.

Lemma keeps_call (c : Call) w : keeps_instance (call E c) w.
Proof. split; reflexivity. Qed.

Lemma keeps_bind {A B} (m : M A) (k : A -> M B) w :
  keeps_instance m w ->
  (forall a w1, m w = (Ok a, w1) -> keeps_instance (k a) w1) ->
  keeps_instance (bind m k) w.
Proof.
  unfold keeps_instance, bind. intros [Hr Hl] Hk.
  destruct (m w) as [[a|e] w1]; cbn [snd] in *; [|auto].
  destruct (Hk a w1 eq_refl) as [Hr' Hl']. split; congruence.
Qed.

Ltac keeps :=
  repeat first
    [ apply keeps_ret | apply keeps_lift | apply keeps_call
    | apply keeps_bind; [| intros] ].

Lemma get_kubeconf_keeps self cc params w :
  keeps_instance (EKSCluster_get_kubeconf E self cc params) w.
Proof.
  unfold EKSCluster_get_kubeconf, boto3_client, generate_presigned_url.
  keeps. destruct (emit_params _ _ _ _). apply keeps_call.
Qed.

Lemma asks_none {A} (m : M A) w n :
  calls (snd (m w)) = calls w -> asks_at_most m w n.
Proof. intros H. exists []. rewrite app_nil_r. split; [exact H | cbn; lia]. Qed.

Lemma asks_call (c : Call) w n : asks_at_most (call E c) w (S n).
Proof. exists [c]. split; [reflexivity | cbn; lia]. Qed.

Lemma asks_bind {A B} (m : M A) (k : A -> M B) w n1 n2 :
  asks_at_most m w n1 ->
  (forall a w1, m w = (Ok a, w1) -> asks_at_most (k a) w1 n2) ->
  asks_at_most (bind m k) w (n1 + n2).
Proof.
  intros (cs & Hcs & Hn) Hk. unfold asks_at_most, bind.
  destruct (m w) as [[a|e] w1]; cbn [snd] in *.
  - destruct (Hk a w1 eq_refl) as (cs' & Hcs' & Hn').
    exists (cs ++ cs'). rewrite Hcs', Hcs, app_assoc, length_app.
    split; [reflexivity | lia].
  - exists cs. split; [exact Hcs | lia].
Qed.

Lemma asks_bind_lift {A B} (r : result A) (k : A -> M B) w n :
  (forall a, asks_at_most (k a) w n) -> asks_at_most (bind (lift r) k) w n.
Proof.
  intros Hk. apply (asks_bind (lift r) k w 0 n).
  - apply asks_none. reflexivity.
  - intros a w1 [_ ->]%lift_inv_Ok. apply Hk.
Qed.

Lemma asks_bind_call {B} (c : Call) (k : pyval -> M B) w n :
  (forall a w1, asks_at_most (k a) w1 n) ->
  asks_at_most (bind (call E c) k) w (S n).
Proof.
  intros Hk. apply (asks_bind (call E c) k w 1 n).
  - apply asks_call.
  - intros a w1 _. apply Hk.
Qed.

(** X10. Whatever its outcome, issuance changes neither the runtime
    properties nor the log, and asks for at most three things: the
    description of the cluster, an STS client and one signature. *)
Theorem get_kubeconf_keeps_instance self cc params w :
  runtime_properties (snd (EKSCluster_get_kubeconf E self cc params w)) =
    runtime_properties w /\
  logged (snd (EKSCluster_get_kubeconf E self cc params w)) = logged w /\
  exists cs,
    calls (snd (EKSCluster_get_kubeconf E self cc params w)) = calls w ++ cs /\
    (length cs <= 3)%nat /\
    Forall (fun c => match c with
                     | DescribeCluster _ | Boto3Client _ _
                     | SignRequest _ _ _ _ _ => True
                     | _ => False
                     end) cs.
Proof.
  destruct (get_kubeconf_keeps self cc params w) as [Hrp Hlog].
  split; [exact Hrp|]. split; [exact Hlog|].
  assert (asks_at_most (EKSCluster_get_kubeconf E self cc params) w 3)
    as (cs & Hcs & Hn).
  { unfold EKSCluster_get_kubeconf.
    apply asks_bind_lift. intros name.
    apply asks_bind_call. intros cluster w1.
    do 5 (apply asks_bind_lift; intros ?).
    apply (asks_bind _ _ _ 1 1).
    { unfold boto3_client. apply asks_bind_lift. intros kw.
      apply asks_bind_call. intros. apply asks_none. reflexivity. }
    intros sts w2 _. apply asks_bind_lift. intros name'.
    apply (asks_bind _ _ _ 1 0).
    { unfold generate_presigned_url. apply asks_bind_lift. intros op.
      destruct (emit_params _ _ _ _). apply asks_call. }
    intros url w3 _. do 2 (apply asks_bind_lift; intros ?).
    apply asks_none. reflexivity. }
  exists cs. split; [exact Hcs|]. split; [exact Hn|].
  destruct (get_kubeconf_issues E self cc params w) as (cs' & Hcs' & HP).
  rewrite Hcs' in Hcs. apply app_inv_head in Hcs as <-.
  eapply Forall_impl; [exact HP|].
  intros c Hc. unfold issuance_call in Hc. destruct c; try exact I; destruct Hc.
Qed.

(** X11. A cluster described without its certificate authority data or its
    endpoint, as one that is still being created, makes issuance raise
    the [KeyError] of the missing entry after the one describe request:
    no STS client is made and nothing is signed. *)
Theorem get_kubeconf_incomplete_cluster self cc (d : list (string * pyval))
    cluster e w :
  respond E (calls w)
    (DescribeCluster [("name", dict_get d CLUSTER_NAME PNone)]) = Ok cluster ->
  lookup_path cluster [Key "cluster"; Key "certificateAuthority"; Key "data"] =
    Raise e \/
  (exists cert,
     lookup_path cluster [Key "cluster"; Key "certificateAuthority"; Key "data"] =
       Ok cert) /\
  lookup_path cluster [Key "cluster"; Key "endpoint"] = Raise e ->
  EKSCluster_get_kubeconf E self cc (PDict d) w =
    (Raise e,
     World (calls w ++ [DescribeCluster [("name", dict_get d CLUSTER_NAME PNone)]])
           (runtime_properties w) (logged w)).
Proof.
  intros Hresp Hpath.
  unfold EKSCluster_get_kubeconf, bind, lift, call.
  cbn [py_get get_method]. unfold CLUSTER_NAME in *.
  rewrite Hresp. cbn [lookup_path] in Hpath.
  destruct (getitem cluster "cluster") as [c|e1].
  - destruct (getitem c "certificateAuthority") as [ca|e2].
    + destruct (getitem ca "data") as [cert|e3].
      * destruct Hpath as [[=] | [_ Hep]].
        destruct (getitem c "endpoint"); [discriminate|].
        injection Hep as ->. reflexivity.
      * destruct Hpath as [[= ->] | [[cert [=]] _]]. reflexivity.
    + destruct Hpath as [[= ->] | [[cert [=]] _]]. reflexivity.
  - destruct Hpath as [[= ->] | [[cert [=]] _]]. reflexivity.
Qed.

(** X12. With the issuance of [EKSCluster] the JSON check always passes: a
    document that was issued is stored under [kubeconf], with nothing
    else of the runtime properties changed, and storing fails only when
    issuance does. *)
Theorem store_issued_kubeconf self node_props cc params w :
  getitem node_props "client_config" = Ok cc ->
  let issued := EKSCluster_get_kubeconf E self cc params w in
  let run := _store_kubeconfig_in_runtime_properties
               (EKSCluster_get_kubeconf E self) node_props params w in
  calls (snd run) = calls (snd issued) /\
  logged (snd run) = logged w /\
  match fst issued with
  | Ok doc =>
      fst run = Ok tt /\
      runtime_properties (snd run) = <["kubeconf" := doc]> (runtime_properties w)
  | Raise e =>
      fst run = Raise (if is_TypeError e
                       then NonRecoverableError
                              (lit "kubeconf not json serializable " ++ exn_text e)
                       else e) /\
      runtime_properties (snd run) = runtime_properties w
  end.
Proof.
  intros Hcc issued run. subst issued run.
  destruct (get_kubeconf_keeps self cc params w) as [Hrp Hlog].
  unfold _store_kubeconfig_in_runtime_properties, try_except, try_except_else.
  rewrite (bind_Ok (lift (getitem node_props "client_config")) _ w cc w)
    by (unfold lift; rewrite Hcc; reflexivity).
  destruct (EKSCluster_get_kubeconf E self cc params w) as [[doc|e] w1] eqn:Hrun;
    cbn [fst snd] in *.
  - rewrite (bind_Ok _ _ w doc w1 Hrun).
    apply get_kubeconf_Ok in Hrun
      as (name & cluster & c & ca & cert & ep & cfg & client & U & url_bytes &
          _ & _ & _ & _ & _ & _ & _ & _ & _ & _ & -> & ->).
    unfold bind, lift. rewrite json_dumps_kubeconf.
    cbn [set_runtime_property fst snd calls logged runtime_properties].
    auto.
  - rewrite (bind_Raise _ _ w e w1 Hrun).
    destruct (is_TypeError e); cbn [raise fst snd]; auto.
Qed.

(** X13. A client configuration that is no mapping is reported as a
    kubeconfig that is not JSON serializable: issuance raises the
    [TypeError] of the keyword arguments after describing the cluster,
    before anything is signed, and storing turns it into the
    non-recoverable error that carries its text. *)
Theorem store_kubeconfig_bad_client_config self node_props cc
    (d : list (string * pyval)) cluster cert ep e w :
  getitem node_props "client_config" = Ok cc ->
  kwargs_of cc = Raise e ->
  respond E (calls w)
    (DescribeCluster [("name", dict_get d CLUSTER_NAME PNone)]) = Ok cluster ->
  lookup_path cluster [Key "cluster"; Key "certificateAuthority"; Key "data"] =
    Ok cert ->
  lookup_path cluster [Key "cluster"; Key "endpoint"] = Ok ep ->
  let described :=
    World (calls w ++ [DescribeCluster [("name", dict_get d CLUSTER_NAME PNone)]])
          (runtime_properties w) (logged w) in
  is_TypeError e = true /\
  EKSCluster_get_kubeconf E self cc (PDict d) w = (Raise e, described) /\
  _store_kubeconfig_in_runtime_properties
    (EKSCluster_get_kubeconf E self) node_props (PDict d) w =
  (Raise (NonRecoverableError
            (lit "kubeconf not json serializable " ++ exn_text e)),
   described).
Proof.
  intros Hcc Hkw Hresp Hcert Hep described. subst described.
  assert (is_TypeError e = true) as Htype.
  { unfold kwargs_of in Hkw.
    destruct cc; try (injection Hkw as <-; reflexivity). discriminate. }
  assert (EKSCluster_get_kubeconf E self cc (PDict d) w =
            (Raise e,
             World (calls w ++ [DescribeCluster [("name", dict_get d CLUSTER_NAME PNone)]])
                   (runtime_properties w) (logged w))) as Hrun.
  { unfold EKSCluster_get_kubeconf, boto3_client, bind, lift, call.
    cbn [py_get get_method]. unfold CLUSTER_NAME in *.
    rewrite Hresp. cbn [lookup_path] in Hcert, Hep.
    destruct (getitem cluster "cluster") as [c|]; [|discriminate].
    destruct (getitem c "certificateAuthority") as [ca|]; [|discriminate].
    destruct (getitem ca "data"); [|discriminate].
    destruct (getitem c "endpoint"); [|discriminate].
    rewrite Hkw. reflexivity. }
  split; [exact Htype|]. split; [exact Hrun|].
  unfold _store_kubeconfig_in_runtime_properties, try_except, try_except_else.
  rewrite (bind_Ok (lift (getitem node_props "client_config")) _ w cc w)
    by (unfold lift; rewrite Hcc; reflexivity).
  rewrite (bind_Raise _ _ w _ _ Hrun). rewrite Htype. reflexivity.
Qed.

End IssuingMore.

(** X14. Whatever provides the kubeconfig: without [client_config] among the
    node's properties nothing is asked of it and the [KeyError] comes
    out as it is; an exception it raises comes out as it is too, unless
    it is a [TypeError], which is reported as a kubeconfig that is not
    JSON serializable; in neither case does storing write anything. *)
Theorem store_kubeconfig_errors (get_kubeconf : pyval -> pyval -> M pyval)
    (props : list (string * pyval)) (params : pyval) (w : world) :
  (dict_lookup "client_config" props = None ->
     _store_kubeconfig_in_runtime_properties get_kubeconf (PDict props) params w =
       (Raise (KeyError "client_config"), w)) /\
  (forall cc e w1,
     dict_lookup "client_config" props = Some cc ->
     get_kubeconf cc params w = (Raise e, w1) ->
     _store_kubeconfig_in_runtime_properties get_kubeconf (PDict props) params w =
       (Raise (if is_TypeError e
               then NonRecoverableError
                      (lit "kubeconf not json serializable " ++ exn_text e)
               else e), w1)).
Proof.
  unfold _store_kubeconfig_in_runtime_properties, try_except, try_except_else,
    bind, lift, getitem.
  split.
  - intros ->. reflexivity.
  - intros cc e w1 -> Hrun. rewrite Hrun.
    destruct (is_TypeError e); reflexivity.
Qed.

Lemma get_kubeconf_incomplete_cluster_witness :
  EKSCluster_get_kubeconf
    (demo_env (Ok (PDict [("cluster", PDict [("status", PStr (lit "CREATING"))])]))
              (Ok PNone) (Ok PNone))
    demo_iface demo_client_config (PDict [("name", PStr (lit "demo"))]) world0 =
  (Raise (KeyError "certificateAuthority"),
   World (calls world0 ++
            [DescribeCluster [("name", dict_get [("name", PStr (lit "demo"))]
                                         CLUSTER_NAME PNone)]])
         (runtime_properties world0) (logged world0)).
Proof.
  apply (get_kubeconf_incomplete_cluster
           (demo_env (Ok (PDict [("cluster", PDict [("status", PStr (lit "CREATING"))])]))
                     (Ok PNone) (Ok PNone))
           demo_iface demo_client_config [("name", PStr (lit "demo"))]
           (PDict [("cluster", PDict [("status", PStr (lit "CREATING"))])])).
  - reflexivity.
  - left. reflexivity.
Defined.

Lemma store_issued_kubeconf_witness :
  let issued := EKSCluster_get_kubeconf env_active demo_iface demo_client_config
                  demo_params world0 in
  let run := _store_kubeconfig_in_runtime_properties
               (EKSCluster_get_kubeconf env_active demo_iface)
               (node_properties demo_ctx) demo_params world0 in
  calls (snd run) = calls (snd issued) /\
  logged (snd run) = logged world0 /\
  match fst issued with
  | Ok doc =>
      fst run = Ok tt /\
      runtime_properties (snd run) =
        <["kubeconf" := doc]> (runtime_properties world0)
  | Raise e =>
      fst run = Raise (if is_TypeError e
                       then NonRecoverableError
                              (lit "kubeconf not json serializable " ++ exn_text e)
                       else e) /\
      runtime_properties (snd run) = runtime_properties world0
  end.
Proof.
  apply (store_issued_kubeconf env_active demo_iface (node_properties demo_ctx)
           demo_client_config demo_params world0).
  reflexivity.
Defined.

Lemma store_kubeconfig_bad_client_config_witness :
  exists e,
    kwargs_of PNone = Raise e /\
    let described :=
      World (calls world0 ++
               [DescribeCluster [("name", dict_get [("name", PStr (lit "demo"))]
                                            CLUSTER_NAME PNone)]])
            (runtime_properties world0) (logged world0) in
    is_TypeError e = true /\
    EKSCluster_get_kubeconf env_active demo_iface PNone
      (PDict [("name", PStr (lit "demo"))]) world0 = (Raise e, described) /\
    _store_kubeconfig_in_runtime_properties
      (EKSCluster_get_kubeconf env_active demo_iface)
      (PDict [("client_config", PNone)]) (PDict [("name", PStr (lit "demo"))])
      world0 =
    (Raise (NonRecoverableError
              (lit "kubeconf not json serializable " ++ exn_text e)),
     described).
Proof.
  eexists. split; [reflexivity|].
  apply (store_kubeconfig_bad_client_config env_active demo_iface
           (PDict [("client_config", PNone)]) PNone
           [("name", PStr (lit "demo"))] (demo_cluster "ACTIVE")
           (PStr (lit "Zm9v")) (PStr (lit "https://EXAMPLE"))).
  - reflexivity.
  - reflexivity.
  - reflexivity.
  - reflexivity.
  - reflexivity.
Defined.

Lemma token_is_urlsafe_witness :
  exists (U url_bytes suffix : list Z) history request,
    calls (World demo_issuance_calls ∅ []) = history ++ [request] /\
    respond env_active history request = Ok (PStr U) /\
    utf8_encode U = Ok url_bytes /\
    lookup_path demo_kubeconf [Key "users"; Index 0; Key "user"; Key "token"] =
      Ok (PStr (TOKEN_PREFIX ++ suffix)) /\
    Forall (fun c => c ∈ urlsafe_alphabet) suffix /\
    Z.of_nat (length suffix) = (4 * Z.of_nat (length url_bytes) + 2) / 3.
Proof.
  apply (token_is_urlsafe env_active demo_iface demo_client_config demo_params
           world0).
  vm_compute. reflexivity.
Defined.


(** ** Tokens and URLs *)

Lemma utf8_encode_char_inj cp1 cp2 b1 b2 r1 r2 :
  utf8_encode_char cp1 = Ok b1 -> utf8_encode_char cp2 = Ok b2 ->
  b1 ++ r1 = b2 ++ r2 -> cp1 = cp2 /\ r1 = r2.
Proof.
  unfold utf8_encode_char. intros H1 H2 Heq.
  repeat match goal with
         | H : context [if ?c then _ else _] |- _ => destruct c eqn:?
         end; try discriminate;
    injection H1 as <-; injection H2 as <-; cbn [app] in Heq;
    repeat match goal with
           | H : _ :: _ = _ :: _ |- _ => injection H as ? ?
           end;
    first [ split; [Z.div_mod_to_equations; lia | congruence]
          | exfalso; Z.div_mod_to_equations; lia ].
Qed.

Lemma utf8_encode_char_nonempty cp b : utf8_encode_char cp = Ok b -> b <> [].
Proof.
  unfold utf8_encode_char.
  repeat match goal with
         | |- context [if ?c then _ else _] => destruct c
         end; intros [= <-]; discriminate.
Qed.

(** Two strings with the same UTF-8 octets are the same string. *)
Lemma utf8_encode_inj s1 s2 b :
  utf8_encode s1 = Ok b -> utf8_encode s2 = Ok b -> s1 = s2.
Proof.
  revert s2 b. induction s1 as [|c1 s1 IH]; intros [|c2 s2] b; cbn [utf8_encode].
  - reflexivity.
  - intros [= <-].
    destruct (utf8_encode_char c2) as [b2|] eqn:H2; [|discriminate].
    destruct (utf8_encode s2); [|discriminate].
    intros [= H]. apply utf8_encode_char_nonempty in H2.
    destruct b2; [congruence | discriminate].
  - destruct (utf8_encode_char c1) as [b1|] eqn:H1; [|discriminate].
    destruct (utf8_encode s1); [|discriminate].
    intros [= <-] [= H]. apply utf8_encode_char_nonempty in H1.
    destruct b1; [congruence | discriminate].
  - destruct (utf8_encode_char c1) as [b1|] eqn:H1; [|discriminate].
    destruct (utf8_encode s1) as [r1|] eqn:Hr1; [|discriminate].
    destruct (utf8_encode_char c2) as [b2|] eqn:H2; [|discriminate].
    destruct (utf8_encode s2) as [r2|] eqn:Hr2; [|discriminate].
    intros [= <-] [= Heq].
    destruct (utf8_encode_char_inj c1 c2 b1 b2 r1 r2 H1 H2 (eq_sym Heq))
      as [-> ->].
    f_equal. eapply IH; eauto.
Qed.

(** X15. Two issuances, of any cluster and at any time, that put the same
    token in their documents were given the same presigned URL by the
    signer. *)
Theorem token_determines_url E1 E2 self1 self2 cc1 cc2 params1 params2
    w1 w2 doc1 doc2 w1' w2' :
  EKSCluster_get_kubeconf E1 self1 cc1 params1 w1 = (Ok doc1, w1') ->
  EKSCluster_get_kubeconf E2 self2 cc2 params2 w2 = (Ok doc2, w2') ->
  lookup_path doc1 [Key "users"; Index 0; Key "user"; Key "token"] =
    lookup_path doc2 [Key "users"; Index 0; Key "user"; Key "token"] ->
  exists (U : list Z) history1 request1 history2 request2,
    calls w1' = history1 ++ [request1] /\
    calls w2' = history2 ++ [request2] /\
    respond E1 history1 request1 = Ok (PStr U) /\
    respond E2 history2 request2 = Ok (PStr U).
Proof.
  intros H1 H2 Htoken.
  apply get_kubeconf_Ok in H1
    as (name1 & cluster1 & c1 & ca1 & cert1 & ep1 & cfg1 & client1 & U1 & b1 &
        _ & _ & _ & _ & _ & _ & _ & _ & Hurl1 & Hb1 & -> & ->).
  apply get_kubeconf_Ok in H2
    as (name2 & cluster2 & c2 & ca2 & cert2 & ep2 & cfg2 & client2 & U2 & b2 &
        _ & _ & _ & _ & _ & _ & _ & _ & Hurl2 & Hb2 & -> & ->).
  cbn [lookup_path getitem cluster_config dict_lookup String.eqb Ascii.eqb
       Bool.eqb py_index nth_error] in Htoken.
  injection Htoken as Htoken.
  assert (b1 = b2) as <-.
  { pose proof (token_suffix_round_trip b1 (utf8_encode_octets _ _ Hb1)) as R1.
    pose proof (token_suffix_round_trip b2 (utf8_encode_octets _ _ Hb2)) as R2.
    rewrite Htoken in R1. congruence. }
  assert (U1 = U2) as <- by (eapply utf8_encode_inj; eauto).
  exists U1. eexists _, _, _, _. cbn [calls].
  split; [|split; [|split; [exact Hurl1 | exact Hurl2]]];
    rewrite <- app_assoc; reflexivity.
Qed.

Lemma token_determines_url_witness :
  exists (U : list Z) history1 request1 history2 request2,
    calls (World demo_issuance_calls ∅ []) = history1 ++ [request1] /\
    calls (World demo_issuance_calls ∅ []) = history2 ++ [request2] /\
    respond env_active history1 request1 = Ok (PStr U) /\
    respond env_creating history2 request2 = Ok (PStr U).
Proof.
  apply (token_determines_url env_active env_creating demo_iface demo_iface
           demo_client_config demo_client_config demo_params demo_params
           world0 world0 demo_kubeconf demo_kubeconf).
  - vm_compute. reflexivity.
  - vm_compute. reflexivity.
  - reflexivity.
Defined.


(** ** Deleting the cluster *)

Section DeletingMore.

Context (E : Env).

(** X16. The delete operation asks for the deletion of the cluster named in
    the resource configuration, an absent or empty configuration
    included; if the provider refuses, the error comes out and nothing
    is polled; otherwise the cluster is polled, at most 40 times, until
    it is gone. *)
Theorem delete_operation_order ctx iface (d : list (string * pyval)) w :
  let name := dict_get d CLUSTER_NAME PNone in
  let request := DeleteCluster [(CLUSTER_NAME, name)] in
  let run := delete E ctx iface (PDict d) w in
  delete E ctx iface PNone w = delete E ctx iface (PDict []) w /\
  match respond E (calls w) request with
  | Raise e =>
      run = (Raise e,
             World (calls w ++ [request]) (runtime_properties w) (logged w))
  | Ok res =>
      exists k : nat,
        (S k <= 40)%nat /\
        calls (snd run) = calls w ++ request :: poll_trace [("name", name)] 30 k /\
        (fst run = Ok tt \/
         fst run = Raise (WaiterError "Max attempts exceeded") /\ S k = 40%nat)
  end.
Proof.
  intros name request run. subst run. split; [reflexivity|].
  unfold delete.
  assert ((if negb (truthy (PDict d)) then ret (PDict [])
           else lift (py_copy (PDict d))) w = (Ok (PDict d), w)) as Hparams.
  { destruct d; reflexivity. }
  rewrite (bind_Ok _ _ w _ w Hparams).
  assert (EKSCluster_delete E iface (PDict d) w =
            match respond E (calls w) request with
            | Ok res =>
                (Ok res,
                 World (calls w ++ [request]) (runtime_properties w)
                       (logged w ++ [(DEBUG, lit "Response: " ++ text_type E res)]))
            | Raise e =>
                (Raise e,
                 World (calls w ++ [request]) (runtime_properties w) (logged w))
            end) as Hdel.
  { unfold EKSCluster_delete, bind, lift, call, log, ret.
    cbn [py_get get_method]. fold name. fold request.
    destruct (respond E (calls w) request); reflexivity. }
  destruct (respond E (calls w) request) as [res|e].
  - rewrite (bind_Ok _ _ w _ _ Hdel).
    rewrite (bind_Ok (log INFO _) _ _ tt _ eq_refl).
    unfold EKSCluster_wait_for_cluster.
    change (get_waiter "cluster_deleted") with (Ok cluster_deleted).
    unfold bind, lift, py_get, get_method. cbv beta iota.
    cbn [calls runtime_properties logged]. fold name.
    unfold waiter_wait. change (Z.to_nat 40 - 1)%nat with 39%nat.
    match goal with
    | |- context [waiter_poll E cluster_deleted ?kw 30 39 ?w1] =>
        destruct (waiter_poll_trace E cluster_deleted kw 30 39 w1)
          as (k & Hk & Hcalls & Hres)
    end.
    exists k. split; [lia|]. cbn [calls] in Hcalls.
    split; [rewrite Hcalls, <- app_assoc; reflexivity|].
    destruct Hres as [-> | [-> ->]]; auto.
  - rewrite (bind_Raise _ _ w _ _ Hdel). reflexivity.
Qed.

End DeletingMore.

(** ** The zones of the subnets *)

Section Zones.

Context (E : Env).

Lemma get_zones_loop_Ok subnets w zones w' :
  get_zones_loop E subnets w = (Ok zones, w') ->
  length zones = length subnets /\
  w' = World (calls w ++ map SubnetProperties subnets)
             (runtime_properties w) (logged w) /\
  forall i subnet, subnets !! i = Some subnet ->
    exists props az,
      respond E (calls w ++ map SubnetProperties (take i subnets))
        (SubnetProperties subnet) = Ok props /\
      getitem props "AvailabilityZone" = Ok az /\
      zones !! i = Some az.
Proof.
  revert w zones. induction subnets as [|s subnets IH]; intros w zones;
    cbn [get_zones_loop].
  - intros [-> ->]%ret_inv_Ok. cbn [map]. rewrite app_nil_r.
    split; [reflexivity|]. split; [destruct w; reflexivity|].
    intros i subnet H. destruct i; discriminate H.
  - intros H.
    apply bind_call_inv_Ok in H as (props & Hprops & H).
    apply bind_lift_inv_Ok in H as (az & Haz & H).
    apply bind_inv_Ok in H as (zs & w1 & Hloop & H).
    apply ret_inv_Ok in H as [-> ->].
    apply IH in Hloop as (Hlen & -> & Hall). cbn [calls runtime_properties logged] in *.
    split; [cbn [length]; congruence|].
    split; [cbn [map]; rewrite <- app_assoc; reflexivity|].
    intros [|i] subnet Hi.
    + injection Hi as <-. cbn [take map]. rewrite app_nil_r. eauto.
    + cbn in Hi. destruct (Hall i subnet Hi) as (p & a & Hp & Ha & Hz).
      exists p, a. cbn [take map].
      rewrite <- app_assoc in Hp. auto.
Qed.

(** X17. The zones found are one per subnet, in the order of the subnets:
    each subnet is asked for its properties once, in that order, and its
    zone is the [AvailabilityZone] entry of the answer. *)
Theorem get_zones_one_per_subnet ctx subnets w zones w' :
  get_zones E ctx (PList subnets) w = (Ok zones, w') ->
  length zones = length subnets /\
  calls w' = calls w ++ map SubnetProperties subnets /\
  runtime_properties w' = runtime_properties w /\
  logged w' = logged w /\
  forall i subnet, subnets !! i = Some subnet ->
    exists props az,
      respond E (calls w ++ map SubnetProperties (take i subnets))
        (SubnetProperties subnet) = Ok props /\
      getitem props "AvailabilityZone" = Ok az /\
      zones !! i = Some az.
Proof.
  unfold get_zones. intros H.
  apply bind_lift_inv_Ok in H as (l & [= <-] & H).
  apply get_zones_loop_Ok in H as (Hlen & -> & Hall).
  repeat split; auto.
Qed.

Lemma get_zones_loop_Raise subnets w e w' :
  get_zones_loop E subnets w = (Raise e, w') ->
  exists i subnet,
    subnets !! i = Some subnet /\
    w' = World (calls w ++ map SubnetProperties (take (S i) subnets))
               (runtime_properties w) (logged w) /\
    (respond E (calls w ++ map SubnetProperties (take i subnets))
       (SubnetProperties subnet) = Raise e \/
     exists props,
       respond E (calls w ++ map SubnetProperties (take i subnets))
         (SubnetProperties subnet) = Ok props /\
       getitem props "AvailabilityZone" = Raise e).
Proof.
  revert w. induction subnets as [|s subnets IH]; intros w; cbn [get_zones_loop].
  - discriminate.
  - unfold bind at 1, call.
    destruct (respond E (calls w) (SubnetProperties s)) as [props|e1] eqn:Hresp.
    + unfold bind at 1, lift at 1.
      destruct (getitem props "AvailabilityZone") as [az|e2] eqn:Haz.
      * unfold bind at 1.
        match goal with
        | |- context [get_zones_loop E subnets ?w1] =>
            destruct (get_zones_loop E subnets w1) as [[zs|e3] w2] eqn:Hloop
        end; [discriminate|].
        intros [= <- <-].
        apply IH in Hloop as (i & subnet & Hi & -> & Hwhy).
        cbn [calls runtime_properties logged] in *.
        exists (S i), subnet. split; [exact Hi|].
        split; [cbn [take map]; rewrite <- app_assoc; reflexivity|].
        cbn [take map]. rewrite <- !app_assoc in Hwhy. exact Hwhy.
      * intros [= <- <-]. exists 0%nat, s. split; [reflexivity|].
        cbn [take map]. rewrite app_nil_r. split; [reflexivity|]. eauto.
    + intros [= <- <-]. exists 0%nat, s. split; [reflexivity|].
      cbn [take map]. rewrite app_nil_r. split; [reflexivity|]. auto.
Qed.

(** X18. The search stops at the first subnet whose properties cannot be had
    or have no [AvailabilityZone]: the error comes out, and the subnets
    after it are not asked; what is no list, string or dictionary is
    refused before any subnet is asked. *)
Theorem get_zones_stops_at_first_failure ctx subnets w e w' :
  get_zones E ctx subnets w = (Raise e, w') ->
  (py_iter subnets = Raise e /\ w' = w) \/
  exists l i subnet,
    py_iter subnets = Ok l /\
    l !! i = Some subnet /\
    calls w' = calls w ++ map SubnetProperties (take (S i) l) /\
    (respond E (calls w ++ map SubnetProperties (take i l))
       (SubnetProperties subnet) = Raise e \/
     exists props,
       respond E (calls w ++ map SubnetProperties (take i l))
         (SubnetProperties subnet) = Ok props /\
       getitem props "AvailabilityZone" = Raise e).
Proof.
  unfold get_zones, bind, lift.
  destruct (py_iter subnets) as [l|e0].
  - intros H. right.
    apply get_zones_loop_Raise in H as (i & subnet & Hi & -> & Hwhy).
    exists l, i, subnet. auto.
  - intros [= <- <-]. auto.
Qed.

End Zones.

Lemma get_zones_one_per_subnet_witness :
  length [PStr (lit "eu-west-1a"); PStr (lit "eu-west-1a")] =
    length [PStr (lit "subnet-1"); PStr (lit "subnet-2")] /\
  calls (World [SubnetProperties (PStr (lit "subnet-1"));
                SubnetProperties (PStr (lit "subnet-2"))] ∅ []) =
    calls world0 ++
      map SubnetProperties [PStr (lit "subnet-1"); PStr (lit "subnet-2")] /\
  runtime_properties
    (World [SubnetProperties (PStr (lit "subnet-1"));
            SubnetProperties (PStr (lit "subnet-2"))] ∅ []) =
    runtime_properties world0 /\
  logged (World [SubnetProperties (PStr (lit "subnet-1"));
                 SubnetProperties (PStr (lit "subnet-2"))] ∅ []) =
    logged world0 /\
  forall i subnet,
    [PStr (lit "subnet-1"); PStr (lit "subnet-2")] !! i = Some subnet ->
    exists props az,
      respond env_active
        (calls world0 ++
           map SubnetProperties
             (take i [PStr (lit "subnet-1"); PStr (lit "subnet-2")]))
        (SubnetProperties subnet) = Ok props /\
      getitem props "AvailabilityZone" = Ok az /\
      [PStr (lit "eu-west-1a"); PStr (lit "eu-west-1a")] !! i = Some az.
Proof.
  apply (get_zones_one_per_subnet env_active demo_ctx
           [PStr (lit "subnet-1"); PStr (lit "subnet-2")] world0).
  reflexivity.
Defined.

Lemma get_zones_stops_at_first_failure_witness :
  (py_iter PNone = Raise (TypeError (lit "NoneType object is not iterable")) /\
   world0 = world0) \/
  exists l i subnet,
    py_iter PNone = Ok l /\
    l !! i = Some subnet /\
    calls world0 = calls world0 ++ map SubnetProperties (take (S i) l) /\
    (respond env_active (calls world0 ++ map SubnetProperties (take i l))
       (SubnetProperties subnet) =
       Raise (TypeError (lit "NoneType object is not iterable")) \/
     exists props,
       respond env_active (calls world0 ++ map SubnetProperties (take i l))
         (SubnetProperties subnet) = Ok props /\
       getitem props "AvailabilityZone" =
         Raise (TypeError (lit "NoneType object is not iterable"))).
Proof.
  apply (get_zones_stops_at_first_failure env_active demo_ctx PNone world0).
  reflexivity.
Defined.


(** ** After activation, further *)

Lemma dict_get_insert k v (d : list (string * pyval)) default :
  dict_get (dict_insert k v d) k default = v.
Proof.
  unfold dict_get. induction d as [|[k' v'] d IH]; cbn [dict_insert dict_lookup].
  - rewrite String.eqb_refl. reflexivity.
  - destruct (String.eqb k k') eqn:Hk; cbn [dict_lookup].
    + rewrite String.eqb_refl. reflexivity.
    + rewrite Hk. exact IH.
Qed.

Section PoststartMore.

Context (E : Env).

Lemma issues_waiter_poll wt kwargs delay remaining w (P : Call -> Prop) :
  P (DescribeCluster kwargs) -> P (Sleep delay) ->
  issues (waiter_poll E wt kwargs delay remaining) w P.
Proof.
  intros HD HS.
  destruct (waiter_poll_trace E wt kwargs delay remaining w)
    as (k & _ & Hcalls & _).
  exists (poll_trace kwargs delay k). split; [exact Hcalls|].
  clear Hcalls. induction k as [|k IH]; cbn [poll_trace]; repeat constructor; auto.
Qed.

Lemma issues_wait_for_cluster self params status w (P : Call -> Prop) :
  (forall kw, P (DescribeCluster kw)) -> P (Sleep 30) ->
  issues (EKSCluster_wait_for_cluster E self params status) w P.
Proof.
  intros HD HS. unfold EKSCluster_wait_for_cluster.
  apply issues_bind_lift. intros wt _.
  apply issues_bind_lift. intros name _.
  apply issues_waiter_poll; auto.
Qed.

Lemma issues_describe self params w (P : Call -> Prop) :
  (forall kw, P (DescribeCluster kw)) ->
  issues (EKSCluster_describe E self params) w P.
Proof.
  intros HD. unfold EKSCluster_describe.
  apply issues_try_except; [|intros; apply issues_ret].
  apply issues_bind_lift. intros kw _.
  apply issues_bind_call; [apply HD|]. intros. apply issues_lift.
Qed.

Lemma issues_properties self w (P : Call -> Prop) :
  (forall kw, P (DescribeCluster kw)) ->
  issues (EKSCluster_properties E self) w P.
Proof.
  intros HD. unfold EKSCluster_properties.
  apply issues_try_except_else; [apply issues_describe, HD| |];
    intros; apply issues_ret.
Qed.

Lemma issues_get_zones ctx subnets w (P : Call -> Prop) :
  (forall s, P (SubnetProperties s)) ->
  issues (get_zones E ctx subnets) w P.
Proof.
  intros HS. unfold get_zones. apply issues_bind_lift. intros l _.
  revert w. induction l as [|s l IH]; intros w; cbn [get_zones_loop].
  - apply issues_ret.
  - apply issues_bind_call; [apply HS|]. intros props _.
    apply issues_bind_lift. intros az _.
    apply issues_bind; [apply IH|]. intros. apply issues_ret.
Qed.

Lemma issues_store_kubeconfig gk node_props params w (P : Call -> Prop) :
  (forall cc w, issues (gk cc params) w P) ->
  issues (_store_kubeconfig_in_runtime_properties gk node_props params) w P.
Proof.
  intros Hgk. unfold _store_kubeconfig_in_runtime_properties.
  apply issues_try_except; [|intros; apply issues_raise].
  apply issues_bind_lift. intros cc _.
  apply issues_bind; [apply Hgk|]. intros doc w1 _.
  apply issues_bind_lift. intros [] _. apply issues_set_runtime_property.
Qed.

(** What follows the storing of the kubeconfig in [poststart]. *)
Lemma issues_poststart_tail ctx node_props iface resource_config name w
    (P : Call -> Prop) :
  (forall c, not_sts c -> P c) ->
  issues
    (client_config <- lift (getitem node_props "client_config") ;;
     region_name <- lift (getitem client_config "region_name") ;;
     props <- EKSCluster_properties E iface ;;
     arn <- lift (getitem props "arn") ;;
     rp <- get_runtime_properties ;;
     let aws_resource_arn := default arn (rp !! "aws_resource_arn") in
     fargate <- EKSCluster_fargate_profiles E iface ;;
     node_group <- EKSCluster_nodegroups E iface ;;
     let node_type := node_type_of fargate node_group in
     rc <- lift (get_method resource_config) ;;
     props <- EKSCluster_properties E iface ;;
     vpc <- lift (getitem props "resourcesVpcConfig") ;;
     subnets <- lift (getitem (dict_get rc "resourcesVpcConfig" vpc) "subnetIds") ;;
     zones <- get_zones E ctx subnets ;;
     try_except
       (location <- lift (py_join (lit ", ") zones) ;;
        call E (AddNewLabels
                (PDict [
                   ("csys-env-type", PStr (lit "eks"));
                   ("aws-region", region_name);
                   ("external-id", aws_resource_arn);
                   ("eks-node-type", PStr node_type);
                   ("location", PStr location)
                 ])
                (deployment_id ctx)) ;;;
        ret tt)
       is_CloudifyClientError
       (fun _ =>
          log WARN (lit "Skipping assignment of labels due to incompatible Cloudify version.")) ;;;
     try_except
       (location <- lift (LOCATIONS_get E region_name) ;;
        if truthy location then
          coordinates <- lift (getitem location "coordinates") ;;
          call E (AssignSite (deployment_id ctx) coordinates name) ;;;
          ret tt
        else ret tt)
       is_ClientError
       (fun _ =>
          log WARN (lit "Skipping assignment of site due to incompatible Cloudify version.")) ;;;
     props <- EKSCluster_properties E iface ;;
     resource <- call E (JsonCleanuper props) ;;
     set_runtime_property "resource" resource) w P.
Proof.
  intros HP.
  assert (forall kw, P (DescribeCluster kw)) as HD by (intros; apply HP; exact I).
  assert (forall s, P (SubnetProperties s)) as HS by (intros; apply HP; exact I).
  unfold EKSCluster_fargate_profiles, EKSCluster_nodegroups.
  repeat first
    [ apply issues_ret | apply issues_lift | apply issues_log
    | apply issues_set_runtime_property
    | apply issues_get_runtime_properties
    | apply issues_properties; exact HD
    | apply issues_get_zones; exact HS
    | apply issues_bind_lift; intros
    | apply issues_bind_call; [apply HP; exact I | intros]
    | apply issues_try_except; [| intros]
    | apply issues_bind; [| intros]
    | match goal with
      | |- issues (if ?b then _ else _) _ _ => destruct b
      end ].
Qed.

(** The world in which [poststart] starts to wait. *)
Lemma poststart_split ctx iface (d props : list (string * pyval)) w :
  node_properties ctx = PDict props ->
  exists rest : unit -> M unit,
    poststart E ctx iface (PDict d) w =
      bind (EKSCluster_wait_for_cluster E iface
              (PDict (if truthy (resolved_name d props)
                      then dict_insert "name" (resolved_name d props) d
                      else d))
              "cluster_active") rest
        (World (calls w) (runtime_properties w)
               (logged w ++ [(INFO, lit "Waiting for Cluster to become Active.")])) /\
    (forall u w1, issues (rest u) w1 any_call) /\
    (forall flag,
       dict_lookup "store_kube_config_in_runtime" props = Some flag ->
       truthy flag = false ->
       forall u w1, issues (rest u) w1 not_sts).
Proof.
  intros Hprops. unfold poststart. rewrite Hprops.
  assert ((if negb (truthy (PDict d)) then ret (PDict [])
           else lift (py_copy (PDict d))) w = (Ok (PDict d), w)) as H1
    by (destruct d; reflexivity).
  rewrite (bind_Ok _ _ w _ w H1).
  rewrite (bind_Ok (lift (py_get (PDict d) "name")) _ w
             (dict_get d "name" PNone) w eq_refl).
  assert ((if truthy (dict_get d "name" PNone) then ret (dict_get d "name" PNone)
           else lift (py_get (PDict props) "resource_id")) w =
          (Ok (resolved_name d props), w)) as H2.
  { unfold resolved_name. destruct (truthy (dict_get d "name" PNone)); reflexivity. }
  rewrite (bind_Ok _ _ w _ w H2).
  assert ((if truthy (resolved_name d props)
           then lift (setitem (PDict d) "name" (resolved_name d props))
           else ret (PDict d)) w =
          (Ok (PDict (if truthy (resolved_name d props)
                      then dict_insert "name" (resolved_name d props) d
                      else d)), w)) as H3.
  { destruct (truthy (resolved_name d props)); reflexivity. }
  rewrite (bind_Ok _ _ w _ w H3).
  rewrite (bind_Ok (log INFO _) _ w tt _ eq_refl).
  eexists. split; [reflexivity|]. split.
  - intros [] w1.
    apply issues_bind_lift. intros flag _.
    apply issues_bind.
    { destruct (truthy flag); [|apply issues_ret].
      apply issues_store_kubeconfig. intros cc w2.
      eapply issues_weaken; [|apply get_kubeconf_issues]. intros; exact I. }
    intros [] w2 _. apply issues_poststart_tail. intros; exact I.
  - intros flag Hflag Hfalse [] w1.
    apply issues_bind_lift. intros flag' Hflag'.
    unfold getitem in Hflag'. rewrite Hflag in Hflag'. injection Hflag' as <-.
    rewrite Hfalse.
    apply issues_bind; [apply issues_ret|].
    intros [] w2 _. apply issues_poststart_tail. auto.
Qed.

Lemma waited_name (d props : list (string * pyval)) :
  py_get (PDict (if truthy (resolved_name d props)
                 then dict_insert "name" (resolved_name d props) d
                 else d)) CLUSTER_NAME = Ok (polled_name d props).
Proof.
  unfold polled_name, py_get, get_method, CLUSTER_NAME.
  destruct (truthy (resolved_name d props)); [|reflexivity].
  rewrite dict_get_insert. reflexivity.
Qed.

Lemma wait_for_cluster_run self params status wt name w :
  get_waiter status = Ok wt -> py_get params CLUSTER_NAME = Ok name ->
  EKSCluster_wait_for_cluster E self params status w =
    waiter_poll E wt [("name", name)] 30 39 w.
Proof.
  intros Hwt Hname. unfold EKSCluster_wait_for_cluster, bind, lift.
  rewrite Hwt, Hname. reflexivity.
Qed.

Lemma poll_trace_head kwargs delay k :
  exists cs, poll_trace kwargs delay k = DescribeCluster kwargs :: cs.
Proof. destruct k; cbn [poll_trace]; eauto. Qed.

Lemma waiter_poll_never wt kwargs delay remaining w :
  (forall history,
     reached wt (respond E history (DescribeCluster kwargs)) = false) ->
  waiter_poll E wt kwargs delay remaining w =
    (Raise (WaiterError "Max attempts exceeded"),
     World (calls w ++ poll_trace kwargs delay remaining)
           (runtime_properties w) (logged w)).
Proof.
  intros Hnever. revert w.
  induction remaining as [|n IH]; intros w; cbn [waiter_poll poll_trace];
    unfold call; rewrite Hnever; [reflexivity|].
  unfold bind, sleep. rewrite IH. cbn [calls runtime_properties logged].
  rewrite <- !app_assoc. reflexivity.
Qed.

(** X19. The first thing a post-activation run does is to ask the provider
    for the cluster under the name of the resource configuration, or,
    when that has none, under the node's [resource_id]. *)
Theorem poststart_polls_resolved_name ctx iface (d props : list (string * pyval)) w :
  node_properties ctx = PDict props ->
  exists cs,
    calls (snd (poststart E ctx iface (PDict d) w)) =
      calls w ++
      DescribeCluster
        [("name",
          if truthy (dict_get d "name" PNone) then dict_get d "name" PNone
          else if truthy (dict_get props "resource_id" PNone)
               then dict_get props "resource_id" PNone
               else dict_get d "name" PNone)] :: cs.
Proof.
  intros Hprops.
  destruct (poststart_split ctx iface d props w Hprops)
    as (rest & -> & Hrest & _).
  assert (polled_name d props =
          if truthy (dict_get d "name" PNone) then dict_get d "name" PNone
          else if truthy (dict_get props "resource_id" PNone)
               then dict_get props "resource_id" PNone
               else dict_get d "name" PNone) as <-.
  { unfold polled_name, resolved_name.
    destruct (truthy (dict_get d "name" PNone)) eqn:Hn; [rewrite Hn|]; reflexivity. }
  unfold bind at 1.
  rewrite (wait_for_cluster_run _ _ "cluster_active" cluster_active
             (polled_name d props) _ eq_refl (waited_name d props)).
  match goal with
  | |- context [waiter_poll E cluster_active ?kw 30 39 ?w1] =>
      destruct (waiter_poll_trace E cluster_active kw 30 39 w1)
        as (k & _ & Hcalls & _);
      destruct (poll_trace_head kw 30 k) as (cs & Hhead);
      destruct (waiter_poll E cluster_active kw 30 39 w1) as [[[]|e] w2] eqn:Hpoll
  end; cbn [snd calls] in Hcalls.
  - destruct (Hrest tt w2) as (cs' & -> & _).
    rewrite Hcalls, Hhead, <- app_assoc. cbn [app]. eauto.
  - cbn [snd]. rewrite Hcalls, Hhead. eauto.
Qed.

(** X20. When the cluster never becomes active, a post-activation run ends
    with the timeout of the wait after its 40 polls: nothing else is
    asked of anyone and the runtime properties are as they were. *)
Theorem poststart_stops_when_never_active ctx iface
    (d props : list (string * pyval)) w :
  node_properties ctx = PDict props ->
  (forall history kwargs,
     reached cluster_active (respond E history (DescribeCluster kwargs)) = false) ->
  poststart E ctx iface (PDict d) w =
    (Raise (WaiterError "Max attempts exceeded"),
     World (calls w ++ poll_trace [("name", polled_name d props)] 30 39)
           (runtime_properties w)
           (logged w ++ [(INFO, lit "Waiting for Cluster to become Active.")])).
Proof.
  intros Hprops Hnever.
  destruct (poststart_split ctx iface d props w Hprops) as (rest & -> & _).
  unfold bind at 1.
  rewrite (wait_for_cluster_run _ _ "cluster_active" cluster_active
             (polled_name d props) _ eq_refl (waited_name d props)).
  rewrite waiter_poll_never by (intros history; apply Hnever).
  reflexivity.
Qed.

(** X21. With [store_kube_config_in_runtime] switched off, a post-activation
    run, whatever its outcome, never makes an STS client and never has
    anything signed. *)
Theorem poststart_without_kubeconfig ctx iface (d props : list (string * pyval))
    flag w cs :
  node_properties ctx = PDict props ->
  dict_lookup "store_kube_config_in_runtime" props = Some flag ->
  truthy flag = false ->
  calls (snd (poststart E ctx iface (PDict d) w)) = calls w ++ cs ->
  Forall not_sts cs.
Proof.
  intros Hprops Hflag Hfalse Hcs.
  destruct (poststart_split ctx iface d props w Hprops)
    as (rest & Heq & _ & Hrest).
  specialize (Hrest flag Hflag Hfalse).
  assert (issues (poststart E ctx iface (PDict d)) w not_sts)
    as (cs' & Hcs' & HP).
  { unfold issues. rewrite Heq.
    match goal with
    | |- context [bind ?m rest ?w0] =>
        assert (issues (bind m rest) w0 not_sts) as Hi
    end.
    { apply issues_bind; [|intros; apply Hrest].
      apply issues_wait_for_cluster; intros; exact I. }
    exact Hi. }
  rewrite Hcs' in Hcs. apply app_inv_head in Hcs as <-. exact HP.
Qed.

End PoststartMore.

Lemma poststart_polls_resolved_name_witness :
  exists cs,
    calls (snd (poststart env_active demo_ctx demo_iface (PDict []) world0)) =
      calls world0 ++
      DescribeCluster
        [("name",
          if truthy (dict_get [] "name" PNone) then dict_get [] "name" PNone
          else if truthy (dict_get
                            [("resource_id", PStr (lit "demo"));
                             ("store_kube_config_in_runtime", PBool true);
                             ("client_config",
                              PDict [("region_name", PStr (lit "eu-west-1"))])]
                            "resource_id" PNone)
               then dict_get
                      [("resource_id", PStr (lit "demo"));
                       ("store_kube_config_in_runtime", PBool true);
                       ("client_config",
                        PDict [("region_name", PStr (lit "eu-west-1"))])]
                      "resource_id" PNone
               else dict_get [] "name" PNone)] :: cs.
Proof.
  apply (poststart_polls_resolved_name env_active demo_ctx demo_iface []
           [("resource_id", PStr (lit "demo"));
            ("store_kube_config_in_runtime", PBool true);
            ("client_config", PDict [("region_name", PStr (lit "eu-west-1"))])]
           world0).
  reflexivity.
Defined.

Lemma poststart_stops_when_never_active_witness :
  poststart env_creating demo_ctx demo_iface (PDict []) world0 =
    (Raise (WaiterError "Max attempts exceeded"),
     World (calls world0 ++
              poll_trace
                [("name",
                  polled_name []
                    [("resource_id", PStr (lit "demo"));
                     ("store_kube_config_in_runtime", PBool true);
                     ("client_config",
                      PDict [("region_name", PStr (lit "eu-west-1"))])])]
                30 39)
           (runtime_properties world0)
           (logged world0 ++
              [(INFO, lit "Waiting for Cluster to become Active.")])).
Proof.
  apply (poststart_stops_when_never_active env_creating demo_ctx demo_iface []
           [("resource_id", PStr (lit "demo"));
            ("store_kube_config_in_runtime", PBool true);
            ("client_config", PDict [("region_name", PStr (lit "eu-west-1"))])]
           world0).
  - reflexivity.
  - intros history kwargs. reflexivity.
Defined.

Lemma poststart_without_kubeconfig_witness :
  Forall not_sts
    (calls (snd (poststart env_active demo_ctx_no_store demo_iface (PDict [])
                   world0))).
Proof.
  apply (poststart_without_kubeconfig env_active demo_ctx_no_store demo_iface []
           demo_props_no_store (PBool false) world0).
  - reflexivity.
  - reflexivity.
  - reflexivity.
  - reflexivity.
Defined.


(** ** The node type *)

Section Classification.

Context (E : Env).

Lemma issues_run {A} (m : M A) w (P : Call -> Prop) r w' :
  issues m w P -> m w = (r, w') ->
  exists cs, calls w' = calls w ++ cs /\ Forall P cs.
Proof. intros (cs & Hcs & HP) Hrun. rewrite Hrun in Hcs. eauto. Qed.

Lemma issuance_other_call cc params c : issuance_call cc params c -> other_call c.
Proof. destruct c; intros H; first [exact I | destruct H]. Qed.

(** C9. A post-activation run that completes has asked the provider
    once for the fargate profiles of the cluster and once, right after,
    for its node groups, and has then sent the deployment's labels once,
    with a node type derived from the two answers: [fargate-nodegroup]
    when both lists are non-empty, [fargate] when only the fargate
    profiles are, and [nodegroup] otherwise, also when both are
    empty. *)
Theorem poststart_node_type ctx iface resource_config w w' :
  poststart E ctx iface resource_config w = (Ok tt, w') ->
  exists pre mid post fa na fargate node_group labels,
    calls w' =
      calls w ++ pre ++
      [ListFargateProfiles [("clusterName", resource_id iface)];
       ListNodegroups [("clusterName", resource_id iface)]] ++ mid ++
      [AddNewLabels labels (deployment_id ctx)] ++ post /\
    Forall other_call pre /\ Forall other_call mid /\ Forall other_call post /\
    respond E (calls w ++ pre)
      (ListFargateProfiles [("clusterName", resource_id iface)]) = Ok fa /\
    getitem fa "fargateProfileNames" = Ok fargate /\
    respond E
      (calls w ++ pre ++
       [ListFargateProfiles [("clusterName", resource_id iface)]])
      (ListNodegroups [("clusterName", resource_id iface)]) = Ok na /\
    getitem na "nodegroups" = Ok node_group /\
    getitem labels "eks-node-type" =
      Ok (PStr (if truthy fargate
                then if truthy node_group then lit "fargate-nodegroup"
                     else lit "fargate"
                else lit "nodegroup")) /\
    (forall f n, fargate = PList f -> node_group = PList n ->
       getitem labels "eks-node-type" = Ok (PStr (classify f n))).
Proof.
  unfold poststart. intros H.
  assert (forall kw, other_call (DescribeCluster kw)) as HD by (intros; exact I).
  assert (forall s, other_call (SubnetProperties s)) as HS by (intros; exact I).
  apply bind_inv_Ok in H as (params & w1 & H1 & H).
  apply bind_lift_inv_Ok in H as (n & _ & H).
  apply bind_inv_Ok in H as (name & w2 & H2 & H).
  apply bind_inv_Ok in H as (params' & w3 & H3 & H).
  apply bind_inv_Ok in H as ([] & w4 & H4 & H).
  apply bind_inv_Ok in H as ([] & w5 & H5 & H).
  apply bind_lift_inv_Ok in H as (store & _ & H).
  apply bind_inv_Ok in H as ([] & w6 & H6 & H).
  apply bind_lift_inv_Ok in H as (client_config & _ & H).
  apply bind_lift_inv_Ok in H as (region_name & _ & H).
  apply bind_inv_Ok in H as (props & w7 & H7 & H).
  apply bind_lift_inv_Ok in H as (arn & _ & H).
  apply bind_inv_Ok in H as (rp & w8 & H8 & H).
  apply bind_inv_Ok in H as (fargate & w9 & Hfargate & H).
  apply bind_inv_Ok in H as (node_group & w10 & Hnode_group & H).
  apply bind_lift_inv_Ok in H as (rc & _ & H).
  apply bind_inv_Ok in H as (props' & w11 & H11 & H).
  apply bind_lift_inv_Ok in H as (vpc & _ & H).
  apply bind_lift_inv_Ok in H as (subnets & _ & H).
  apply bind_inv_Ok in H as (zones & w12 & H12 & H).
  apply bind_inv_Ok in H as ([] & w13 & Hlabels & H).
  (* what precedes the listings *)
  eapply (issues_run _ _ other_call) in H1 as (c1 & E1 & P1);
    [| destruct (negb _); [apply issues_ret | apply issues_lift]].
  eapply (issues_run _ _ other_call) in H2 as (c2 & E2 & P2);
    [| destruct (truthy n); [apply issues_ret | apply issues_lift]].
  eapply (issues_run _ _ other_call) in H3 as (c3 & E3 & P3);
    [| destruct (truthy name); [apply issues_lift | apply issues_ret]].
  eapply (issues_run _ _ other_call) in H4 as (c4 & E4 & P4);
    [| apply issues_log].
  eapply (issues_run _ _ other_call) in H5 as (c5 & E5 & P5);
    [| apply issues_wait_for_cluster; [exact HD | exact I]].
  eapply (issues_run _ _ other_call) in H6 as (c6 & E6 & P6).
  2:{ destruct (truthy store); [|apply issues_ret].
      apply issues_store_kubeconfig. intros cc w0.
      eapply issues_weaken; [|apply get_kubeconf_issues].
      apply issuance_other_call. }
  eapply (issues_run _ _ other_call) in H7 as (c7 & E7 & P7);
    [| apply issues_properties, HD].
  eapply (issues_run _ _ other_call) in H8 as (c8 & E8 & P8);
    [| apply issues_get_runtime_properties].
  (* the two listings *)
  unfold EKSCluster_fargate_profiles in Hfargate.
  apply bind_call_inv_Ok in Hfargate as (fa & Hfa & Hfargate).
  apply lift_inv_Ok in Hfargate as [Hfargate ->].
  unfold EKSCluster_nodegroups in Hnode_group.
  apply bind_call_inv_Ok in Hnode_group as (na & Hna & Hnode_group).
  apply lift_inv_Ok in Hnode_group as [Hnode_group ->].
  cbn [calls] in *.
  (* between the listings and the labels *)
  eapply (issues_run _ _ other_call) in H11 as (c11 & E11 & P11);
    [| apply issues_properties, HD].
  eapply (issues_run _ _ other_call) in H12 as (c12 & E12 & P12);
    [| apply issues_get_zones, HS].
  apply (guarded_write_sent E (py_join (lit ", ") zones)
           (fun location => AddNewLabels _ (deployment_id ctx)))
    in Hlabels as (location & _ & Hsent);
    [| apply py_join_Raise].
  (* what follows the labels *)
  eapply (issues_run _ _ other_call) in H as (c14 & E14 & P14).
  2:{ apply issues_bind.
      - apply issues_try_except; [|intros; apply issues_log].
        apply issues_bind_lift. intros loc _.
        destruct (truthy loc); [|apply issues_ret].
        apply issues_bind_lift. intros coordinates _.
        apply issues_bind_call; [exact I|]. intros. apply issues_ret.
      - intros [] w14 _.
        apply issues_bind; [apply issues_properties, HD|].
        intros props0 w15 _.
        apply issues_bind_call; [exact I|]. intros.
        apply issues_set_runtime_property. }
  cbn [calls] in *.
  exists (c1 ++ c2 ++ c3 ++ c4 ++ c5 ++ c6 ++ c7 ++ c8), (c11 ++ c12), c14,
    fa, na, fargate, node_group.
  eexists.
  assert (calls w8 = calls w ++ c1 ++ c2 ++ c3 ++ c4 ++ c5 ++ c6 ++ c7 ++ c8)
    as Hpre.
  { rewrite E8, E7, E6, E5, E4, E3, E2, E1, <- !app_assoc. reflexivity. }
  split.
  { rewrite E14, Hsent, E12, E11, Hpre, <- !app_assoc. cbn [app]. reflexivity. }
  split; [repeat (apply Forall_app; split); assumption|].
  split; [apply Forall_app; split; assumption|].
  split; [exact P14|].
  split; [rewrite <- Hpre; exact Hfa|].
  split; [exact Hfargate|].
  split; [rewrite app_assoc, <- Hpre; exact Hna|].
  split; [exact Hnode_group|].
  split.
  - cbn. unfold node_type_of.
    destruct (truthy fargate), (truthy node_group); reflexivity.
  - intros f n' -> ->. cbn. unfold node_type_of.
    destruct f, n'; reflexivity.
Qed.

End Classification.

Lemma poststart_node_type_witness :
  exists pre mid post fa na fargate node_group labels,
    calls (snd (poststart env_active demo_ctx demo_iface demo_params world0)) =
      calls world0 ++ pre ++
      [ListFargateProfiles [("clusterName", resource_id demo_iface)];
       ListNodegroups [("clusterName", resource_id demo_iface)]] ++ mid ++
      [AddNewLabels labels (deployment_id demo_ctx)] ++ post /\
    Forall other_call pre /\ Forall other_call mid /\ Forall other_call post /\
    respond env_active (calls world0 ++ pre)
      (ListFargateProfiles [("clusterName", resource_id demo_iface)]) = Ok fa /\
    getitem fa "fargateProfileNames" = Ok fargate /\
    respond env_active
      (calls world0 ++ pre ++
       [ListFargateProfiles [("clusterName", resource_id demo_iface)]])
      (ListNodegroups [("clusterName", resource_id demo_iface)]) = Ok na /\
    getitem na "nodegroups" = Ok node_group /\
    getitem labels "eks-node-type" =
      Ok (PStr (if truthy fargate
                then if truthy node_group then lit "fargate-nodegroup"
                     else lit "fargate"
                else lit "nodegroup")) /\
    (forall f n, fargate = PList f -> node_group = PList n ->
       getitem labels "eks-node-type" = Ok (PStr (classify f n))).
Proof.
  apply (poststart_node_type env_active demo_ctx demo_iface demo_params world0
           (snd (poststart env_active demo_ctx demo_iface demo_params world0))).
  vm_compute. reflexivity.
Defined.

(** ** Listing, creating, refreshing *)

Section OperationsMore.

Context (E : Env).
Variable make_client_call : string -> pyval -> M pyval.
Variable get_resource_id : Ctx -> pyval -> bool -> bool -> M pyval.
Variable update_resource_id : pyval -> M unit.
Variable update_resource_arn : pyval -> M unit.
Variable is_node_type : Ctx -> list Z -> bool.

Lemma getitem_Raise v k e : getitem v k = Raise e -> is_ClientError e = false.
Proof.
  unfold getitem. destruct v; try (intros [= <-]; reflexivity).
  destruct (dict_lookup k d); [discriminate|]. intros [= <-]. reflexivity.
Qed.

Lemma describe_each_Ok self names w items w' :
  describe_each E self names w = (Ok items, w') ->
  length items = length names /\
  calls w' = calls w ++ map (fun n => DescribeCluster [("name", n)]) names.
Proof.
  revert w items. induction names as [|n names IH]; intros w items;
    cbn [describe_each].
  - intros [-> ->]%ret_inv_Ok. cbn [map]. rewrite app_nil_r. auto.
  - intros H.
    apply bind_inv_Ok in H as (c & w1 & Hc & H).
    apply bind_inv_Ok in H as (cs & w2 & Hcs & H).
    apply ret_inv_Ok in H as [-> ->].
    apply IH in Hcs as [Hlen Hcalls].
    rewrite (describe_run E self (PDict [("name", n)]) [("name", n)] w eq_refl)
      in Hc.
    injection Hc as _ <-. cbn [calls] in Hcalls.
    split; [cbn [length]; congruence|].
    rewrite Hcalls, <- app_assoc. reflexivity.
Qed.

Lemma describe_each_no_ClientError self names w code :
  fst (describe_each E self names w) <> Raise (ClientError code).
Proof.
  revert w. induction names as [|n names IH]; intros w; cbn [describe_each].
  - discriminate.
  - unfold bind at 1.
    pose proof (describe_no_ClientError E self
                  (PDict [("name", n)]) w code) as Hd.
    destruct (EKSCluster_describe E self (PDict [("name", n)]) w)
      as [[c|e] w1]; cbn [fst] in *;
      [|intros [= ->]; apply Hd; reflexivity].
    unfold bind at 1. specialize (IH w1).
    destruct (describe_each E self names w1) as [[cs|e] w2]; cbn [fst] in *;
      [discriminate | exact IH].
Qed.

(** X22. Listing and describing all clusters never raise the provider's
    [ClientError], whatever the client call does: a listing that fails
    with it counts as empty, and then no cluster is described. *)
Theorem listing_never_raises_ClientError self params w code :
  fst (EKSCluster_list make_client_call self params w) <>
    Raise (ClientError code) /\
  fst (EKSCluster_describe_all E make_client_call self w) <>
    Raise (ClientError code) /\
  (forall code' w1,
     make_client_call "list_clusters" PNone w = (Raise (ClientError code'), w1) ->
     EKSCluster_describe_all E make_client_call self w = (Ok (PList []), w1)).
Proof.
  assert (forall p w0,
            fst (EKSCluster_list make_client_call self p w0) <>
              Raise (ClientError code)) as Hlist.
  { intros p w0. unfold EKSCluster_list, try_except, try_except_else, bind, lift.
    destruct (make_client_call "list_clusters" p w0) as [[r|e] w1].
    - destruct (getitem r CLUSTERS) as [v|e] eqn:Hg; [discriminate|].
      rewrite (getitem_Raise _ _ _ Hg). cbn [fst].
      intros [= ->]. apply getitem_Raise in Hg. discriminate.
    - destruct (is_ClientError e) eqn:He; [discriminate|]. cbn [fst].
      intros [= ->]. discriminate. }
  split; [apply Hlist|]. split.
  - unfold EKSCluster_describe_all. unfold bind at 1.
    specialize (Hlist PNone w).
    destruct (EKSCluster_list make_client_call self PNone w) as [[names|e] w1];
      cbn [fst] in *; [|exact Hlist].
    unfold bind at 1, lift.
    destruct (py_iter names) as [l|e] eqn:Hl.
    + unfold bind at 1.
      pose proof (describe_each_no_ClientError self l w1 code) as Hd.
      destruct (describe_each E self l w1) as [[cs|e] w2]; cbn [fst] in *;
        [discriminate | intros [= ->]; apply Hd; reflexivity].
    + cbn [fst]. unfold py_iter in Hl.
      destruct names; try (injection Hl as <-; discriminate); discriminate.
  - intros code' w1 Hcall.
    unfold EKSCluster_describe_all, EKSCluster_list, try_except, try_except_else,
      bind, lift.
    rewrite Hcall. reflexivity.
Qed.

(** X23. When the clusters are listed, describing them all asks the provider
    for each listed name once, in the order of the listing, and returns
    one description for each. *)
Theorem describe_all_one_per_cluster self answer names w w1 v w' :
  make_client_call "list_clusters" PNone w = (Ok answer, w1) ->
  getitem answer CLUSTERS = Ok (PList names) ->
  EKSCluster_describe_all E make_client_call self w = (Ok v, w') ->
  exists items,
    v = PList items /\
    length items = length names /\
    calls w' = calls w1 ++ map (fun n => DescribeCluster [("name", n)]) names.
Proof.
  intros Hcall Hanswer. unfold EKSCluster_describe_all.
  assert (EKSCluster_list make_client_call self PNone w = (Ok (PList names), w1))
    as Hlist.
  { unfold EKSCluster_list, try_except, try_except_else, bind, lift.
    rewrite Hcall, Hanswer. reflexivity. }
  rewrite (bind_Ok _ _ w _ w1 Hlist).
  rewrite (bind_Ok (lift (py_iter (PList names))) _ w1 names w1 eq_refl).
  intros H. apply bind_inv_Ok in H as (items & w2 & Heach & H).
  apply ret_inv_Ok in H as [-> ->].
  apply describe_each_Ok in Heach as [Hlen Hcalls]. eauto.
Qed.

(** X24. Without a resource configuration, [create] fails on the second copy
    of the configuration, after the resource id has been updated: the
    failure is the same whatever the client call would do, so no cluster
    is asked for. *)
Theorem create_without_resource_config ctx iface rid w w1 w2 :
  get_resource_id ctx PNone true false w = (Ok rid, w1) ->
  update_resource_id rid w1 = (Ok tt, w2) ->
  forall client_call : string -> pyval -> M pyval,
    create client_call get_resource_id update_resource_id update_resource_arn
      ctx iface PNone w = (Raise (AttributeError "copy"), w2).
Proof.
  intros Hrid Hupdate client_call. unfold create.
  cbn [truthy negb].
  rewrite (bind_Ok (ret (PDict [])) _ w _ w eq_refl).
  rewrite (bind_Ok (lift (py_get (PDict []) CLUSTER_NAME)) _ w PNone w eq_refl).
  rewrite (bind_Ok _ _ w rid w1 Hrid).
  rewrite (bind_Ok _ _ w1 tt w2 Hupdate).
  reflexivity.
Qed.

(** X25. Refreshing the kubeconfig asks the provider for the cluster named in
    the stored resource configuration, whatever the resource id of the
    interface and the [resource_id] of the node are; a node of another
    type is left alone. *)
Theorem refresh_kubeconfig_describes_stored_name target
    (d props : list (string * pyval)) flag rid w w1 cs kwargs :
  is_node_type target CLUSTER_TYPE = true ->
  default (PDict []) (runtime_properties w !! "resource_config") = PDict d ->
  get_resource_id target PNone false true w = (Ok rid, w1) ->
  node_properties target = PDict props ->
  dict_lookup "store_kube_config_in_runtime" props = Some flag ->
  truthy flag = true ->
  calls (snd (refresh_kubeconfig E get_resource_id is_node_type target w)) =
    calls w1 ++ cs ->
  DescribeCluster kwargs ∈ cs ->
  kwargs = [("name", dict_get d CLUSTER_NAME PNone)].
Proof.
  intros Htype Hrc Hrid Hprops Hflag Htruthy Hcs Hin.
  unfold refresh_kubeconfig in Hcs. rewrite Htype in Hcs.
  rewrite (bind_Ok get_runtime_properties _ w (runtime_properties w) w eq_refl)
    in Hcs.
  cbv zeta in Hcs. rewrite Hrc in Hcs.
  rewrite (bind_Ok _ _ w rid w1 Hrid) in Hcs.
  rewrite Hprops in Hcs.
  rewrite (bind_Ok (lift (getitem (PDict props) "store_kube_config_in_runtime"))
             _ w1 flag w1) in Hcs
    by (unfold lift, getitem; rewrite Hflag; reflexivity).
  rewrite Htruthy in Hcs.
  assert (issues (_store_kubeconfig_in_runtime_properties
                    (EKSCluster_get_kubeconf E (EKSCluster_init rid))
                    (PDict props) (PDict d)) w1
            (fun c => forall kw, c = DescribeCluster kw ->
                        kw = [("name", dict_get d CLUSTER_NAME PNone)])) as Hi.
  { apply issues_store_kubeconfig. intros cc w2.
    eapply issues_weaken; [|apply get_kubeconf_issues].
    intros c Hc kw ->. cbn in Hc. destruct Hc as (name & [= <-] & ->).
    reflexivity. }
  exact (issues_elim _ _ _ _ _ Hi Hcs Hin kwargs eq_refl).
Qed.

(** X26. A cluster prepared without a resource configuration cannot have its
    kubeconfig refreshed: [prepare] stores the configuration as it is
    given, [None], and the refresh then fails on looking the name up in
    it, before the provider is asked. *)
Theorem refresh_after_prepare_without_config ctx iface target
    (props : list (string * pyval)) flag cc rid w w1 w2 :
  prepare update_resource_id ctx iface PNone w = (Ok tt, w1) ->
  is_node_type target CLUSTER_TYPE = true ->
  get_resource_id target PNone false true w1 = (Ok rid, w2) ->
  node_properties target = PDict props ->
  dict_lookup "store_kube_config_in_runtime" props = Some flag ->
  truthy flag = true ->
  dict_lookup "client_config" props = Some cc ->
  runtime_properties w1 !! "resource_config" = Some PNone /\
  refresh_kubeconfig E get_resource_id is_node_type target w1 =
    (Raise (AttributeError "get"), w2).
Proof.
  intros Hprepare Htype Hrid Hprops Hflag Htruthy Hcc.
  assert (runtime_properties w1 !! "resource_config" = Some PNone) as Hstored.
  { unfold prepare in Hprepare.
    apply bind_inv_Ok in Hprepare as (p & wa & _ & H).
    apply bind_lift_inv_Ok in H as (n & _ & H).
    apply bind_inv_Ok in H as (name & wb & _ & H).
    apply bind_inv_Ok in H as (p' & wc & _ & H).
    apply bind_inv_Ok in H as ([] & wd & _ & H).
    unfold set_runtime_property in H. injection H as <-.
    cbn [runtime_properties]. apply lookup_insert_eq. }
  split; [exact Hstored|].
  unfold refresh_kubeconfig. rewrite Htype.
  rewrite (bind_Ok get_runtime_properties _ w1 (runtime_properties w1) w1 eq_refl).
  cbv zeta. rewrite Hstored. cbn [default].
  rewrite (bind_Ok _ _ w1 rid w2 Hrid).
  rewrite Hprops.
  rewrite (bind_Ok (lift (getitem (PDict props) "store_kube_config_in_runtime"))
             _ w2 flag w2)
    by (unfold lift, getitem; rewrite Hflag; reflexivity).
  rewrite Htruthy.
  unfold _store_kubeconfig_in_runtime_properties, try_except, try_except_else,
    bind, lift, getitem.
  rewrite Hcc. reflexivity.
Qed.

End OperationsMore.

Lemma describe_all_one_per_cluster_witness :
  exists items,
    PList [demo_described; demo_described] = PList items /\
    length items = length [PStr (lit "demo"); PStr (lit "other")] /\
    calls (World [DescribeCluster [("name", PStr (lit "demo"))];
                  DescribeCluster [("name", PStr (lit "other"))]] ∅ []) =
      calls world0 ++
        map (fun n => DescribeCluster [("name", n)])
          [PStr (lit "demo"); PStr (lit "other")].
Proof.
  apply (describe_all_one_per_cluster env_active
           (sample_make_client_call (Ok demo_listing)) demo_iface demo_listing
           [PStr (lit "demo"); PStr (lit "other")] world0 world0).
  - reflexivity.
  - reflexivity.
  - vm_compute. reflexivity.
Defined.

Lemma create_without_resource_config_witness :
  create (sample_make_client_call (Ok demo_described)) sample_get_resource_id
    sample_update_resource_id sample_update_resource_arn demo_ctx demo_iface
    PNone world0 =
  (Raise (AttributeError "copy"),
   World [] (<["aws_resource_id" := PStr (lit "demo")]> ∅) []).
Proof.
  apply (create_without_resource_config sample_get_resource_id
           sample_update_resource_id sample_update_resource_arn demo_ctx
           demo_iface (PStr (lit "demo")) world0 world0).
  - reflexivity.
  - reflexivity.
Defined.

Lemma refresh_kubeconfig_describes_stored_name_witness :
  [("name", PNone)] = [("name", dict_get [] CLUSTER_NAME PNone)].
Proof.
  apply (refresh_kubeconfig_describes_stored_name
           (demo_env (Raise (ClientError "ResourceNotFoundException"))
                     (Ok PNone) (Ok PNone))
           sample_get_resource_id sample_is_node_type demo_ctx []
           [("resource_id", PStr (lit "demo"));
            ("store_kube_config_in_runtime", PBool true);
            ("client_config", PDict [("region_name", PStr (lit "eu-west-1"))])]
           (PBool true) (PStr (lit "demo"))
           (world_prepared (PDict [])) (world_prepared (PDict []))
           [DescribeCluster [("name", PNone)]] [("name", PNone)]).
  - reflexivity.
  - reflexivity.
  - reflexivity.
  - reflexivity.
  - reflexivity.
  - reflexivity.
  - vm_compute. reflexivity.
  - apply elem_of_cons. left. reflexivity.
Defined.

Lemma refresh_after_prepare_without_config_witness :
  runtime_properties (world_prepared PNone) !! "resource_config" = Some PNone /\
  refresh_kubeconfig env_active sample_get_resource_id sample_is_node_type
    demo_ctx (world_prepared PNone) =
    (Raise (AttributeError "get"), world_prepared PNone).
Proof.
  apply (refresh_after_prepare_without_config env_active sample_get_resource_id
           sample_update_resource_id sample_is_node_type demo_ctx demo_iface
           demo_ctx
           [("resource_id", PStr (lit "demo"));
            ("store_kube_config_in_runtime", PBool true);
            ("client_config", PDict [("region_name", PStr (lit "eu-west-1"))])]
           (PBool true) (PDict [("region_name", PStr (lit "eu-west-1"))])
           (PStr (lit "demo")) world0 (world_prepared PNone)
           (world_prepared PNone)).
  - vm_compute. reflexivity.
  - reflexivity.
  - reflexivity.
  - reflexivity.
  - reflexivity.
  - reflexivity.
  - reflexivity.
Defined.


(** ** Refusals of the manager *)

Section Refusals.

Context (E : Env).
Variable P : Call -> Prop.

Lemma refused_ret {A} (a : A) w : refused_on (ret a) w P.
Proof. intros [=]. Qed.

Lemma refused_log l msg w : refused_on (log l msg) w P.
Proof. intros [=]. Qed.

Lemma refused_set_runtime_property k v w :
  refused_on (set_runtime_property k v) w P.
Proof. intros [=]. Qed.

Lemma refused_get_runtime_properties w : refused_on get_runtime_properties w P.
Proof. intros [=]. Qed.

Lemma refused_raise {A} e w :
  e <> CloudifyClientError -> refused_on (@raise A e) w P.
Proof. intros He [= ->]. congruence. Qed.

Lemma refused_lift {A} (r : result A) w :
  r <> Raise CloudifyClientError -> refused_on (lift r) w P.
Proof. intros Hr H. cbn in H. congruence. Qed.

Lemma refused_call c w : P c -> refused_on (call E c) w P.
Proof.
  intros Hc _. exists [], c. split; [reflexivity | exact Hc].
Qed.

Lemma refused_bind {A B} (m : M A) (k : A -> M B) w :
  issues m w any_call -> refused_on m w P ->
  (forall a w1, m w = (Ok a, w1) -> refused_on (k a) w1 P) ->
  refused_on (bind m k) w P.
Proof.
  intros (cs0 & Hcs0 & _) Hm Hk. unfold refused_on, bind in *.
  destruct (m w) as [[a|e] w1]; cbn [fst snd] in *.
  - intros H. destruct (Hk a w1 eq_refl H) as (cs & c & Hcs & Hc).
    exists (cs0 ++ cs), c. rewrite Hcs, Hcs0, <- !app_assoc. auto.
  - intros [= ->]. apply Hm. reflexivity.
Qed.

Lemma refused_bind_lift {A B} (r : result A) (k : A -> M B) w :
  r <> Raise CloudifyClientError ->
  (forall a, r = Ok a -> refused_on (k a) w P) ->
  refused_on (bind (lift r) k) w P.
Proof.
  intros Hr Hk. apply refused_bind.
  - apply issues_lift.
  - apply refused_lift, Hr.
  - intros a w1 [-> ->]%lift_inv_Ok. auto.
Qed.

Lemma refused_bind_call {B} c (k : pyval -> M B) w :
  P c ->
  (forall a, refused_on (k a)
               (World (calls w ++ [c]) (runtime_properties w) (logged w)) P) ->
  refused_on (bind (call E c) k) w P.
Proof.
  intros Hc Hk. apply refused_bind.
  - apply issues_call. exact I.
  - apply refused_call, Hc.
  - unfold call. intros a w1 [= _ <-]. apply Hk.
Qed.

Lemma refused_try_except {A} (body : M A) caught (handler : exn -> M A) w :
  issues body w any_call -> refused_on body w P ->
  (forall e w1, body w = (Raise e, w1) -> caught e = true ->
     fst (handler e w1) <> Raise CloudifyClientError) ->
  refused_on (try_except body caught handler) w P.
Proof.
  intros _ Hb Hh. unfold refused_on, try_except, try_except_else, ret in *.
  destruct (body w) as [[a|e] w1] eqn:Hbody; cbn [fst snd] in *.
  - intros [=].
  - destruct (caught e) eqn:Hc.
    + intros H. destruct (Hh e w1 eq_refl Hc H).
    + exact Hb.
Qed.

(** A block that catches the manager's error and only logs never ends
    with it. *)
Lemma swallowed {A} (body : M A) (handler : exn -> M A) w :
  (forall e w1, fst (handler e w1) <> Raise CloudifyClientError) ->
  fst (try_except body is_CloudifyClientError handler w) <>
    Raise CloudifyClientError.
Proof.
  intros Hh. unfold try_except, try_except_else, ret.
  destruct (body w) as [[a|e] w1]; cbn [fst]; [discriminate|].
  destruct (is_CloudifyClientError e) eqn:He; [apply Hh|].
  cbn [fst]. intros [= ->]. discriminate.
Qed.

End Refusals.

(** None of the plain operations of the module fails with the manager's
    error. *)
Lemma getitem_not_refused v k : getitem v k <> Raise CloudifyClientError.
Proof.
  unfold getitem. destruct v; try discriminate.
  destruct (dict_lookup k d); discriminate.
Qed.

Lemma py_get_not_refused v k : py_get v k <> Raise CloudifyClientError.
Proof. unfold py_get, get_method. destruct v; discriminate. Qed.

Lemma get_method_not_refused v : get_method v <> Raise CloudifyClientError.
Proof. unfold get_method. destruct v; discriminate. Qed.

Lemma py_copy_not_refused v : py_copy v <> Raise CloudifyClientError.
Proof. destruct v; discriminate. Qed.

Lemma setitem_not_refused v k x : setitem v k x <> Raise CloudifyClientError.
Proof. destruct v; discriminate. Qed.

Lemma kwargs_of_not_refused v : kwargs_of v <> Raise CloudifyClientError.
Proof. destruct v; discriminate. Qed.

Lemma py_iter_not_refused v : py_iter v <> Raise CloudifyClientError.
Proof. destruct v; discriminate. Qed.

Lemma py_join_not_refused sep l : py_join sep l <> Raise CloudifyClientError.
Proof. intros H. apply py_join_Raise in H. discriminate. Qed.

Lemma get_waiter_not_refused s : get_waiter s <> Raise CloudifyClientError.
Proof.
  unfold get_waiter. repeat destruct (String.eqb _ _); discriminate.
Qed.

Lemma json_dumps_not_refused v : json_dumps v <> Raise CloudifyClientError.
Proof. intros H. apply json_dumps_Raise in H as [t [=]]. Qed.

Lemma LOCATIONS_get_not_refused E k : LOCATIONS_get E k <> Raise CloudifyClientError.
Proof. destruct k; discriminate. Qed.

Lemma operation_name_not_refused m : operation_name m <> Raise CloudifyClientError.
Proof.
  unfold operation_name. repeat destruct (String.eqb _ _); discriminate.
Qed.

Lemma utf8_encode_not_refused s : utf8_encode s <> Raise CloudifyClientError.
Proof.
  induction s as [|cp s IH]; cbn [utf8_encode]; [discriminate|].
  unfold utf8_encode_char.
  repeat match goal with
         | |- context [if ?c then _ else _] => destruct c
         end; try discriminate;
    destruct (utf8_encode s); try discriminate; congruence.
Qed.

Lemma py_encode_utf8_not_refused v : py_encode_utf8 v <> Raise CloudifyClientError.
Proof. destruct v; try discriminate. apply utf8_encode_not_refused. Qed.

Lemma ascii_decode_not_refused b : ascii_decode b <> Raise CloudifyClientError.
Proof.
  induction b as [|c b IH]; cbn [ascii_decode]; [discriminate|].
  destruct ((0 <=? c) && (c <? 128)); [|discriminate].
  destruct (ascii_decode b); try discriminate; congruence.
Qed.

Section LabelsSwallowed.

Context (E : Env).

Ltac refusals :=
  repeat first
    [ apply refused_ret | apply refused_log
    | apply refused_set_runtime_property
    | apply refused_get_runtime_properties
    | apply refused_lift;
      first [ apply getitem_not_refused | apply py_get_not_refused
            | apply get_method_not_refused | apply py_copy_not_refused
            | apply setitem_not_refused | apply kwargs_of_not_refused
            | apply py_iter_not_refused | apply py_join_not_refused
            | apply json_dumps_not_refused | apply LOCATIONS_get_not_refused
            | apply get_waiter_not_refused | apply operation_name_not_refused
            | apply py_encode_utf8_not_refused | apply ascii_decode_not_refused ]
    | apply refused_call; exact I
    | apply refused_bind_lift;
      [ first [ apply getitem_not_refused | apply py_get_not_refused
              | apply get_method_not_refused | apply py_copy_not_refused
              | apply setitem_not_refused | apply kwargs_of_not_refused
              | apply py_iter_not_refused | apply py_join_not_refused
              | apply json_dumps_not_refused | apply LOCATIONS_get_not_refused
              | apply get_waiter_not_refused | apply operation_name_not_refused
              | apply py_encode_utf8_not_refused | apply ascii_decode_not_refused ]
      | intros ]
    | apply refused_bind_call; [exact I | intros]
    | match goal with
      | |- refused_on (if ?b then _ else _) _ _ => destruct b
      end ].

Lemma refused_describe self params w :
  refused_on (EKSCluster_describe E self params) w not_labels.
Proof.
  unfold EKSCluster_describe.
  apply refused_try_except.
  - apply issues_bind_lift. intros. apply issues_bind_call; [exact I|].
    intros. apply issues_lift.
  - refusals.
  - intros. discriminate.
Qed.

Lemma refused_properties self w :
  refused_on (EKSCluster_properties E self) w not_labels.
Proof.
  unfold EKSCluster_properties.
  pose proof (refused_describe self PNone w) as Hd.
  unfold refused_on, try_except_else, ret in *.
  destruct (EKSCluster_describe E self PNone w) as [[v|e] w1]; cbn [fst snd] in *.
  - intros [=].
  - destruct (is_ClientError e); [intros [=] | exact Hd].
Qed.

Lemma waiter_poll_not_refused wt kwargs delay remaining w :
  fst (waiter_poll E wt kwargs delay remaining w) <> Raise CloudifyClientError.
Proof.
  destruct (waiter_poll_trace E wt kwargs delay remaining w)
    as (k & _ & _ & [-> | [-> _]]); discriminate.
Qed.

Lemma refused_wait_for_cluster self params status w :
  refused_on (EKSCluster_wait_for_cluster E self params status) w not_labels.
Proof.
  unfold EKSCluster_wait_for_cluster. refusals.
  intros Hrefused. unfold waiter_wait in Hrefused.
  destruct (waiter_poll_not_refused _ _ _ _ _ Hrefused).
Qed.

Lemma refused_get_kubeconf self cc params w :
  refused_on (EKSCluster_get_kubeconf E self cc params) w not_labels.
Proof.
  unfold EKSCluster_get_kubeconf. refusals.
  apply refused_bind.
  { unfold boto3_client. apply issues_bind_lift. intros.
    apply issues_bind_call; [exact I|]. intros. apply issues_ret. }
  { unfold boto3_client. refusals. }
  intros sts w1 _. refusals.
  apply refused_bind.
  { unfold generate_presigned_url. apply issues_bind_lift. intros.
    destruct (emit_params _ _ _ _). apply issues_call. exact I. }
  { unfold generate_presigned_url. refusals.
    destruct (emit_params _ _ _ _). refusals. }
  intros url w2 _. refusals.
Qed.

Lemma refused_bind_ret {A B} (a : A) (k : A -> M B) w (P : Call -> Prop) :
  refused_on (k a) w P -> refused_on (bind (ret a) k) w P.
Proof. intros H. exact H. Qed.

Lemma never_refused {A} (m : M A) w (P : Call -> Prop) :
  fst (m w) <> Raise CloudifyClientError -> refused_on m w P.
Proof. intros Hm H. destruct (Hm H). Qed.

Lemma refused_get_zones_loop (ctx : Ctx) l w :
  refused_on (get_zones_loop E l) w not_labels.
Proof.
  revert w. induction l as [|s l IH]; intros w; cbn [get_zones_loop].
  - apply refused_ret.
  - refusals. apply refused_bind.
    + eapply (issues_get_zones E ctx (PList l)). intros; exact I.
    + exact (IH _).
    + intros. apply refused_ret.
Qed.

Lemma refused_get_zones ctx subnets w :
  refused_on (get_zones E ctx subnets) w not_labels.
Proof.
  unfold get_zones. refusals. apply (refused_get_zones_loop ctx).
Qed.

Lemma refused_store_kubeconfig self node_props params w :
  refused_on (_store_kubeconfig_in_runtime_properties
                (EKSCluster_get_kubeconf E self) node_props params) w not_labels.
Proof.
  unfold _store_kubeconfig_in_runtime_properties.
  apply refused_try_except.
  - apply issues_bind_lift. intros cc _.
    apply issues_bind.
    + eapply issues_weaken; [|apply get_kubeconf_issues]. intros; exact I.
    + intros. apply issues_bind_lift. intros. apply issues_set_runtime_property.
  - refusals. apply refused_bind.
    + eapply issues_weaken; [|apply get_kubeconf_issues]. intros; exact I.
    + apply refused_get_kubeconf.
    + intros. refusals.
  - intros. discriminate.
Qed.

Ltac issuing :=
  repeat first
    [ apply issues_ret | apply issues_lift | apply issues_log
    | apply issues_set_runtime_property
    | apply issues_get_runtime_properties
    | apply issues_properties; intros; exact I
    | apply issues_get_zones; intros; exact I
    | apply issues_wait_for_cluster; intros; exact I
    | apply issues_bind_lift; intros
    | apply issues_bind_call; [exact I | intros]
    | apply issues_try_except; [| intros]
    | apply issues_bind; [| intros]
    | match goal with
      | |- issues (if ?b then _ else _) _ _ => destruct b
      end ].

Ltac refusals' :=
  repeat first
    [ progress refusals
    | apply refused_bind_ret
    | match goal with
      | |- refused_on (bind (if ?b then _ else _) _) _ _ => destruct b
      | |- refused_on (bind (log _ _) _) _ _ =>
          apply refused_bind; [apply issues_log | apply refused_log | intros]
      | |- refused_on (bind get_runtime_properties _) _ _ =>
          apply refused_bind;
          [ apply issues_get_runtime_properties
          | apply refused_get_runtime_properties | intros ]
      | |- refused_on (bind (EKSCluster_wait_for_cluster _ _ _ _) _) _ _ =>
          apply refused_bind;
          [ apply issues_wait_for_cluster; intros; exact I
          | apply refused_wait_for_cluster | intros ]
      | |- refused_on (bind (EKSCluster_properties _ _) _) _ _ =>
          apply refused_bind;
          [ apply issues_properties; intros; exact I
          | apply refused_properties | intros ]
      | |- refused_on (bind (EKSCluster_fargate_profiles _ _) _) _ _ =>
          apply refused_bind;
          [ unfold EKSCluster_fargate_profiles; issuing
          | unfold EKSCluster_fargate_profiles; refusals | intros ]
      | |- refused_on (bind (EKSCluster_nodegroups _ _) _) _ _ =>
          apply refused_bind;
          [ unfold EKSCluster_nodegroups; issuing
          | unfold EKSCluster_nodegroups; refusals | intros ]
      | |- refused_on (bind (get_zones _ _ _) _) _ _ =>
          apply refused_bind;
          [ apply issues_get_zones; intros; exact I
          | apply refused_get_zones | intros ]
      | |- refused_on (bind (_store_kubeconfig_in_runtime_properties _ _ _) _) _ _ =>
          apply refused_bind;
          [ apply issues_store_kubeconfig; intros;
            eapply issues_weaken; [|apply get_kubeconf_issues]; intros; exact I
          | apply refused_store_kubeconfig | intros ]
      | |- refused_on (bind (try_except _ is_CloudifyClientError _) _) _ _ =>
          apply refused_bind;
          [ issuing
          | apply never_refused, swallowed; intros; discriminate
          | intros ]
      | |- refused_on (bind (try_except _ is_ClientError _) _) _ _ =>
          apply refused_bind;
          [ issuing
          | apply refused_try_except; [issuing | refusals | intros; discriminate]
          | intros ]
      end ].

(** X27. A post-activation run never ends on a refusal of the labels: when
    it ends with the manager's [CloudifyClientError], the call that was
    refused is another one. *)
Theorem poststart_label_refusal_swallowed ctx iface resource_config w :
  fst (poststart E ctx iface resource_config w) = Raise CloudifyClientError ->
  exists cs c,
    calls (snd (poststart E ctx iface resource_config w)) = calls w ++ cs ++ [c] /\
    not_labels c.
Proof.
  change (refused_on (poststart E ctx iface resource_config) w not_labels).
  unfold poststart.
  refusals'.
Qed.

End LabelsSwallowed.

Lemma poststart_label_refusal_swallowed_witness :
  exists cs c,
    calls (snd (poststart env_incompatible demo_ctx demo_iface demo_params
                  world0)) = calls world0 ++ cs ++ [c] /\
    not_labels c.
Proof.
  apply (poststart_label_refusal_swallowed env_incompatible demo_ctx demo_iface
           demo_params world0).
  vm_compute. reflexivity.
Defined.
